(** * Website Time Tracker: the session tracker of the service worker

    A shallow embedding of the tracker functions of the service worker
    (the version with incognito support): [hostnameFromUrl],
    [getSettings], [shouldTrack], [roundMs], [endSession],
    [persistRunningTotal], [stopTracking], [startTracking] and the
    recovery block at the head of [handleActiveTab]; of the event
    handlers built on them ([handleActiveTab], [handleWindowFocus],
    [onIdleStateChange], [onTabActivated], [onTabUpdated],
    [reconcileWithCurrentTab], [onTabRemoved] and the listeners for
    removed windows, the alarm, startup and installation); of the two
    listeners that merge incognito data into storage; and of the
    functions of the popup that work on stored data
    ([getTimelineSortedChronologically], [getTimelineNewestFirst],
    [aggregateTimeline], [computeTagMsFromDay], saving the settings).

    Conventions of the embedding:
    - JavaScript numbers that the tracker handles are millisecond counts
      and identifiers; they are integers and are modelled as [Z].
    - [null] and [undefined] of a nullable variable are [None].
    - The module-level [let] variables are the fields of [Mem];
      [chrome.storage.local] is [Storage].
    - An [async] function is cut at its first [await] where the source
      relies on that cut ([endSession] inside [stopTracking]); the rest of
      its body runs as one step when its promise settles.
    - One run of a handler sees one state of the browser ([Chrome]); each
      place of the run that reads the clock has a reading of its own
      ([Readings]).
    - A listener is modelled as one step, from its start to its end; the
      statements about a listener hold for a run that no other listener
      interrupts at an [await]. [persistRunningTotal] is also given cut at
      its [await]s.
    - An object used as a map is a [gmap] where only its content matters
      and a list of entries in insertion order where its order does. A
      loop over the entries of a [gmap] visits them in the order of the
      map; the loops modelled so add to or replace one entry per step, so
      their result does not depend on that order.
    - A [gmap] holds the entries that the object has itself. Where the
      tracker reads [o[name]] under a hostname ([day.domains]), and where
      the popup reads it under a tag or a domain ([tagMs], [domainTags]),
      the names that every object inherits from [Object.prototype] are
      taken into account ([inherited], [store_ms], [add_tag_ms]). *)

From Stdlib Require Import ZArith String Ascii List Bool Lia.
From stdpp Require Import gmap strings list fin_maps sorting pretty.

Local Open Scope string_scope.
Local Open Scope Z_scope.

(** ** JavaScript values found in storage *)

#[local] Set Warnings "-register-all".

Inductive JSVal : Type :=
| JUndefined
| JNull
| JBool (b : bool)
| JNum (n : Z)
| JStr (s : string)
| JArr (elems : list JSVal)
| JObj (fields : list (string * JSVal)).

(** Truthiness: [undefined], [null], [false], [0] and the empty string are
    falsy, everything else (every object and array included) is truthy. *)
Definition truthy (v : JSVal) : bool :=
  match v with
  | JUndefined | JNull => false
  | JBool b => b
  | JNum n => negb (n =? 0)
  | JStr s => negb (String.eqb s "")
  | JArr _ | JObj _ => true
  end.

Fixpoint assoc (k : string) (fs : list (string * JSVal)) : option JSVal :=
  match fs with
  | [] => None
  | (k', v) :: fs' => if String.eqb k k' then Some v else assoc k fs'
  end.

(** [v.k] for one of the setting names: a [TypeError] ([None]) on [null]
    and [undefined], [undefined] on primitives and arrays, the field (or
    [undefined]) on an object. *)
Definition get_prop (v : JSVal) (k : string) : option JSVal :=
  match v with
  | JUndefined | JNull => None
  | JObj fs => Some (default JUndefined (assoc k fs))
  | _ => Some JUndefined
  end.

(** [a || b] *)
Definition js_or (a b : JSVal) : JSVal := if truthy a then a else b.

Definition DEFAULT_GRANULARITY_MS : Z := 1000.

Record Settings : Type := {
  excludeDomains : list JSVal;
  timeGranularityMs : Z;
  keepIncognitoData : bool
}.

(** [chrome.storage.local.get({ settings: {} })]: the stored value, or the
    default [{}] when the key is absent. *)
Definition storage_get_settings (stored : option JSVal) : JSVal :=
  default (JObj []) stored.

(** [getSettings]; [None] stands for a thrown exception. *)
Definition getSettings (stored : option JSVal) : option Settings :=
  let raw_settings := storage_get_settings stored in
  let s := js_or raw_settings (JObj []) in
  ex ← get_prop s "excludeDomains";
  gr ← get_prop s "timeGranularityMs";
  kp ← get_prop s "keepIncognitoData";
  Some {| excludeDomains := match ex with JArr l => l | _ => [] end;
          timeGranularityMs :=
            match gr with JNum n => n | _ => DEFAULT_GRANULARITY_MS end;
          keepIncognitoData :=
            match kp with JBool true => true | _ => false end |}.

(** [excludeDomains.includes(hostname)]: only a string element equal to
    [hostname] matches. *)
Definition includes (l : list JSVal) (hostname : string) : bool :=
  existsb (fun v => match v with JStr s => String.eqb s hostname | _ => false end) l.

Definition shouldTrack (hostname : string) (excl : list JSVal) : bool :=
  if String.eqb hostname "" then false else negb (includes excl hostname).

Definition roundMs (ms granularityMs : Z) : Z :=
  if (granularityMs =? 0) || (granularityMs <=? 0) then ms
  else (ms / granularityMs) * granularityMs.

(** ** Domain classification *)

Definition startsWith (url p : string) : bool := String.prefix p url.

(** [s.replace(/^www\./, '')] *)
Definition strip_www (s : string) : string :=
  if String.prefix "www." s then String.substring 4 (String.length s - 4) s
  else s.

Section Classification.
(** The platform's URL parser: [URL_hostname url] is [new URL(url).hostname],
    [None] when the constructor throws. *)
Variable URL_hostname : string -> option string.

Definition hostnameFromUrl (url : string) : option string :=
  if String.eqb url ""
     || startsWith url "chrome://"
     || startsWith url "chrome-extension://"
     || startsWith url "edge://"
     || startsWith url "about:"
  then None
  else match URL_hostname url with
       | Some h =>
           let r := strip_www h in
           if String.eqb r "" then None else Some r
       | None => None
       end.
End Classification.

(** ** Tracker state *)

(** One timeline block [{ start, end, domain }]. *)
Record Block : Type := {
  blk_start : Z;
  blk_end : Z;
  blk_domain : string
}.

(** A day record [{ domains, timeline }]; [domains] maps a hostname to the
    [ms] field of its entry. *)
Record Day : Type := {
  domains : gmap string Z;
  timeline : list Block
}.

(** [currentSession: { domain, start }] *)
Record CurrentSession : Type := {
  cs_domain : string;
  cs_start : Z
}.

(** The stored [_pendingSession]; a field that is absent, [undefined] or
    [null] reads as [None]. *)
Record PendingSession : Type := {
  ps_domain : option string;
  ps_start : option Z;
  ps_persistedAt : option Z;
  ps_windowId : option Z;
  ps_wasIncognito : option bool
}.

Record Storage : Type := {
  settings : option JSVal;
  days : gmap string Day;
  currentSession : option CurrentSession;
  _pendingSession : option PendingSession
}.

(** The argument of [endSession]. [tabIdToCheck] and [wasIncognito] tell
    [undefined] (outer [None]) from a value. *)
Record SessionOverride : Type := {
  ov_domain : option string;
  ov_start : option Z;
  ov_persistedAt : option Z;
  ov_tabIdToCheck : option (option Z);
  ov_wasIncognito : option bool
}.

(** The locals an [endSession] call holds across its first [await]. *)
Record Claimed : Type := {
  c_domain : string;
  c_start : Z;
  c_persistedAt : option Z;
  c_wasIncognito : bool
}.

(** The promise of an [endSession] call, identified with what is left of
    the call: [None] when it returned at [if (domain == null || start ==
    null) return], [Some c] when its continuation is still to run. *)
Definition Promise : Type := option Claimed.

Record Mem : Type := {
  lastDomain : option string;
  lastStartTimestamp : option Z;
  lastPersistedAt : option Z;
  lastTabId : option Z;
  lastTabIncognito : bool;
  lastFocusedWindowId : option Z;
  lastTrackedWindowId : option Z;
  incognitoWindowIds : gset Z;
  isIdle : bool;
  pendingWrite : option Promise
}.

Definition World : Type := Mem * Storage.

(** A reading of the clock: [Date.now()] and [getDateKey()]. *)
Record Clock : Type := {
  now : Z;
  dateKey : string
}.

Definition set_pendingWrite (p : option Promise) (m : Mem) : Mem :=
  {| lastDomain := lastDomain m;
     lastStartTimestamp := lastStartTimestamp m;
     lastPersistedAt := lastPersistedAt m;
     lastTabId := lastTabId m;
     lastTabIncognito := lastTabIncognito m;
     lastFocusedWindowId := lastFocusedWindowId m;
     lastTrackedWindowId := lastTrackedWindowId m;
     incognitoWindowIds := incognitoWindowIds m;
     isIdle := isIdle m;
     pendingWrite := p |}.

Definition set_lastPersistedAt (t : option Z) (m : Mem) : Mem :=
  {| lastDomain := lastDomain m;
     lastStartTimestamp := lastStartTimestamp m;
     lastPersistedAt := t;
     lastTabId := lastTabId m;
     lastTabIncognito := lastTabIncognito m;
     lastFocusedWindowId := lastFocusedWindowId m;
     lastTrackedWindowId := lastTrackedWindowId m;
     incognitoWindowIds := incognitoWindowIds m;
     isIdle := isIdle m;
     pendingWrite := pendingWrite m |}.

Definition set_lastFocusedWindowId (wid : option Z) (m : Mem) : Mem :=
  {| lastDomain := lastDomain m;
     lastStartTimestamp := lastStartTimestamp m;
     lastPersistedAt := lastPersistedAt m;
     lastTabId := lastTabId m;
     lastTabIncognito := lastTabIncognito m;
     lastFocusedWindowId := wid;
     lastTrackedWindowId := lastTrackedWindowId m;
     incognitoWindowIds := incognitoWindowIds m;
     isIdle := isIdle m;
     pendingWrite := pendingWrite m |}.

(** The clearing block of [endSession]:
    [lastDomain = null; lastStartTimestamp = null; lastPersistedAt = null;
     lastTabId = null; lastTabIncognito = false; lastTrackedWindowId = null]. *)
Definition clear_session_end (m : Mem) : Mem :=
  {| lastDomain := None;
     lastStartTimestamp := None;
     lastPersistedAt := None;
     lastTabId := None;
     lastTabIncognito := false;
     lastFocusedWindowId := lastFocusedWindowId m;
     lastTrackedWindowId := None;
     incognitoWindowIds := incognitoWindowIds m;
     isIdle := isIdle m;
     pendingWrite := pendingWrite m |}.

(** The clearing block of [persistRunningTotal]:
    [lastDomain = null; lastStartTimestamp = null; lastPersistedAt = null;
     lastTabId = null]. *)
Definition clear_session_flush (m : Mem) : Mem :=
  {| lastDomain := None;
     lastStartTimestamp := None;
     lastPersistedAt := None;
     lastTabId := None;
     lastTabIncognito := lastTabIncognito m;
     lastFocusedWindowId := lastFocusedWindowId m;
     lastTrackedWindowId := lastTrackedWindowId m;
     incognitoWindowIds := incognitoWindowIds m;
     isIdle := isIdle m;
     pendingWrite := pendingWrite m |}.

Definition set_days (d : gmap string Day) (s : Storage) : Storage :=
  {| settings := settings s;
     days := d;
     currentSession := currentSession s;
     _pendingSession := _pendingSession s |}.

Definition set_currentSession (c : option CurrentSession) (s : Storage) : Storage :=
  {| settings := settings s;
     days := days s;
     currentSession := c;
     _pendingSession := _pendingSession s |}.

Definition set__pendingSession (p : option PendingSession) (s : Storage) : Storage :=
  {| settings := settings s;
     days := days s;
     currentSession := currentSession s;
     _pendingSession := p |}.

Definition empty_day : Day := {| domains := ∅; timeline := [] |}.

(** [if (!days[key]) days[key] = { domains: {}, timeline: [] }; days[key]].
    The key is a date as [getDateKey] writes it (it contains two dashes),
    which no object inherits a property for. *)
Definition day_of (ds : gmap string Day) (key : string) : Day :=
  default empty_day (ds !! key).

(** The [ms] field of the entry that [day.domains] itself has for
    [domain], 0 when it has none. *)
Definition ms_of (day : Day) (domain : string) : Z :=
  default 0 (domains day !! domain).

(** The names that every plain object inherits from [Object.prototype].
    Each of them reads as a function or an object, so [!o[name]] is false
    for an object [o] that has no entry of its own under that name. *)
Definition Object_prototype_names : list string :=
  ["constructor"; "__defineGetter__"; "__defineSetter__"; "hasOwnProperty";
   "__lookupGetter__"; "__lookupSetter__"; "isPrototypeOf";
   "propertyIsEnumerable"; "toString"; "valueOf"; "__proto__";
   "toLocaleString"].

Definition inherited (name : string) : bool :=
  existsb (String.eqb name) Object_prototype_names.

(** [if (!o[k]) o[k] = { ms: 0 }; o[k].ms = v] on the plain object [o] of
    a day's domains. An entry of [o] is updated. A name without an entry
    gets one, unless the name is inherited: then [o[k]] is the inherited
    value, no entry is made, the assignment to [.ms] lands on the inherited
    value and [o] is left as it was. *)
Definition store_ms (o : gmap string Z) (k : string) (v : Z) : gmap string Z :=
  match o !! k with
  | Some _ => <[k := v]> o
  | None => if inherited k then o else <[k := v]> o
  end.

(** ** Tracker operations *)

(** [endSession(override)] up to its first [await]: the locals are read,
    the session is cleared when it has a domain and a start, and the call
    returns at once when it has not. *)
Definition endSession_claim (override : option SessionOverride) (m : Mem)
  : Mem * Promise :=
  let useOverride :=
    match override with
    | Some o =>
        match ov_domain o, ov_start o with
        | Some _, Some _ => Some o
        | _, _ => None
        end
    | None => None
    end in
  let domain :=
    match useOverride with Some o => ov_domain o | None => lastDomain m end in
  let start :=
    match useOverride with Some o => ov_start o | None => lastStartTimestamp m end in
  let persistedAt :=
    match useOverride with Some o => ov_persistedAt o | None => lastPersistedAt m end in
  let tabIdToCheck :=
    match useOverride with
    | Some o => default (lastTabId m) (ov_tabIdToCheck o)
    | None => lastTabId m
    end in
  let wasIncognito :=
    match useOverride with
    | Some o => default (lastTabIncognito m) (ov_wasIncognito o)
    | None => lastTabIncognito m
    end in
  match domain, start with
  | Some d, Some s =>
      (clear_session_end m,
       Some {| c_domain := d; c_start := s;
               c_persistedAt := persistedAt; c_wasIncognito := wasIncognito |})
  | _, _ => (m, None)
  end.

(** The rest of [endSession], from [const settings = await getSettings()]
    to its end, at one reading of the clock. *)
Definition endSession_persist (c : Claimed) (clk : Clock) (w : World) : World :=
  let '(m, st) := w in
  match getSettings (settings st) with
  | None => w
  | Some cfg =>
      if negb (shouldTrack (c_domain c) (excludeDomains cfg)) then w
      else if negb (keepIncognitoData cfg) && c_wasIncognito c then
        (set_pendingWrite None m, st)
      else
        let increment :=
          roundMs (now clk - default (c_start c) (c_persistedAt c))
                  (timeGranularityMs cfg) in
        let key := dateKey clk in
        let day := day_of (days st) key in
        let ms := ms_of day (c_domain c) in
        let ms' := if 0 <? increment then ms + increment else ms in
        let day' :=
          {| domains := store_ms (domains day) (c_domain c) ms';
             timeline := timeline day ++
               [{| blk_start := c_start c; blk_end := now clk;
                   blk_domain := c_domain c |}] |} in
        (set_pendingWrite None m,
         {| settings := settings st;
            days := <[key := day']> (days st);
            currentSession := None;
            _pendingSession := None |})
  end.

(** [await endSession(override)] *)
Definition endSession (override : option SessionOverride) (clk : Clock)
  (w : World) : World :=
  let '(m, st) := w in
  let '(m1, p) := endSession_claim override m in
  match p with
  | Some c => endSession_persist c clk (m1, st)
  | None => (m1, st)
  end.

(** The locals that [persistRunningTotal] holds across
    [await chrome.storage.local.get({ days: {} })]. *)
Record Flush : Type := {
  fl_now : Z;
  fl_delta : Z;
  fl_key : string
}.

(** [persistRunningTotal] is cut at its [await]s. Between two cuts the
    body runs without interruption; at a cut other handlers may run, and
    the variables are read again after it.

    Up to [await getSettings()]: whether the call goes on. *)
Definition persistRunningTotal_enter (m : Mem) : bool :=
  match lastDomain m, lastStartTimestamp m with
  | Some _, Some _ => true
  | _, _ => false
  end.

(** From the settings that [getSettings] resolved with to the next
    [await] or [return]. [shouldTrack(null, ...)] is false;
    [now - null] is [now]. The second component is [Some fl] when the call
    is suspended at the read of [days]. *)
Definition persistRunningTotal_settled (cfg : Settings) (clk : Clock)
  (w : World) : World * option Flush :=
  let '(m, st) := w in
  if negb (match lastDomain m with
           | Some d => shouldTrack d (excludeDomains cfg)
           | None => false
           end) then
    ((clear_session_flush m, set_currentSession None st), None)
  else if negb (keepIncognitoData cfg) && lastTabIncognito m then (w, None)
  else
    let from :=
      match lastPersistedAt m with
      | Some p => p
      | None => default 0 (lastStartTimestamp m)
      end in
    let delta := roundMs (now clk - from) (timeGranularityMs cfg) in
    if delta <=? 0 then ((set_lastPersistedAt (Some (now clk)) m, st), None)
    else
      (w, Some {| fl_now := now clk; fl_delta := delta; fl_key := dateKey clk |}).

(** From the [days] that the read resolved with to
    [await chrome.storage.local.set({ days })]: the entry of the domain
    that [lastDomain] names at that moment grows ([null] names the entry
    ["null"]), [lastPersistedAt] moves, and the days that were read are
    written back. *)
Definition persistRunningTotal_write (fl : Flush) (read : gmap string Day)
  (w : World) : World :=
  let '(m, st) := w in
  let d := default "null" (lastDomain m) in
  let day := day_of read (fl_key fl) in
  let day' :=
    {| domains := store_ms (domains day) d (ms_of day d + fl_delta fl);
       timeline := timeline day |} in
  (set_lastPersistedAt (Some (fl_now fl)) m,
   set_days (<[fl_key fl := day']> read) st).

(** After the last [await]: [pendingWrite = null]. *)
Definition persistRunningTotal_finish (w : World) : World :=
  (set_pendingWrite None (fst w), snd w).

(** [await persistRunningTotal()] with no other handler running at its
    cuts: the settings and the days are the stored ones. *)
Definition persistRunningTotal (clk : Clock) (w : World) : World :=
  if persistRunningTotal_enter (fst w) then
    match getSettings (settings (snd w)) with
    | None => w
    | Some cfg =>
        let '(w1, suspended) := persistRunningTotal_settled cfg clk w in
        match suspended with
        | Some fl =>
            persistRunningTotal_finish
              (persistRunningTotal_write fl (days (snd w1)) w1)
        | None => w1
        end
    end
  else w.

(** [stopTracking()]: the returned value is [null] ([None]) or a promise. *)
Definition stopTracking (m : Mem) : Mem * option Promise :=
  match lastDomain m, lastStartTimestamp m with
  | Some _, Some _ =>
      match pendingWrite m with
      | Some p => (m, Some p)
      | None =>
          let sessionOverride :=
            {| ov_domain := lastDomain m;
               ov_start := lastStartTimestamp m;
               ov_persistedAt := lastPersistedAt m;
               ov_tabIdToCheck := Some (lastTabId m);
               ov_wasIncognito := Some (lastTabIncognito m) |} in
          let '(m1, p) := endSession_claim (Some sessionOverride) m in
          (set_pendingWrite (Some p) m1, Some p)
      end
  | _, _ => (m, None)
  end.

(** The promise [p] of a [stopTracking] call settles: the rest of its
    [endSession] runs, then the [finally] callback sets [pendingWrite] to
    [null]. *)
Definition settle (p : Promise) (clk : Clock) (w : World) : World :=
  let '(m1, st1) :=
    match p with
    | Some c => endSession_persist c clk w
    | None => w
    end in
  (set_pendingWrite None m1, st1).

(** [const w = stopTracking(); if (w) await w;] *)
Definition stopTracking_await (clk : Clock) (w : World) : World :=
  let '(m, st) := w in
  let '(m1, r) := stopTracking m in
  match r with
  | Some p => settle p clk (m1, st)
  | None => (m1, st)
  end.

(** What [chrome.tabs.get] gives of a tab. *)
Record Tab : Type := {
  tab_url : option string;
  tab_incognito : bool;
  tab_windowId : Z
}.

Section Browser.
(** [chrome.tabs.get(tabId).catch(() => null)] *)
Variable tabs_get : Z -> option Tab.
(** Whether [chrome.windows.get(windowId)] resolves. *)
Variable windows_get : Z -> bool.

Definition startTracking (hostname : string) (tabId : option Z)
  (clk : Clock) (w : World) : World :=
  let '(m, st) := w in
  match getSettings (settings st) with
  | None => w
  | Some cfg =>
      if negb (shouldTrack hostname (excludeDomains cfg)) then w
      else
        let tab := tabId ≫= tabs_get in
        let incognito :=
          match tabId with
          | Some _ => default false (tab_incognito <$> tab)
          | None => false
          end in
        let tracked :=
          match tabId with
          | Some _ => tab_windowId <$> tab
          | None => lastTrackedWindowId m
          end in
        let windows :=
          match tab with
          | Some t =>
              if tab_incognito t && negb (tab_windowId t =? 0)
              then {[tab_windowId t]} ∪ incognitoWindowIds m
              else incognitoWindowIds m
          | None => incognitoWindowIds m
          end in
        let pendingSession :=
          {| ps_domain := Some hostname;
             ps_start := Some (now clk);
             ps_persistedAt := Some (now clk);
             ps_windowId := tracked;
             ps_wasIncognito := Some incognito |} in
        ({| lastDomain := Some hostname;
            lastStartTimestamp := Some (now clk);
            lastPersistedAt := Some (now clk);
            lastTabId := tabId;
            lastTabIncognito := incognito;
            lastFocusedWindowId := lastFocusedWindowId m;
            lastTrackedWindowId := tracked;
            incognitoWindowIds := windows;
            isIdle := isIdle m;
            pendingWrite := pendingWrite m |},
         {| settings := settings st;
            days := days st;
            currentSession :=
              Some {| cs_domain := hostname; cs_start := now clk |};
            _pendingSession := Some pendingSession |})
  end.

(** The recovery block at the head of [handleActiveTab(tabId, windowId)]:
    from [if (lastTabId == null && lastDomain == null)] to the closing
    brace of that [if]. *)
Definition handleActiveTab_recovery (windowId : Z) (clk : Clock)
  (w : World) : World :=
  let '(m, st) := w in
  match lastTabId m, lastDomain m with
  | None, None =>
      match _pendingSession st with
      | Some pending =>
          match ps_domain pending, ps_start pending, ps_windowId pending with
          | Some _, Some _, Some pw =>
              if negb (pw =? windowId) && negb (windows_get pw) then
                let '(m1, st1) :=
                  endSession
                    (Some {| ov_domain := ps_domain pending;
                             ov_start := ps_start pending;
                             ov_persistedAt := ps_persistedAt pending;
                             ov_tabIdToCheck := None;
                             ov_wasIncognito :=
                               Some (match ps_wasIncognito pending with
                                     | Some false => false
                                     | _ => true
                                     end) |})
                    clk (m, st) in
                (set_lastFocusedWindowId (Some windowId) m1,
                 set__pendingSession None st1)
              else w
          | _, _, _ => w
          end
      | None => w
      end
  | _, _ => w
  end.
End Browser.

(** ** A URL parser to run the classifier on examples *)

Definition lower (c : ascii) : ascii :=
  let n := nat_of_ascii c in
  if ((65 <=? n) && (n <=? 90))%nat then ascii_of_nat (n + 32) else c.

Definition ends_host (c : ascii) : bool :=
  Ascii.eqb c "/" || Ascii.eqb c "?" || Ascii.eqb c "#" || Ascii.eqb c ":".

Fixpoint take_host (s : string) : string :=
  match s with
  | EmptyString => EmptyString
  | String c s' => if ends_host c then EmptyString else String (lower c) (take_host s')
  end.

(** The hostname of a URL of the shape
    [scheme://host[:port][/path][?query][#fragment]]; any other string is
    rejected, as [new URL] rejects a string with no scheme. *)
Definition basic_URL_hostname (url : string) : option string :=
  match String.index 0 "://" url with
  | Some i =>
      if (0 <? i)%nat
      then Some (take_host (String.substring (i + 3) (String.length url - (i + 3)) url))
      else None
  | None => None
  end.

(** The value of field [k] of the stored settings: only a stored object
    has fields. *)
Definition stored_field (stored : option JSVal) (k : string) : JSVal :=
  match stored with
  | Some (JObj fs) => default JUndefined (assoc k fs)
  | _ => JUndefined
  end.

(** The four prefixes that [hostnameFromUrl] rejects before parsing. *)
Definition internal_url (url : string) : Prop :=
  exists rest : string,
    url = "chrome://" +:+ rest \/ url = "chrome-extension://" +:+ rest
    \/ url = "edge://" +:+ rest \/ url = "about:" +:+ rest.

(** ** Observations on storage *)

(** The timeline of the day [key], empty when the day has no record. *)
Definition timeline_at (st : Storage) (key : string) : list Block :=
  timeline (day_of (days st) key).

(** The cumulative total of [domain] on the day [key], 0 when absent. *)
Definition total_at (st : Storage) (key domain : string) : Z :=
  ms_of (day_of (days st) key) domain.

(** The stored entry of [domain] on the day [key]. *)
Definition entry_at (st : Storage) (key domain : string) : option Z :=
  domains (day_of (days st) key) !! domain.

(** Every block of [domain] on the day [key] ends at [t] at the latest. *)
Definition attributed_until (st : Storage) (key domain : string) (t : Z) : Prop :=
  Forall (fun b => blk_domain b = domain -> blk_end b <= t) (timeline_at st key).

(** Periodic flushes, one per reading of the clock, oldest first. *)
Definition flushes (clks : list Clock) (w : World) : World :=
  fold_left (fun w clk => persistRunningTotal clk w) clks w.

(** ** States to run the tracker on *)

Definition fresh_mem : Mem :=
  {| lastDomain := None;
     lastStartTimestamp := None;
     lastPersistedAt := None;
     lastTabId := None;
     lastTabIncognito := false;
     lastFocusedWindowId := None;
     lastTrackedWindowId := None;
     incognitoWindowIds := ∅;
     isIdle := false;
     pendingWrite := None |}.

Definition settings_of (excl : list JSVal) (granularity : Z) (keep : bool) : JSVal :=
  JObj [("excludeDomains", JArr excl);
        ("timeGranularityMs", JNum granularity);
        ("keepIncognitoData", JBool keep)].

Definition storage_with (cfg : JSVal) : Storage :=
  {| settings := Some cfg;
     days := ∅;
     currentSession := None;
     _pendingSession := None |}.

Definition set_settings (cfg : JSVal) (st : Storage) : Storage :=
  {| settings := Some cfg;
     days := days st;
     currentSession := currentSession st;
     _pendingSession := _pendingSession st |}.

(** A browser in which every tab is a regular tab of window 1. *)
Definition regular_tabs (tabId : Z) : option Tab :=
  Some {| tab_url := Some "https://example.com/";
          tab_incognito := false;
          tab_windowId := 1 |}.

(** A browser in which every tab is an incognito tab of window 5. *)
Definition incognito_tabs (tabId : Z) : option Tab :=
  Some {| tab_url := Some "https://example.com/";
          tab_incognito := true;
          tab_windowId := 5 |}.

Definition at_time (t : Z) : Clock := {| now := t; dateKey := "2025-02-13" |}.

(** The privacy rule of [endSession] and [persistRunningTotal]: time of an
    incognito session is kept only when [keepIncognitoData] is on. *)
Definition persistable (cfg : Settings) (incognito : bool) : bool :=
  negb (negb (keepIncognitoData cfg) && incognito).

(** A session on example.com, started at 1000000 in a regular tab with the
    default granularity and nothing excluded. *)
Definition started : World :=
  startTracking regular_tabs "example.com" (Some 7) (at_time 1000000)
    (fresh_mem, storage_with (settings_of [] 1000 false)).

(** The same start in an incognito tab. *)
Definition started_incognito : World :=
  startTracking incognito_tabs "example.com" (Some 7) (at_time 1000000)
    (fresh_mem, storage_with (settings_of [] 1000 false)).

Definition default_settings : Settings :=
  {| excludeDomains := []; timeGranularityMs := 1000; keepIncognitoData := false |}.

(** Clock readings that start at most one granularity unit [g] after [t]
    and follow each other by less than [g]. *)
Fixpoint spaced_below (g t : Z) (clks : list Clock) : Prop :=
  match clks with
  | [] => True
  | c :: rest => 0 <= now c - t < g /\ spaced_below g (now c) rest
  end.

(** The service worker is killed after a flush at 1030000 of the session
    [started]: storage survives, the variables start afresh. *)
Definition crashed : World :=
  (fresh_mem, snd (persistRunningTotal (at_time 1030000) started)).

(** The session [started] after its domain was added to the exclusion
    list. *)
Definition excluded : World :=
  (fst started,
   set_settings (settings_of [JStr "example.com"] 1000 false) (snd started)).

(** No window exists any more. *)
Definition no_windows (windowId : Z) : bool := false.

(** The session [started] is stopped without waiting (as on idle) and,
    before that stop settles, a session on example.org starts at 1010000
    in tab 8. *)
Definition restarted : World :=
  startTracking regular_tabs "example.org" (Some 8) (at_time 1010000)
    (fst (stopTracking (fst started)), snd started).

(** A session on the host of [http://constructor/], started at 1000000 in
    a regular tab with the default granularity and nothing excluded. *)
Definition started_constructor : World :=
  startTracking regular_tabs "constructor" (Some 7) (at_time 1000000)
    (fresh_mem, storage_with (settings_of [] 1000 false)).

(** ** The event handlers *)

(** What a tab of a [chrome.tabs.query] result gives: its id, which may be
    missing, and its window. *)
Record TabRef : Type := {
  ref_id : option Z;
  ref_windowId : Z
}.

(** The browser as one handler run sees it. A rejected promise is [None];
    [chrome_windows_getLastFocused] gives the id of the window, which may
    be missing; the queries give the first tab of the result, if any. *)
Record Chrome : Type := {
  chrome_URL : string -> option string;
  chrome_tabs_get : Z -> option Tab;
  chrome_windows_get : Z -> bool;
  chrome_windows_getLastFocused : option (option Z);
  chrome_tabs_query : option Z -> option (option TabRef);
  chrome_tabs_query_current : option (option TabRef)
}.

Definition ALARM_PERSIST : string := "persist".

Definition WINDOW_ID_NONE : Z := -1.

Definition set_lastTabId (t : option Z) (m : Mem) : Mem :=
  {| lastDomain := lastDomain m;
     lastStartTimestamp := lastStartTimestamp m;
     lastPersistedAt := lastPersistedAt m;
     lastTabId := t;
     lastTabIncognito := lastTabIncognito m;
     lastFocusedWindowId := lastFocusedWindowId m;
     lastTrackedWindowId := lastTrackedWindowId m;
     incognitoWindowIds := incognitoWindowIds m;
     isIdle := isIdle m;
     pendingWrite := pendingWrite m |}.

Definition set_isIdle (b : bool) (m : Mem) : Mem :=
  {| lastDomain := lastDomain m;
     lastStartTimestamp := lastStartTimestamp m;
     lastPersistedAt := lastPersistedAt m;
     lastTabId := lastTabId m;
     lastTabIncognito := lastTabIncognito m;
     lastFocusedWindowId := lastFocusedWindowId m;
     lastTrackedWindowId := lastTrackedWindowId m;
     incognitoWindowIds := incognitoWindowIds m;
     isIdle := b;
     pendingWrite := pendingWrite m |}.

Definition set_incognitoWindowIds (ws : gset Z) (m : Mem) : Mem :=
  {| lastDomain := lastDomain m;
     lastStartTimestamp := lastStartTimestamp m;
     lastPersistedAt := lastPersistedAt m;
     lastTabId := lastTabId m;
     lastTabIncognito := lastTabIncognito m;
     lastFocusedWindowId := lastFocusedWindowId m;
     lastTrackedWindowId := lastTrackedWindowId m;
     incognitoWindowIds := ws;
     isIdle := isIdle m;
     pendingWrite := pendingWrite m |}.

(** [stopTracking();] with the returned promise left to settle later. *)
Definition stopTracking_nowait (w : World) : World :=
  (fst (stopTracking (fst w)), snd w).

(** [await chrome.storage.local.set({ currentSession: null })] *)
Definition clear_currentSession (w : World) : World :=
  (fst w, set_currentSession None (snd w)).

(** The recovery block of [handleActiveTab] for a [windowId] that may be
    [null]: a stored window id is never [null], so
    [pending.windowId !== windowId] holds then. *)
Definition handleActiveTab_recover (windows_get : Z -> bool)
  (windowId : option Z) (clk : Clock) (w : World) : World :=
  match windowId with
  | Some wid => handleActiveTab_recovery windows_get wid clk w
  | None =>
      let '(m, st) := w in
      match lastTabId m, lastDomain m with
      | None, None =>
          match _pendingSession st with
          | Some pending =>
              match ps_domain pending, ps_start pending, ps_windowId pending with
              | Some _, Some _, Some pw =>
                  if negb (windows_get pw) then
                    let '(m1, st1) :=
                      endSession
                        (Some {| ov_domain := ps_domain pending;
                                 ov_start := ps_start pending;
                                 ov_persistedAt := ps_persistedAt pending;
                                 ov_tabIdToCheck := None;
                                 ov_wasIncognito :=
                                   Some (match ps_wasIncognito pending with
                                         | Some false => false
                                         | _ => true
                                         end) |})
                        clk (m, st) in
                    (set_lastFocusedWindowId None m1,
                     set__pendingSession None st1)
                  else w
              | _, _, _ => w
              end
          | None => w
          end
      | _, _ => w
      end
  end.

(** [hostnameFromUrl(tab?.url)] *)
Definition hostname_of_tab_url (br : Chrome) (url : option string)
  : option string :=
  match url with
  | Some u => hostnameFromUrl (chrome_URL br) u
  | None => None
  end.

(** The second block of [handleActiveTab]: the session ends when the
    window differs from the focused one, or from the one being tracked. *)
Definition handleActiveTab_window (windowId : option Z) (clk : Clock)
  (w : World) : World :=
  if negb (bool_decide (windowId = lastFocusedWindowId (fst w))) then
    let '(m, st) := stopTracking_await clk w in
    (set_lastFocusedWindowId windowId m, st)
  else if bool_decide (lastDomain (fst w) <> None)
          && bool_decide (lastTrackedWindowId (fst w) <> None)
          && negb (bool_decide (windowId = lastTrackedWindowId (fst w))) then
    let '(m, st) := stopTracking_await clk w in
    (set_lastFocusedWindowId windowId m, st)
  else w.

(** The places of a listener run that read the clock. A run passes each
    of them at most once and awaits the browser or storage between any two
    of them, so each has a reading of its own: [Date.now()] gives the end
    of a block inside [endSession] and, later, the start of the next
    session inside [startTracking]. *)
Inductive Site : Type :=
| AtFlush       (** [persistRunningTotal] in the alarm listener *)
| AtStop        (** the stop that the listener makes itself *)
| AtRecovery    (** [endSession] in the recovery block of [handleActiveTab] *)
| AtWindowStop  (** the stop in the window block of [handleActiveTab] *)
| AtTabStop     (** the stop of [handleActiveTab] before a change of tab *)
| AtStart       (** [startTracking] *)
| AtEnd.        (** the last stop of [handleActiveTab], when it starts nothing *)

(** The readings of the clock of one listener run. *)
Definition Readings : Type := Site -> Clock.

(** The rest of [handleActiveTab], from [if (tabId == null) return;]. *)
Definition handleActiveTab_tab (br : Chrome) (tabId windowId : option Z)
  (rd : Readings) (w : World) : World :=
  match tabId with
  | None => w
  | Some tid =>
      match chrome_tabs_get br tid with
      | None => clear_currentSession (stopTracking_await (rd AtEnd) w)
      | Some tab =>
          let hostname := hostname_of_tab_url br (tab_url tab) in
          let url := default "" (tab_url tab) in
          let tabStillLoading :=
            String.eqb url "" || String.eqb url "about:blank" in
          if negb (bool_decide (Some tid = lastTabId (fst w)))
             && bool_decide (lastDomain (fst w) <> None)
             && (bool_decide (hostname = lastDomain (fst w))
                 || (bool_decide (hostname = None) && tabStillLoading))
          then (set_lastTabId (Some tid) (fst w), snd w)
          else
            let w3 :=
              if negb (bool_decide (Some tid = lastTabId (fst w)))
              then stopTracking_await (rd AtTabStop) w
              else w in
            match hostname with
            | Some h =>
                if bool_decide (lastFocusedWindowId (fst w3) = windowId)
                then startTracking (chrome_tabs_get br) h (Some tid) (rd AtStart) w3
                else stopTracking_await (rd AtEnd) w3
            | None => clear_currentSession (stopTracking_await (rd AtEnd) w3)
            end
      end
  end.

(** [handleActiveTab(tabId, windowId)]: the recovery block, the window
    block, then the tab. *)
Definition handleActiveTab (br : Chrome) (tabId windowId : option Z)
  (rd : Readings) (w : World) : World :=
  handleActiveTab_tab br tabId windowId rd
    (handleActiveTab_window windowId (rd AtWindowStop)
       (handleActiveTab_recover (chrome_windows_get br) windowId
          (rd AtRecovery) w)).

(** [const [tab] = await chrome.tabs.query({ active: true, windowId });
     if (tab) await handleActiveTab(tab.id, windowId);] with what to do
    when the query rejects. *)
Definition query_and_handle (br : Chrome) (windowId : option Z) (rd : Readings)
  (on_reject : World -> World) (w : World) : World :=
  match chrome_tabs_query br windowId with
  | None => on_reject w
  | Some None => w
  | Some (Some tab) => handleActiveTab br (ref_id tab) windowId rd w
  end.

Definition handleWindowFocus (br : Chrome) (windowId : Z) (rd : Readings)
  (w : World) : World :=
  if windowId =? WINDOW_ID_NONE then
    let '(m, st) := stopTracking_nowait w in
    (set_lastFocusedWindowId None m, st)
  else
    let wasFocused := lastFocusedWindowId (fst w) in
    let w1 := (set_lastFocusedWindowId (Some windowId) (fst w), snd w) in
    let w2 :=
      if negb (bool_decide (wasFocused = Some windowId))
      then stopTracking_await (rd AtStop) w1
      else w1 in
    query_and_handle br (Some windowId) rd stopTracking_nowait w2.

(** [const win = await chrome.windows.getLastFocused();
     if (win?.id != null) { lastFocusedWindowId = win.id; ... }] inside
    [try { } catch {}]. *)
Definition resume_in_last_focused (br : Chrome) (rd : Readings) (w : World)
  : World :=
  match chrome_windows_getLastFocused br with
  | Some (Some wid) =>
      query_and_handle br (Some wid) rd (fun w => w)
        (set_lastFocusedWindowId (Some wid) (fst w), snd w)
  | _ => w
  end.

Definition onIdleStateChange (br : Chrome) (state : string) (rd : Readings)
  (w : World) : World :=
  let nowIdle := negb (String.eqb state "active") in
  if nowIdle && negb (isIdle (fst w)) then
    stopTracking_nowait (set_isIdle true (fst w), snd w)
  else if negb nowIdle && isIdle (fst w) then
    resume_in_last_focused br rd (set_isIdle false (fst w), snd w)
  else w.

Definition onTabActivated (br : Chrome) (tabId windowId : Z) (rd : Readings)
  (w : World) : World :=
  let w1 :=
    if negb (bool_decide (Some windowId = lastFocusedWindowId (fst w))) then
      let '(m, st) := stopTracking_await (rd AtStop) w in
      (set_lastFocusedWindowId (Some windowId) m, st)
    else w in
  handleActiveTab br (Some tabId) (Some windowId) rd w1.

(** [onTabUpdated(tabId, changeInfo, tab)], given [changeInfo.url] and
    [tab?.url]. When the query rejects the handler ends there. The stop
    reads the clock inside [endSession]; [startTracking] reads it again
    after the stop has been awaited. *)
Definition onTabUpdated (br : Chrome) (tabId : Z)
  (changeInfo_url tab_url : option string) (rd : Readings) (w : World) : World :=
  match changeInfo_url with
  | None => w
  | Some changed =>
      match chrome_tabs_query_current br with
      | Some (Some active) =>
          if negb (bool_decide (ref_id active = Some tabId)) then w
          else if negb (bool_decide (Some (ref_windowId active)
                                     = lastFocusedWindowId (fst w))) then w
          else
            let url :=
              match tab_url with
              | Some u => if String.eqb u "" then changed else u
              | None => changed
              end in
            match hostnameFromUrl (chrome_URL br) url with
            | None => stopTracking_nowait w
            | Some h =>
                if bool_decide (Some h = lastDomain (fst w))
                   && bool_decide (Some tabId = lastTabId (fst w)) then w
                else startTracking (chrome_tabs_get br) h (Some tabId)
                       (rd AtStart) (stopTracking_await (rd AtStop) w)
            end
      | _ => w
      end
  end.

Definition reconcileWithCurrentTab (br : Chrome) (rd : Readings) (w : World)
  : World :=
  match lastDomain (fst w) with
  | None => w
  | Some _ =>
      match chrome_windows_getLastFocused br with
      | None => stopTracking_nowait w
      | Some win =>
          let moved :=
            match win with
            | Some wid =>
                if bool_decide (Some wid = lastFocusedWindowId (fst w))
                then None else Some wid
            | None => None
            end in
          match moved with
          | Some wid =>
              let '(m, st) := stopTracking_await (rd AtStop) w in
              query_and_handle br (Some wid) rd stopTracking_nowait
                (set_lastFocusedWindowId (Some wid) m, st)
          | None =>
              match chrome_tabs_query br (lastFocusedWindowId (fst w)) with
              | None => stopTracking_nowait w
              | Some None => stopTracking_await (rd AtStop) w
              | Some (Some tab) =>
                  if bool_decide (ref_id tab <> None)
                     && bool_decide (ref_id tab = lastTabId (fst w)) then w
                  else
                    let w1 := stopTracking_await (rd AtStop) w in
                    handleActiveTab br (ref_id tab)
                      (lastFocusedWindowId (fst w1)) rd w1
              end
          end
      end
  end.

Definition onTabRemoved (br : Chrome) (tabId : Z) (rd : Readings) (w : World)
  : World :=
  if bool_decide (Some tabId = lastTabId (fst w)) then
    resume_in_last_focused br rd (stopTracking_await (rd AtStop) w)
  else w.

(** The [chrome.windows.onRemoved] listener; it reads the clock in its one
    stop. *)
Definition onWindowRemoved (windowId : Z) (clk : Clock) (w : World) : World :=
  if bool_decide (windowId ∈ incognitoWindowIds (fst w)) then
    let w1 :=
      (set_incognitoWindowIds (incognitoWindowIds (fst w) ∖ {[windowId]}) (fst w),
       snd w) in
    if bool_decide (lastDomain (fst w1) <> None)
       && (bool_decide (Some windowId = lastFocusedWindowId (fst w1))
           || bool_decide (Some windowId = lastTrackedWindowId (fst w1)))
    then stopTracking_await clk w1
    else w1
  else w.

(** The [chrome.alarms.onAlarm] listener. *)
Definition onAlarm (br : Chrome) (name : string) (rd : Readings) (w : World)
  : World :=
  if negb (String.eqb name ALARM_PERSIST) then w
  else reconcileWithCurrentTab br rd (persistRunningTotal (rd AtFlush) w).

(** The [chrome.runtime.onStartup] listener ([ensureAlarm] touches no
    state of the model). *)
Definition onStartup (br : Chrome) (rd : Readings) (w : World) : World :=
  let m :=
    {| lastDomain := None;
       lastStartTimestamp := None;
       lastPersistedAt := None;
       lastTabId := None;
       lastTabIncognito := false;
       lastFocusedWindowId := None;
       lastTrackedWindowId := lastTrackedWindowId (fst w);
       incognitoWindowIds := ∅;
       isIdle := false;
       pendingWrite := None |} in
  resume_in_last_focused br rd (m, set_currentSession None (snd w)).

(** The place at which [handleActiveTab] stops a running session when the
    activated tab is not the tracked one: the window block when the window
    is not the focused one or not the tracked one, the tab block
    otherwise. *)
Definition stop_site (windowId : option Z) (m : Mem) : Site :=
  if negb (bool_decide (windowId = lastFocusedWindowId m))
     || (bool_decide (lastTrackedWindowId m <> None)
         && negb (bool_decide (windowId = lastTrackedWindowId m)))
  then AtWindowStop
  else AtTabStop.

(** The same reading at every place of a run. *)
Definition always (clk : Clock) : Readings := fun _ => clk.

(** The stop and the recovery read [t_end], [startTracking] reads
    [t_start]. *)
Definition end_then_start (t_end t_start : Z) : Readings :=
  fun site =>
    match site with
    | AtStart => at_time t_start
    | _ => at_time t_end
    end.

(** The session variables are consistent: without a domain there is no
    start, no flush mark and no tracked tab; with a domain there is a start
    and a flush mark. *)
Definition mem_wf (m : Mem) : Prop :=
  (lastDomain m = None ->
   lastStartTimestamp m = None /\ lastPersistedAt m = None /\ lastTabId m = None)
  /\ (lastDomain m <> None ->
      lastStartTimestamp m <> None /\ lastPersistedAt m <> None).

(** What reaches the service worker: the browser events it listens to, the
    settling of a stop that was left pending, and a settings change made in
    the popup. *)
Inductive Event : Type :=
| EvWindowFocus (windowId : Z)
| EvIdleState (state : string)
| EvTabActivated (tabId windowId : Z)
| EvTabUpdated (tabId : Z) (changeInfo_url tab_url : option string)
| EvTabRemoved (tabId : Z)
| EvWindowRemoved (windowId : Z)
| EvAlarm (name : string)
| EvStartup
| EvSettle (p : Promise)
| EvSaveSettings (v : JSVal).

(** One run of the listener of [ev], from its start to its end, while no
    other listener runs: a listener that another one interrupts at an
    [await] is not a [listener_run] (see [flush_interrupted]). *)
Definition listener_run (br : Chrome) (rd : Readings) (ev : Event) (w : World)
  : World :=
  match ev with
  | EvWindowFocus windowId => handleWindowFocus br windowId rd w
  | EvIdleState state => onIdleStateChange br state rd w
  | EvTabActivated tabId windowId => onTabActivated br tabId windowId rd w
  | EvTabUpdated tabId changed url => onTabUpdated br tabId changed url rd w
  | EvTabRemoved tabId => onTabRemoved br tabId rd w
  | EvWindowRemoved windowId => onWindowRemoved windowId (rd AtStop) w
  | EvAlarm name => onAlarm br name rd w
  | EvStartup => onStartup br rd w
  | EvSettle p => settle p (rd AtStop) w
  | EvSaveSettings v => (fst w, set_settings v (snd w))
  end.

(** A flush that an idle stop interrupts. The alarm listener calls
    [persistRunningTotal] on the session [started] at 1030000; the call is
    suspended at its read of [days]; the user goes idle and
    [onIdleStateChange] clears the session; then the read resolves and the
    flush goes on with the variables as they are now. *)
Definition flush_interrupted : World :=
  let br :=
    {| chrome_URL := basic_URL_hostname;
       chrome_tabs_get := regular_tabs;
       chrome_windows_get := fun _ => true;
       chrome_windows_getLastFocused := Some (Some 1);
       chrome_tabs_query := fun _ => None;
       chrome_tabs_query_current := None |} in
  if persistRunningTotal_enter (fst started) then
    match getSettings (settings (snd started)) with
    | None => started
    | Some cfg =>
        let '(w1, suspended) :=
          persistRunningTotal_settled cfg (at_time 1030000) started in
        match suspended with
        | Some fl =>
            let w2 := onIdleStateChange br "idle" (always (at_time 1030001)) w1 in
            persistRunningTotal_finish
              (persistRunningTotal_write fl (days (snd w2)) w2)
        | None => w1
        end
    end
  else started.

(** ** Runs of the tracker operations *)

(** Clock readings that do not go back: the first is at [t] or later, each
    next one at the previous one or later. *)
Fixpoint nondecreasing (t : Z) (clks : list Clock) : Prop :=
  match clks with
  | [] => True
  | c :: rest => t <= now c /\ nondecreasing (now c) rest
  end.

(** What a handler asks of the tracker, and what the settings dialog does
    to storage in between. *)
Inductive TrackerOp : Type :=
| OpStart (hostname : string) (tabId : option Z)
| OpFlush
| OpStop
| OpSaveSettings (v : JSVal).

Section Runs.
Variable tabs_get : Z -> option Tab.

(** [await startTracking(hostname, tabId)], [await persistRunningTotal()],
    [const w = stopTracking(); if (w) await w], and
    [chrome.storage.local.set({ settings: v })]. *)
Definition step (clk : Clock) (op : TrackerOp) (w : World) : World :=
  match op with
  | OpStart hostname tabId => startTracking tabs_get hostname tabId clk w
  | OpFlush => persistRunningTotal clk w
  | OpStop => stopTracking_await clk w
  | OpSaveSettings v => (fst w, set_settings v (snd w))
  end.

Fixpoint run (evs : list (Clock * TrackerOp)) (w : World) : World :=
  match evs with
  | [] => w
  | (clk, op) :: rest => run rest (step clk op w)
  end.
End Runs.

(** Every block of the day [key] starts no later than it ends, ends at [t]
    at the latest, and ends before the next block of the list starts. *)
Definition chronological (t : Z) (blocks : list Block) : Prop :=
  Forall (fun b => blk_start b <= blk_end b <= t) blocks
  /\ StronglySorted (fun b1 b2 => blk_end b1 <= blk_start b2) blocks.

(** The session variables are all set or all [null]; when set, the start
    is not after the last flush, which is not after [t], and no stored
    block ends after the start. No stop is pending. *)
Definition session_ok (t : Z) (w : World) : Prop :=
  pendingWrite (fst w) = None
  /\ ((lastDomain (fst w) = None /\ lastStartTimestamp (fst w) = None
       /\ lastPersistedAt (fst w) = None)
      \/ (exists (d : string) (s p : Z),
            lastDomain (fst w) = Some d /\ lastStartTimestamp (fst w) = Some s
            /\ lastPersistedAt (fst w) = Some p /\ s <= p <= t
            /\ forall key : string,
                 Forall (fun b => blk_end b <= s) (timeline_at (snd w) key))).

Definition tracker_inv (t : Z) (w : World) : Prop :=
  session_ok t w
  /\ forall key : string, chronological t (timeline_at (snd w) key).

(** The live indicator in storage names the session held in memory. *)
Definition live_matches (w : World) : Prop :=
  forall cs : CurrentSession,
    currentSession (snd w) = Some cs ->
    lastDomain (fst w) = Some (cs_domain cs)
    /\ lastStartTimestamp (fst w) = Some (cs_start cs).

(** ** Merging incognito data into regular storage *)

(** [array.sort((a, b) => key(a) - key(b))]: the sort of an array is
    stable, so the result is the one of an insertion sort that puts an
    element before the first later element whose key is not smaller. *)
Fixpoint insert_by {A : Type} (key : A -> Z) (a : A) (l : list A) : list A :=
  match l with
  | [] => [a]
  | x :: rest => if key a <=? key x then a :: l else x :: insert_by key a rest
  end.

Definition stable_sort_by {A : Type} (key : A -> Z) (l : list A) : list A :=
  foldr (insert_by key) [] l.

(** A day record as a sync carries it: [domains] and [timeline] may be
    missing. *)
Record SyncDay : Type := {
  sync_domains : option (gmap string Z);
  sync_timeline : option (list Block)
}.

(** The data of a sync; its [domainTags] and [tagList] are merged into
    storage keys that lie outside [Storage]. *)
Record SyncData : Type := {
  sync_days : option (gmap string SyncDay)
}.

(** The value of [_incognitoSyncPending]. *)
Record SyncMarker : Type := {
  marker_data : option SyncData;
  marker_timestamp : option Z
}.

(** [for (const [domain, incognitoDomainData] of
       Object.entries(incognitoDay.domains || {})) {
       if (!regularDay.domains[domain]) regularDay.domains[domain] = { ms: 0 };
       regularDay.domains[domain].ms =
         (regularDay.domains[domain].ms || 0) + (incognitoDomainData.ms || 0); }] *)
Definition merge_domains (regular incoming : gmap string Z) : gmap string Z :=
  map_fold (fun domain ms acc => <[domain := default 0 (acc !! domain) + ms]> acc)
    regular incoming.


(** [`${block.start}-${block.end}-${block.domain}`] *)
Definition block_key (b : Block) : string :=
  pretty (blk_start b) +:+ "-" +:+ pretty (blk_end b) +:+ "-" +:+ blk_domain b.

(** A [Map] with string keys, in insertion order. [Map.prototype.set]
    replaces the value of a key that is present and keeps its place. *)
Fixpoint map_set (k : string) (v : Block) (entries : list (string * Block))
  : list (string * Block) :=
  match entries with
  | [] => [(k, v)]
  | (k', v') :: rest =>
      if String.eqb k k' then (k, v) :: rest else (k', v') :: map_set k v rest
  end.

Definition map_has (k : string) (entries : list (string * Block)) : bool :=
  existsb (fun e => String.eqb k (fst e)) entries.

(** The timeline merge of the storage listener: the blocks of the regular
    timeline are put into a [Map] under their key, the incognito blocks
    whose key is not there yet are added, and the values are sorted by
    start. *)
Definition merge_timeline_dedupe (regular incoming : list Block) : list Block :=
  let existingBlocks :=
    fold_left (fun acc block => map_set (block_key block) block acc) regular [] in
  let existingBlocks :=
    fold_left
      (fun acc block =>
         if map_has (block_key block) acc then acc
         else map_set (block_key block) block acc)
      incoming existingBlocks in
  stable_sort_by blk_start (snd <$> existingBlocks).

(** The body of [for (const [dateKey, incognitoDay] of
    Object.entries(incognitoDays))] for one day, given how timelines are
    merged. *)
Definition merge_day (merge_timeline : list Block -> list Block -> list Block)
  (regularDay : Day) (incognitoDay : SyncDay) : Day :=
  {| domains :=
       merge_domains (domains regularDay) (default ∅ (sync_domains incognitoDay));
     timeline :=
       match sync_timeline incognitoDay with
       | Some tl => merge_timeline (timeline regularDay) tl
       | None => timeline regularDay
       end |}.

(** [if (incognitoDays) { for (...) { ... } }] *)
Definition merge_days (merge_timeline : list Block -> list Block -> list Block)
  (regularDays : gmap string Day) (incognitoDays : option (gmap string SyncDay))
  : gmap string Day :=
  match incognitoDays with
  | Some incoming =>
      map_fold
        (fun dateKey incognitoDay acc =>
           <[dateKey := merge_day merge_timeline (day_of acc dateKey) incognitoDay]> acc)
        regularDays incoming
  | None => regularDays
  end.


(** The [chrome.storage.onChanged] listener, given [areaName] and
    [changes._incognitoSyncPending?.newValue]; the state is
    [lastProcessedSyncTimestamp] and storage. The timestamp is set before
    the merge is started; the merge, an [async] block of its own, runs as
    one step, and destructuring a missing [data] throws inside it. The
    marker itself, which the merge sets to [null], lies outside
    [Storage]. *)
Definition onStorageChanged (areaName : string) (newValue : option SyncMarker)
  (lastProcessedSyncTimestamp : Z) (st : Storage) : Z * Storage :=
  if String.eqb areaName "local" then
    match newValue with
    | Some syncMarker =>
        let syncTimestamp := default 0 (marker_timestamp syncMarker) in
        if syncTimestamp <=? lastProcessedSyncTimestamp
        then (lastProcessedSyncTimestamp, st)
        else
          (syncTimestamp,
           match marker_data syncMarker with
           | Some data =>
               set_days
                 (merge_days merge_timeline_dedupe (days st) (sync_days data)) st
           | None => st
           end)
    | None => (lastProcessedSyncTimestamp, st)
    end
  else (lastProcessedSyncTimestamp, st).

(** No character of [s] is a minus sign. *)
Fixpoint no_dash (s : string) : bool :=
  match s with
  | EmptyString => true
  | String c rest => negb (Ascii.eqb c "-") && no_dash rest
  end.

(** Every entry of the [Map] sits under the key of its block. *)
Definition keyed (entries : list (string * Block)) : Prop :=
  Forall (fun e => fst e = block_key (snd e)) entries.

(** ** The popup *)

(** A timeline entry as the popup finds it: any field may be missing, and
    the array may hold [null] in place of an entry. *)
Record RawBlock : Type := {
  raw_start : option Z;
  raw_end : option Z;
  raw_domain : option string
}.

(** A block the tracker wrote, as the popup reads it. *)
Definition raw_of (b : Block) : RawBlock :=
  {| raw_start := Some (blk_start b);
     raw_end := Some (blk_end b);
     raw_domain := Some (blk_domain b) |}.

(** [[...(timeline || [])].filter(b => b && (b.start != null || b.end != null))] *)
Definition timeline_filter (timeline : option (list (option RawBlock)))
  : list RawBlock :=
  omap
    (fun b =>
       match b with
       | Some rb =>
           if bool_decide (raw_start rb <> None) || bool_decide (raw_end rb <> None)
           then Some rb else None
       | None => None
       end)
    (default [] timeline).

(** [.sort((a, b) => (a.start || 0) - (b.start || 0))] *)
Definition getTimelineSortedChronologically
  (timeline : option (list (option RawBlock))) : list RawBlock :=
  stable_sort_by (fun b => default 0 (raw_start b)) (timeline_filter timeline).

(** [.sort((a, b) => (b.start || 0) - (a.start || 0))] *)
Definition getTimelineNewestFirst
  (timeline : option (list (option RawBlock))) : list RawBlock :=
  stable_sort_by (fun b => - default 0 (raw_start b)) (timeline_filter timeline).

(** The stored timeline of a day as the popup receives it. *)
Definition stored_timeline (st : Storage) (key : string)
  : option (list (option RawBlock)) :=
  Some ((fun b => Some (raw_of b)) <$> timeline_at st key).


(** [(block.end || 0) - (block.start || 0)] *)
Definition duration (block : Block) : Z := blk_end block - blk_start block.



Definition duration_sum (blocks : list Block) : Z :=
  foldr (fun b acc => duration b + acc) 0 blocks.



(** [{ ...fields, k: v }] for one key: the value of a key that is present
    is replaced where it stands, a new key goes last. *)
Fixpoint set_field (k : string) (v : JSVal) (fields : list (string * JSVal))
  : list (string * JSVal) :=
  match fields with
  | [] => [(k, v)]
  | (k', v') :: rest =>
      if String.eqb k k' then (k, v) :: rest else (k', v') :: set_field k v rest
  end.

(** The own enumerable properties that [{ ...v }] copies: the fields of an
    object, the elements of an array and the characters of a string under
    their indices, nothing of any other value. *)
Definition spread (v : JSVal) : list (string * JSVal) :=
  match v with
  | JObj fields => fields
  | JArr elems => imap (fun i x => (pretty i, x)) elems
  | JStr s =>
      imap (fun i c => (pretty i, JStr (String c EmptyString)))
        (list_ascii_of_string s)
  | _ => []
  end.

(** The click handler of [settingsSave], given what the form holds: the
    list the text area splits into, the result of [parseInt] on the
    granularity field ([None] for [NaN]), the value of the theme selector
    and the state of the check box. *)
Definition settingsSave (excludeDomains : list string) (parsed : option Z)
  (themeSelect : string) (keepIncognitoData : bool) (st : Storage) : Storage :=
  let timeGranularityMs :=
    Z.max 1000
      (match parsed with
       | Some n => if n =? 0 then 1000 else n
       | None => 1000
       end) in
  let theme := if String.eqb themeSelect "light" then "light" else "dark" in
  let settings := default (JObj []) (settings st) in
  set_settings
    (JObj
       (set_field "keepIncognitoData" (JBool keepIncognitoData)
          (set_field "theme" (JStr theme)
             (set_field "timeGranularityMs" (JNum timeGranularityMs)
                (set_field "excludeDomains" (JArr (JStr <$> excludeDomains))
                   (spread settings))))))
    st.

(** The [chrome.runtime.onInstalled] listener. [query_url] is the [url] of
    the tab the query returns; [tagList] and [domainTags], which the
    listener initialises as well, lie outside [Storage], and [ensureAlarm]
    touches no state of the model. *)
Definition onInstalled (br : Chrome) (query_url : option string) (clk : Clock)
  (w : World) : World :=
  let data_settings := storage_get_settings (settings (snd w)) in
  let w1 :=
    if negb (truthy data_settings)
       || negb (match get_prop data_settings "timeGranularityMs" with
                | Some (JNum _) => true
                | _ => false
                end)
    then
      (fst w,
       set_settings
         (JObj [("excludeDomains", JArr []);
                ("timeGranularityMs", JNum DEFAULT_GRANULARITY_MS)])
         (snd w))
    else w in
  match chrome_windows_getLastFocused br with
  | Some (Some wid) =>
      let w2 := (set_lastFocusedWindowId (Some wid) (fst w1), snd w1) in
      match chrome_tabs_query br (Some wid) with
      | Some (Some tab) =>
          match query_url ≫= hostnameFromUrl (chrome_URL br) with
          | Some hostname =>
              startTracking (chrome_tabs_get br) hostname (ref_id tab) clk w2
          | None => w2
          end
      | _ => w2
      end
  | _ => w1
  end.

(** A value of the object [tagMs]: a number or a string. [+] makes a
    string of an operand that is a function or an object; the text of the
    string is not modelled. *)
Inductive TagValue : Type :=
| TagNum (ms : Z)
| TagStr.

(** [tagMs[t] = (tagMs[t] || 0) + ms] on the plain object [tagMs]. A name
    without an entry reads [undefined] and gets [ms], unless it is
    inherited: then [tagMs[t]] is the inherited function or object, the sum
    is a string, and the string becomes the entry (the assignment to
    [__proto__] makes no entry). An entry that is a string stays one. *)
Definition add_tag_ms (ms : Z) (tagMs : gmap string TagValue) (t : string)
  : gmap string TagValue :=
  match tagMs !! t with
  | Some (TagNum n) => <[t := TagNum (n + ms)]> tagMs
  | Some TagStr => <[t := TagStr]> tagMs
  | None =>
      if inherited t then
        if String.eqb t "__proto__" then tagMs else <[t := TagStr]> tagMs
      else <[t := TagNum ms]> tagMs
  end.

(** [.length] of what objects inherit under a name: the number of
    parameters of the inherited function; [__proto__] is an object without
    [length]. *)
Definition inherited_length (name : string) : Z :=
  if existsb (String.eqb name) ["__defineGetter__"; "__defineSetter__"] then 2
  else if existsb (String.eqb name)
            ["constructor"; "hasOwnProperty"; "__lookupGetter__";
             "__lookupSetter__"; "isPrototypeOf"; "propertyIsEnumerable"]
  then 1
  else 0.

(** [computeTagMsFromDay(dayData, domainTags)] on [dayData.domains]: the
    time of a domain goes to each of its tags, or to [Untagged] when it
    has none. [domainTags[domain]] of a domain without an entry that is an
    inherited name is the inherited function: with a [length] other than
    0 the call [tags.forEach] throws ([None]). *)
Definition computeTagMsFromDay (domains : gmap string Z)
  (domainTags : gmap string (list string)) : option (gmap string TagValue) :=
  map_fold
    (fun domain ms result =>
       tagMs ← result;
       if ms <=? 0 then Some tagMs
       else
         match domainTags !! domain with
         | Some (t :: ts) => Some (fold_left (add_tag_ms ms) (t :: ts) tagMs)
         | Some [] => Some (add_tag_ms ms tagMs "Untagged")
         | None =>
             if inherited domain && negb (inherited_length domain =? 0)
             then None
             else Some (add_tag_ms ms tagMs "Untagged")
         end)
    (Some ∅) domains.

(** The same computation on numbers alone, as it goes when no name is an
    inherited one. *)
Definition add_ms (ms : Z) (tagMs : gmap string Z) (t : string)
  : gmap string Z :=
  <[t := default 0 (tagMs !! t) + ms]> tagMs.

Definition tag_times (domains : gmap string Z)
  (domainTags : gmap string (list string)) : gmap string Z :=
  map_fold
    (fun domain ms tagMs =>
       if ms <=? 0 then tagMs
       else
         match domainTags !! domain with
         | Some (t :: ts) => fold_left (add_ms ms) (t :: ts) tagMs
         | _ => add_ms ms tagMs "Untagged"
         end)
    ∅ domains.

(** No domain with recorded time lacks an entry in [domainTags] while
    named like an inherited property, and no tag is named like one. *)
Definition ordinary_names (domains : gmap string Z)
  (domainTags : gmap string (list string)) : Prop :=
  map_Forall (fun d (_ : Z) => inherited d = false \/ is_Some (domainTags !! d))
             domains
  /\ map_Forall (fun (_ : string) tags => Forall (fun t => inherited t = false) tags)
                domainTags.

(** The sum of the values of a map. *)
Definition map_total (m : gmap string Z) : Z :=
  map_fold (fun _ v acc => v + acc) 0 m.

(** The time the tags receive: the time of every domain with a positive
    total, once per tag of the domain and once when it has no tag. *)
Definition tagged_total (domains : gmap string Z)
  (domainTags : gmap string (list string)) : Z :=
  map_fold
    (fun domain ms acc =>
       (if ms <=? 0 then 0
        else ms * match domainTags !! domain with
                  | Some (t :: ts) => Z.of_nat (length (t :: ts))
                  | _ => 1
                  end) + acc)
    0 domains.

(** ** Counters against blocks *)

(** Sequences of operations in which a session is started only when the
    one before has been stopped, and the settings are left alone;
    [running] tells whether a session may be running. *)
Fixpoint stop_before_start (running : bool) (ops : list TrackerOp) : Prop :=
  match ops with
  | [] => True
  | OpStart _ _ :: rest => running = false /\ stop_before_start true rest
  | OpFlush :: rest => stop_before_start running rest
  | OpStop :: rest => stop_before_start false rest
  | OpSaveSettings _ :: rest => False
  end.

(** The part of the running session of [d] that lies before its flush
    mark, 0 when no session of [d] is running. *)
Definition flushed_part (m : Mem) (d : string) : Z :=
  match lastDomain m, lastStartTimestamp m, lastPersistedAt m with
  | Some d', Some s, Some p => if String.eqb d' d then p - s else 0
  | _, _, _ => 0
  end.

(** The time that the blocks of [d] on the day [key] span. *)
Definition block_time (st : Storage) (key d : string) : Z :=
  duration_sum (filter (fun b => blk_domain b = d) (timeline_at st key)).

(** How far the counter of [d] lags behind the time of its blocks and of
    the flushed part of its running session. *)
Definition counter_gap (w : World) (key d : string) : Z :=
  block_time (snd w) key d + flushed_part (fst w) d - total_at (snd w) key d.

(** The invariant of a run under the settings [cfg]: no stop is pending,
    a running session is on a trackable domain, started no later than its
    flush mark, which is no later than [t] and stays at the start while
    the session may not be persisted; the counter of [d] lags by at most
    [bound]. *)
Definition counted_inv (cfg : Settings) (key d : string) (running : bool)
  (t bound : Z) (w : World) : Prop :=
  pendingWrite (fst w) = None
  /\ getSettings (settings (snd w)) = Some cfg
  /\ (running = false -> lastDomain (fst w) = None)
  /\ ((lastDomain (fst w) = None /\ lastStartTimestamp (fst w) = None
       /\ lastPersistedAt (fst w) = None)
      \/ (exists (d' : string) (s p : Z),
            lastDomain (fst w) = Some d' /\ lastStartTimestamp (fst w) = Some s
            /\ lastPersistedAt (fst w) = Some p /\ s <= p <= t
            /\ shouldTrack d' (excludeDomains cfg) = true
            /\ (persistable cfg (lastTabIncognito (fst w)) = false -> p = s)))
  /\ 0 <= counter_gap w key d <= bound.

(** * Properties *)

(** ** Entries of a plain object *)

Lemma store_ms_ordinary (o : gmap string Z) (k : string) (v : Z) :
  inherited k = false -> store_ms o k v = <[k := v]> o.
Proof. intros H. unfold store_ms. rewrite H. destruct (o !! k); reflexivity. Qed.

Lemma store_ms_inherited (o : gmap string Z) (k : string) (v : Z) :
  inherited k = true -> o !! k = None -> store_ms o k v = o.
Proof. intros H Ho. unfold store_ms. rewrite H, Ho. reflexivity. Qed.

Lemma store_ms_lookup_ne (o : gmap string Z) (k k' : string) (v : Z) :
  k' <> k -> store_ms o k v !! k' = o !! k'.
Proof.
  intros Hne. unfold store_ms.
  destruct (o !! k); [| destruct (inherited k)];
    try reflexivity; apply lookup_insert_ne; congruence.
Qed.

Lemma store_ms_lookup (o : gmap string Z) (k : string) (v : Z) :
  inherited k = false -> store_ms o k v !! k = Some v.
Proof. intros H. rewrite store_ms_ordinary by exact H. apply lookup_insert_eq. Qed.

(** The flush as one step, with its cuts closed. *)
Lemma persistRunningTotal_unfold (clk : Clock) (m : Mem) (st : Storage) :
  persistRunningTotal clk (m, st) =
  match lastDomain m, lastStartTimestamp m with
  | Some d, Some s =>
      match getSettings (settings st) with
      | None => (m, st)
      | Some cfg =>
          if negb (shouldTrack d (excludeDomains cfg)) then
            (clear_session_flush m, set_currentSession None st)
          else if negb (keepIncognitoData cfg) && lastTabIncognito m then (m, st)
          else if roundMs (now clk - default s (lastPersistedAt m))
                          (timeGranularityMs cfg) <=? 0
          then (set_lastPersistedAt (Some (now clk)) m, st)
          else
            (set_pendingWrite None (set_lastPersistedAt (Some (now clk)) m),
             set_days
               (<[dateKey clk :=
                    {| domains :=
                         store_ms (domains (day_of (days st) (dateKey clk))) d
                           (ms_of (day_of (days st) (dateKey clk)) d
                            + roundMs (now clk - default s (lastPersistedAt m))
                                      (timeGranularityMs cfg));
                       timeline := timeline (day_of (days st) (dateKey clk)) |}]>
                  (days st)) st)
      end
  | _, _ => (m, st)
  end.
Proof.
  unfold persistRunningTotal, persistRunningTotal_enter. cbn [fst snd].
  destruct (lastDomain m) as [d |] eqn:Hd; [| reflexivity].
  destruct (lastStartTimestamp m) as [s |] eqn:Hs; [| reflexivity].
  destruct (getSettings (settings st)) as [cfg |]; [| reflexivity].
  unfold persistRunningTotal_settled. rewrite Hd, Hs.
  destruct (negb (shouldTrack d (excludeDomains cfg))); [reflexivity |].
  destruct (negb (keepIncognitoData cfg) && lastTabIncognito m); [reflexivity |].
  cbv zeta.
  assert (Hfrom : match lastPersistedAt m with
                  | Some p => p
                  | None => default 0 (Some s)
                  end = default s (lastPersistedAt m))
    by (destruct (lastPersistedAt m); reflexivity).
  rewrite Hfrom.
  destruct (_ <=? 0); [reflexivity |].
  unfold persistRunningTotal_finish, persistRunningTotal_write.
  cbn [fst snd fl_now fl_delta fl_key set_lastPersistedAt lastDomain].
  rewrite Hd. reflexivity.
Qed.


(** ** Rounding *)

Lemma roundMs_nonpos (x g : Z) : g <= 0 -> roundMs x g = x.
Proof.
  intros Hg. unfold roundMs.
  destruct (g =? 0) eqn:E0; [reflexivity |].
  destruct (g <=? 0) eqn:E1; [reflexivity | lia].
Qed.

Lemma roundMs_pos (x g : Z) : 0 < g -> roundMs x g = x / g * g.
Proof.
  intros Hg. unfold roundMs.
  destruct (g =? 0) eqn:E0; [lia |].
  destruct (g <=? 0) eqn:E1; [lia | reflexivity].
Qed.

Lemma roundMs_floor (x g : Z) :
  0 < g -> x / g * g <= x < (x / g + 1) * g.
Proof.
  intros Hg.
  pose proof (Z.div_mod x g ltac:(lia)) as Hdm.
  pose proof (Z.mod_pos_bound x g Hg) as Hb.
  nia.
Qed.

Lemma roundMs_nonneg (x g : Z) : 0 <= x -> 0 <= roundMs x g.
Proof.
  intros Hx. destruct (Z_le_gt_dec g 0) as [Hg | Hg].
  - rewrite roundMs_nonpos by lia. lia.
  - rewrite roundMs_pos by lia.
    pose proof (Z.div_pos x g Hx ltac:(lia)). nia.
Qed.

Lemma roundMs_below (x g : Z) : 0 < g -> 0 <= x < g -> roundMs x g = 0.
Proof.
  intros Hg Hx. rewrite roundMs_pos by lia.
  rewrite Z.div_small by lia. reflexivity.
Qed.

(** C9. [roundMs] is idempotent, passes its argument through when the
    granularity is zero or negative, and for a positive granularity [g]
    gives [floor(x / g) * g], the largest multiple of [g] that is at most
    [x]. *)
Theorem roundMs_idempotent_passthrough (x g : Z) :
  roundMs (roundMs x g) g = roundMs x g
  /\ (g <= 0 -> roundMs x g = x)
  /\ (0 < g ->
      roundMs x g = x / g * g
      /\ roundMs x g <= x < roundMs x g + g).
Proof.
  split; [| split].
  - destruct (Z_le_gt_dec g 0) as [Hg | Hg].
    + rewrite !roundMs_nonpos by lia. reflexivity.
    + rewrite !roundMs_pos by lia.
      rewrite Z.div_mul by lia. reflexivity.
  - apply roundMs_nonpos.
  - intros Hg. rewrite roundMs_pos by lia. split; [reflexivity |].
    pose proof (roundMs_floor x g Hg). lia.
Qed.

Lemma roundMs_idempotent_passthrough_witness :
  roundMs (roundMs 5500 1000) 1000 = roundMs 5500 1000
  /\ roundMs 5500 0 = 5500
  /\ roundMs 5500 (-7) = 5500
  /\ roundMs 5500 1000 = 5000.
Proof.
  destruct (roundMs_idempotent_passthrough 5500 1000) as (Hidem & _ & Hpos).
  destruct (roundMs_idempotent_passthrough 5500 0) as (_ & Hzero & _).
  destruct (roundMs_idempotent_passthrough 5500 (-7)) as (_ & Hneg & _).
  split; [exact Hidem |].
  split; [apply Hzero; lia |].
  split; [apply Hneg; lia |].
  destruct Hpos as [Hfloor _]; [lia |]. exact Hfloor.
Defined.

(** ** Settings *)

Lemma get_prop_js_or (v : JSVal) (k : string) :
  get_prop (js_or v (JObj [])) k =
  Some (match v with
        | JObj fs => default JUndefined (assoc k fs)
        | _ => JUndefined
        end).
Proof.
  unfold js_or. destruct v as [| | b | n | s | l | fs]; simpl; try reflexivity.
  - destruct b; reflexivity.
  - destruct (n =? 0); reflexivity.
  - destruct (String.eqb s ""); reflexivity.
Qed.

Lemma getSettings_fields (stored : option JSVal) :
  getSettings stored =
  Some {| excludeDomains :=
            match stored_field stored "excludeDomains" with
            | JArr l => l
            | _ => []
            end;
          timeGranularityMs :=
            match stored_field stored "timeGranularityMs" with
            | JNum n => n
            | _ => DEFAULT_GRANULARITY_MS
            end;
          keepIncognitoData :=
            match stored_field stored "keepIncognitoData" with
            | JBool true => true
            | _ => false
            end |}.
Proof.
  unfold getSettings, storage_get_settings, stored_field.
  destruct stored as [v |]; simpl.
  - rewrite !get_prop_js_or. simpl. destruct v; reflexivity.
  - reflexivity.
Qed.

Lemma keep_true_iff (v : JSVal) :
  match v with JBool true => true | _ => false end = true <-> v = JBool true.
Proof.
  destruct v as [| | [|] | | | |]; simpl; split; intros H;
    try reflexivity; try discriminate H.
Qed.

Lemma endSession_persist_discards_incognito (c : Claimed) (clk : Clock)
  (m : Mem) (st : Storage) (cfg : Settings) :
  getSettings (settings st) = Some cfg ->
  keepIncognitoData cfg = false ->
  c_wasIncognito c = true ->
  snd (endSession_persist c clk (m, st)) = st.
Proof.
  intros Hcfg Hkeep Hinc. unfold endSession_persist. rewrite Hcfg, Hkeep, Hinc.
  destruct (negb (shouldTrack (c_domain c) (excludeDomains cfg))); reflexivity.
Qed.

Lemma persistRunningTotal_discards_incognito (clk : Clock) (m : Mem)
  (st : Storage) (cfg : Settings) :
  getSettings (settings st) = Some cfg ->
  keepIncognitoData cfg = false ->
  lastTabIncognito m = true ->
  days (snd (persistRunningTotal clk (m, st))) = days st.
Proof.
  intros Hcfg Hkeep Hinc. rewrite persistRunningTotal_unfold.
  destruct (lastDomain m) as [d |]; [| reflexivity].
  destruct (lastStartTimestamp m) as [s |]; [| reflexivity].
  rewrite Hcfg, Hkeep, Hinc.
  destruct (negb (shouldTrack d (excludeDomains cfg))); reflexivity.
Qed.

(** C10. [getSettings] returns a settings record for every stored value,
    malformed or absent: [excludeDomains] is the stored array or [[]],
    [timeGranularityMs] the stored number or 1000, [keepIncognitoData] is
    true exactly when the stored field is the boolean [true]. Whenever that
    field is anything else, stopping or flushing an incognito session writes
    no time to storage. *)
Theorem getSettings_total (stored : option JSVal) :
  exists cfg : Settings,
    getSettings stored = Some cfg
    /\ excludeDomains cfg =
       match stored_field stored "excludeDomains" with
       | JArr l => l
       | _ => []
       end
    /\ timeGranularityMs cfg =
       match stored_field stored "timeGranularityMs" with
       | JNum n => n
       | _ => 1000
       end
    /\ (keepIncognitoData cfg = true <->
        stored_field stored "keepIncognitoData" = JBool true)
    /\ (stored_field stored "keepIncognitoData" <> JBool true ->
        forall (clk : Clock) (m : Mem) (st : Storage),
          settings st = stored ->
          (forall c : Claimed,
              c_wasIncognito c = true ->
              snd (endSession_persist c clk (m, st)) = st)
          /\ (lastTabIncognito m = true ->
              days (snd (persistRunningTotal clk (m, st))) = days st)).
Proof.
  eexists. split; [apply getSettings_fields |]. cbn [excludeDomains timeGranularityMs keepIncognitoData].
  split; [reflexivity |]. split; [reflexivity |].
  split; [apply keep_true_iff |].
  intros Hne clk m st Hst.
  assert (Hkeep : match stored_field stored "keepIncognitoData" with
                  | JBool true => true
                  | _ => false
                  end = false).
  { destruct (stored_field stored "keepIncognitoData") as [| | [|] | | | |];
      try reflexivity. exfalso. apply Hne. reflexivity. }
  pose proof (getSettings_fields stored) as Hcfg. rewrite <- Hst in Hcfg at 1.
  split.
  - intros c Hc.
    eapply endSession_persist_discards_incognito; [exact Hcfg | exact Hkeep | exact Hc].
  - intros Hinc.
    eapply persistRunningTotal_discards_incognito; [exact Hcfg | exact Hkeep | exact Hinc].
Qed.

Lemma getSettings_total_witness :
  exists cfg : Settings,
    getSettings (Some (JObj [("excludeDomains", JStr "a.com");
                             ("timeGranularityMs", JStr "fast");
                             ("keepIncognitoData", JNum 1)])) = Some cfg
    /\ excludeDomains cfg = []
    /\ timeGranularityMs cfg = 1000
    /\ keepIncognitoData cfg <> true.
Proof.
  destruct (getSettings_total
              (Some (JObj [("excludeDomains", JStr "a.com");
                           ("timeGranularityMs", JStr "fast");
                           ("keepIncognitoData", JNum 1)])))
    as (cfg & Hget & Hex & Hgr & Hkeep & _).
  exists cfg. split; [exact Hget |]. split; [exact Hex |]. split; [exact Hgr |].
  intros Htrue. apply Hkeep in Htrue. discriminate Htrue.
Defined.

(** ** Domain classification *)

Lemma prefix_append (p s : string) :
  String.prefix p s = true <-> exists r : string, s = p +:+ r.
Proof.
  revert s. induction p as [| a p IH]; intros s; simpl.
  - split; [intros _; exists s; reflexivity | destruct s; reflexivity].
  - destruct s as [| b s]; simpl.
    + split; [discriminate | intros [r Hr]; discriminate Hr].
    + destruct (Ascii.ascii_dec a b) as [-> | Hab].
      * rewrite IH. split; intros [r Hr]; exists r.
        -- rewrite Hr. reflexivity.
        -- change (String b s = String b (p +:+ r)) in Hr. congruence.
      * split; [discriminate |].
        intros [r Hr]. change (String b s = String a (p +:+ r)) in Hr. congruence.
Qed.

Lemma substring_all (s : string) : String.substring 0 (String.length s) s = s.
Proof. induction s as [| a s IH]; simpl; [reflexivity | rewrite IH; reflexivity]. Qed.

Lemma substring_after_prefix (p r : string) :
  String.substring (String.length p)
    (String.length (p +:+ r) - String.length p) (p +:+ r) = r.
Proof.
  induction p as [| a p IH].
  - change ("" +:+ r) with r. change (String.length "") with 0%nat.
    rewrite Nat.sub_0_r. apply substring_all.
  - change (String a p +:+ r) with (String a (p +:+ r)).
    cbn [String.length String.substring Nat.sub]. exact IH.
Qed.

Lemma strip_www_prefixed (r : string) : strip_www ("www." +:+ r) = r.
Proof.
  unfold strip_www.
  assert (E : String.prefix "www." ("www." +:+ r) = true).
  { apply prefix_append. exists r. reflexivity. }
  rewrite E. exact (substring_after_prefix "www." r).
Qed.

Lemma strip_www_other (h : string) :
  (forall r : string, h <> "www." +:+ r) -> strip_www h = h.
Proof.
  intros Hno. unfold strip_www.
  destruct (String.prefix "www." h) eqn:E; [| reflexivity].
  apply prefix_append in E. destruct E as [r Hr]. elim (Hno r Hr).
Qed.

Lemma internal_url_prefix (url : string) :
  internal_url url <->
  startsWith url "chrome://" || startsWith url "chrome-extension://"
  || startsWith url "edge://" || startsWith url "about:" = true.
Proof.
  unfold internal_url, startsWith. rewrite !orb_true_iff, !prefix_append.
  split.
  - intros [r [H | [H | [H | H]]]]; eauto 6.
  - intros [[[[r H] | [r H]] | [r H]] | [r H]]; exists r; tauto.
Qed.

Lemma hostnameFromUrl_internal (U : string -> option string) (url : string) :
  internal_url url -> hostnameFromUrl U url = None.
Proof.
  intros H. apply internal_url_prefix in H. unfold hostnameFromUrl.
  rewrite <- !orb_assoc in *. rewrite H. rewrite orb_true_r. reflexivity.
Qed.

Lemma hostnameFromUrl_parsed (U : string -> option string) (url h : string) :
  ~ internal_url url -> url <> "" -> U url = Some h ->
  hostnameFromUrl U url =
  if String.eqb (strip_www h) "" then None else Some (strip_www h).
Proof.
  intros Hint Hne HU. unfold hostnameFromUrl.
  rewrite internal_url_prefix in Hint. apply not_true_is_false in Hint.
  apply String.eqb_neq in Hne.
  rewrite <- !orb_assoc in *. rewrite Hne, Hint, HU. reflexivity.
Qed.

(** C8 (amended). A URL that is empty, starts with one of the internal
    prefixes or does not parse is classified [null]; any other URL is
    classified as its hostname with a leading [www.] removed, or as [null]
    when nothing is left of the hostname. The four examples of the
    specification hold. *)
Theorem hostnameFromUrl_classification (U : string -> option string) (url : string) :
  (internal_url url \/ url = "" \/ U url = None -> hostnameFromUrl U url = None)
  /\ (forall h : string,
        ~ internal_url url -> url <> "" -> U url = Some h ->
        (strip_www h = "" -> hostnameFromUrl U url = None)
        /\ (strip_www h <> "" -> hostnameFromUrl U url = Some (strip_www h)))
  /\ (forall r : string, strip_www ("www." +:+ r) = r)
  /\ (forall h : string, (forall r : string, h <> "www." +:+ r) -> strip_www h = h)
  /\ (U "https://www.youtube.com/watch?v=1" = Some "www.youtube.com" ->
      hostnameFromUrl U "https://www.youtube.com/watch?v=1" = Some "youtube.com")
  /\ (U "https://github.com/foo" = Some "github.com" ->
      hostnameFromUrl U "https://github.com/foo" = Some "github.com")
  /\ hostnameFromUrl U "chrome://extensions" = None
  /\ hostnameFromUrl U "" = None.
Proof.
  repeat split.
  - intros [H | [H | H]].
    + apply hostnameFromUrl_internal. exact H.
    + subst url. reflexivity.
    + unfold hostnameFromUrl. rewrite H.
      destruct (_ || _); reflexivity.
  - intros Hempty. rewrite (hostnameFromUrl_parsed U url h) by assumption.
    rewrite Hempty. reflexivity.
  - intros Hne. rewrite (hostnameFromUrl_parsed U url h) by assumption.
    apply String.eqb_neq in Hne. rewrite Hne. reflexivity.
  - apply strip_www_prefixed.
  - apply strip_www_other.
  - intros HU. unfold hostnameFromUrl. rewrite HU. reflexivity.
  - intros HU. unfold hostnameFromUrl. rewrite HU. reflexivity.
Qed.

Lemma hostnameFromUrl_classification_witness :
  hostnameFromUrl basic_URL_hostname "https://www.youtube.com/watch?v=1"
    = Some "youtube.com"
  /\ hostnameFromUrl basic_URL_hostname "https://github.com/foo"
    = Some "github.com"
  /\ hostnameFromUrl basic_URL_hostname "chrome://extensions" = None
  /\ hostnameFromUrl basic_URL_hostname "" = None
  /\ hostnameFromUrl basic_URL_hostname "not a url" = None.
Proof.
  destruct (hostnameFromUrl_classification basic_URL_hostname "not a url")
    as (Hnull & _ & _ & _ & Hyt & Hgh & Hchrome & Hempty).
  split; [apply Hyt; reflexivity |].
  split; [apply Hgh; reflexivity |].
  split; [exact Hchrome |].
  split; [exact Hempty |].
  apply Hnull. right. right. reflexivity.
Defined.

(** C8, as stated, fails: [file:///x] is no internal URL and parses, with
    the empty hostname, and [hostnameFromUrl] returns [null] for it, not
    that hostname. *)
Lemma hostnameFromUrl_empty_hostname_null :
  ~ (forall (url h : string),
        ~ internal_url url -> url <> "" -> basic_URL_hostname url = Some h ->
        hostnameFromUrl basic_URL_hostname url = Some (strip_www h)).
Proof.
  intros H. specialize (H "file:///x" "").
  assert (Hni : ~ internal_url "file:///x").
  { rewrite internal_url_prefix. discriminate. }
  specialize (H Hni ltac:(discriminate) eq_refl). discriminate H.
Qed.

(** ** The stop path *)

Lemma timeline_at_days (st : Storage) (k : string) (d : Day)
  (ds : gmap string Day) :
  days st = <[k := d]> ds -> timeline_at st k = timeline d.
Proof.
  intros H. unfold timeline_at, day_of. rewrite H, lookup_insert_eq. reflexivity.
Qed.

Lemma entry_at_days (st : Storage) (k : string) (d : Day)
  (ds : gmap string Day) (dom : string) :
  days st = <[k := d]> ds -> entry_at st k dom = domains d !! dom.
Proof.
  intros H. unfold entry_at, day_of. rewrite H, lookup_insert_eq. reflexivity.
Qed.

Lemma total_at_entry (st : Storage) (k dom : string) :
  total_at st k dom = default 0 (entry_at st k dom).
Proof. reflexivity. Qed.

Lemma days_other (st : Storage) (k k' : string) (d : Day)
  (ds : gmap string Day) :
  days st = <[k := d]> ds -> k' <> k -> days st !! k' = ds !! k'.
Proof. intros H Hk. rewrite H. apply lookup_insert_ne. congruence. Qed.

Lemma endSession_persist_eq (c : Claimed) (clk : Clock) (m : Mem)
  (st : Storage) (cfg : Settings) :
  getSettings (settings st) = Some cfg ->
  shouldTrack (c_domain c) (excludeDomains cfg) = true ->
  persistable cfg (c_wasIncognito c) = true ->
  endSession_persist c clk (m, st) =
  (set_pendingWrite None m,
   {| settings := settings st;
      days :=
        <[dateKey clk :=
            {| domains :=
                 store_ms (domains (day_of (days st) (dateKey clk)))
                   (c_domain c)
                   (total_at st (dateKey clk) (c_domain c)
                    + Z.max 0 (roundMs (now clk - default (c_start c) (c_persistedAt c))
                                       (timeGranularityMs cfg)));
               timeline :=
                 timeline_at st (dateKey clk) ++
                   [{| blk_start := c_start c; blk_end := now clk;
                       blk_domain := c_domain c |}] |}]> (days st);
      currentSession := None;
      _pendingSession := None |}).
Proof.
  intros Hcfg Htrack Hpers. unfold persistable in Hpers.
  apply negb_true_iff in Hpers.
  unfold endSession_persist. rewrite Hcfg, Htrack, Hpers. cbn [negb].
  cbv zeta. unfold total_at, timeline_at.
  destruct (0 <? _) eqn:E; [apply Z.ltb_lt in E | apply Z.ltb_ge in E].
  - rewrite Z.max_r by lia. reflexivity.
  - rewrite Z.max_l by lia. rewrite Z.add_0_r. reflexivity.
Qed.

Lemma endSession_persist_effect (c : Claimed) (clk : Clock) (m : Mem)
  (st : Storage) (cfg : Settings) :
  getSettings (settings st) = Some cfg ->
  shouldTrack (c_domain c) (excludeDomains cfg) = true ->
  persistable cfg (c_wasIncognito c) = true ->
  let w' := endSession_persist c clk (m, st) in
  let increment :=
    roundMs (now clk - default (c_start c) (c_persistedAt c))
            (timeGranularityMs cfg) in
  fst w' = set_pendingWrite None m
  /\ settings (snd w') = settings st
  /\ currentSession (snd w') = None
  /\ _pendingSession (snd w') = None
  /\ timeline_at (snd w') (dateKey clk) =
     (timeline_at st (dateKey clk) ++
       [{| blk_start := c_start c; blk_end := now clk;
           blk_domain := c_domain c |}])%list
  /\ (inherited (c_domain c) = false ->
      total_at (snd w') (dateKey clk) (c_domain c) =
      total_at st (dateKey clk) (c_domain c) + Z.max 0 increment)
  /\ (forall k : string, k <> dateKey clk -> days (snd w') !! k = days st !! k)
  /\ (forall d' : string, d' <> c_domain c ->
        entry_at (snd w') (dateKey clk) d' = entry_at st (dateKey clk) d').
Proof.
  intros Hcfg Htrack Hpers. cbv zeta.
  rewrite (endSession_persist_eq c clk m st cfg Hcfg Htrack Hpers).
  cbn [fst snd].
  split; [reflexivity |]. split; [reflexivity |]. split; [reflexivity |].
  split; [reflexivity |].
  split; [erewrite timeline_at_days by reflexivity; reflexivity |].
  split; [| split].
  - intros Hown. rewrite total_at_entry. erewrite entry_at_days by reflexivity.
    cbn [domains]. rewrite store_ms_lookup by exact Hown. reflexivity.
  - intros k Hk. erewrite days_other by (reflexivity || exact Hk). reflexivity.
  - intros d' Hd. erewrite entry_at_days by reflexivity.
    cbn [domains]. rewrite store_ms_lookup_ne by congruence. reflexivity.
Qed.

Lemma endSession_persist_untracked (c : Claimed) (clk : Clock) (w : World)
  (cfg : Settings) :
  getSettings (settings (snd w)) = Some cfg ->
  shouldTrack (c_domain c) (excludeDomains cfg) = false ->
  endSession_persist c clk w = w.
Proof.
  destruct w as [m st]. intros Hcfg Htrack. unfold endSession_persist.
  cbn [snd] in Hcfg. rewrite Hcfg, Htrack. reflexivity.
Qed.

Lemma endSession_persist_forbidden (c : Claimed) (clk : Clock) (m : Mem)
  (st : Storage) (cfg : Settings) :
  getSettings (settings st) = Some cfg ->
  shouldTrack (c_domain c) (excludeDomains cfg) = true ->
  persistable cfg (c_wasIncognito c) = false ->
  endSession_persist c clk (m, st) = (set_pendingWrite None m, st).
Proof.
  intros Hcfg Htrack Hpers. unfold persistable in Hpers.
  apply negb_false_iff in Hpers.
  unfold endSession_persist. rewrite Hcfg, Htrack, Hpers. reflexivity.
Qed.

Lemma stopTracking_no_session (m : Mem) :
  lastDomain m = None \/ lastStartTimestamp m = None ->
  stopTracking m = (m, None).
Proof.
  intros [H | H]; unfold stopTracking; rewrite H;
    [reflexivity | destruct (lastDomain m); reflexivity].
Qed.

Lemma stopTracking_pending (m : Mem) (p : Promise) :
  lastDomain m <> None -> lastStartTimestamp m <> None ->
  pendingWrite m = Some p ->
  stopTracking m = (m, Some p).
Proof.
  intros Hd Hs Hp. unfold stopTracking.
  destruct (lastDomain m); [| congruence].
  destruct (lastStartTimestamp m); [| congruence].
  rewrite Hp. reflexivity.
Qed.

Lemma stopTracking_starts (m : Mem) (d : string) (s : Z) :
  lastDomain m = Some d -> lastStartTimestamp m = Some s ->
  pendingWrite m = None ->
  let p := Some {| c_domain := d; c_start := s;
                   c_persistedAt := lastPersistedAt m;
                   c_wasIncognito := lastTabIncognito m |} in
  stopTracking m = (set_pendingWrite (Some p) (clear_session_end m), Some p).
Proof.
  intros Hd Hs Hp. unfold stopTracking, endSession_claim.
  rewrite Hd, Hs, Hp. reflexivity.
Qed.

Lemma endSession_persist_mem (c : Claimed) (clk : Clock) (m : Mem) (st : Storage) :
  fst (endSession_persist c clk (m, st)) = m
  \/ fst (endSession_persist c clk (m, st)) = set_pendingWrite None m.
Proof.
  unfold endSession_persist.
  destruct (getSettings (settings st)) as [cfg |]; [| left; reflexivity].
  destruct (negb (shouldTrack (c_domain c) (excludeDomains cfg)));
    [left; reflexivity |].
  destruct (negb (keepIncognitoData cfg) && c_wasIncognito c); right; reflexivity.
Qed.

Lemma settle_snd (c : Claimed) (clk : Clock) (w : World) :
  snd (settle (Some c) clk w) = snd (endSession_persist c clk w).
Proof.
  unfold settle. destruct (endSession_persist c clk w) as [m1 st1]. reflexivity.
Qed.

Lemma settle_fst (c : Claimed) (clk : Clock) (m : Mem) (st : Storage) :
  fst (settle (Some c) clk (m, st)) = set_pendingWrite None m.
Proof.
  unfold settle.
  destruct (endSession_persist_mem c clk m st) as [H | H];
    destruct (endSession_persist c clk (m, st)) as [m1 st1];
    cbn [fst] in *; subst m1; reflexivity.
Qed.

(** C2, the part that fails. After a first [stopTracking] on a running
    session a stop is pending, and the session is cleared already: a second
    call made before the first settles meets [lastDomain == null] first
    and returns [null], not the pending promise. *)
Lemma second_stop_returns_null :
  let m1 := fst (stopTracking (fst started)) in
  pendingWrite m1 <> None
  /\ snd (stopTracking m1) <> pendingWrite m1
  /\ stopTracking m1 = (m1, None).
Proof.
  cbv zeta. split; [| split].
  - vm_compute. discriminate.
  - vm_compute. discriminate.
  - apply stopTracking_no_session. left. reflexivity.
Qed.

(** C2, amended. [stopTracking] returns [null] and changes nothing when no
    session is active. It returns the pending promise, and starts no
    second [endSession], when a stop is pending while a session is active.
    Otherwise it starts one [endSession], which clears the session at once,
    so that a second call made before the first stop settles finds no
    session: it returns [null] and changes nothing. When the one pending
    stop settles (for a trackable, persistable session) exactly one block
    [start .. now] is appended, and the total of a domain whose name is not
    one that objects inherit grows once, by the rounded time since the last
    flush, which is the rounded whole span when no flush came in between. *)
Theorem stopTracking_idempotent_coalescing (m : Mem) (st : Storage) (clk : Clock) :
  (lastDomain m = None \/ lastStartTimestamp m = None ->
   stopTracking m = (m, None))
  /\ (forall p : Promise,
        lastDomain m <> None -> lastStartTimestamp m <> None ->
        pendingWrite m = Some p ->
        stopTracking m = (m, Some p))
  /\ (forall (d : string) (s : Z),
        lastDomain m = Some d -> lastStartTimestamp m = Some s ->
        pendingWrite m = None ->
        exists (p : Promise) (m1 : Mem),
          stopTracking m = (m1, Some p)
          /\ lastDomain m1 = None
          /\ pendingWrite m1 = Some p
          /\ stopTracking m1 = (m1, None)
          /\ forall cfg : Settings,
               getSettings (settings st) = Some cfg ->
               shouldTrack d (excludeDomains cfg) = true ->
               persistable cfg (lastTabIncognito m) = true ->
               let w2 := settle p clk (m1, st) in
               let span :=
                 roundMs (now clk - default s (lastPersistedAt m))
                         (timeGranularityMs cfg) in
               timeline_at (snd w2) (dateKey clk) =
                 (timeline_at st (dateKey clk) ++
                    [{| blk_start := s; blk_end := now clk; blk_domain := d |}])%list
               /\ (forall k : string,
                     k <> dateKey clk -> days (snd w2) !! k = days st !! k)
               /\ (inherited d = false ->
                   total_at (snd w2) (dateKey clk) d =
                     total_at st (dateKey clk) d + Z.max 0 span)
               /\ (inherited d = false ->
                   lastPersistedAt m = Some s -> s <= now clk ->
                   total_at (snd w2) (dateKey clk) d =
                     total_at st (dateKey clk) d
                     + roundMs (now clk - s) (timeGranularityMs cfg))
               /\ pendingWrite (fst w2) = None
               /\ stopTracking (fst w2) = (fst w2, None)).
Proof.
  split; [apply stopTracking_no_session |].
  split; [intros p; apply stopTracking_pending |].
  intros d s Hd Hs Hp.
  pose proof (stopTracking_starts m d s Hd Hs Hp) as Hstop. cbv zeta in Hstop.
  eexists. eexists. split; [exact Hstop |].
  split; [reflexivity |]. split; [reflexivity |].
  split; [apply stopTracking_no_session; left; reflexivity |].
  intros cfg Hcfg Htrack Hpers. cbv zeta.
  rewrite settle_snd, settle_fst.
  match goal with
  | |- context [endSession_persist ?c clk (?m1, st)] =>
      pose proof (endSession_persist_effect c clk m1 st cfg Hcfg Htrack Hpers) as He
  end.
  cbv zeta in He. cbn [c_domain c_start c_persistedAt] in He.
  destruct He as (_ & _ & _ & _ & Htl & Htot & Hdays & _).
  split; [exact Htl |]. split; [exact Hdays |]. split; [exact Htot |].
  split.
  - intros Hown Hlast Hle. rewrite (Htot Hown), Hlast. cbn [from_option id].
    pose proof (roundMs_nonneg (now clk - s) (timeGranularityMs cfg) ltac:(lia)).
    lia.
  - split; [reflexivity |].
    apply stopTracking_no_session. left. reflexivity.
Qed.

Lemma stopTracking_idempotent_coalescing_witness :
  exists (p : Promise) (m1 : Mem),
    stopTracking (fst started) = (m1, Some p)
    /\ stopTracking m1 = (m1, None)
    /\ timeline_at (snd (settle p (at_time 1002500) (m1, snd started))) "2025-02-13" =
       [{| blk_start := 1000000; blk_end := 1002500; blk_domain := "example.com" |}]
    /\ total_at (snd (settle p (at_time 1002500) (m1, snd started)))
         "2025-02-13" "example.com" = 2000.
Proof.
  destruct (stopTracking_idempotent_coalescing
              (fst started) (snd started) (at_time 1002500))
    as (_ & _ & Hstop).
  destruct (Hstop "example.com" 1000000 eq_refl eq_refl eq_refl)
    as (p & m1 & Hfirst & _ & _ & Hsecond & Hsettle).
  specialize (Hsettle default_settings eq_refl eq_refl eq_refl).
  cbv zeta in Hsettle.
  destruct Hsettle as (Htl & _ & _ & Htot & _).
  exists p, m1.
  split; [exact Hfirst |]. split; [exact Hsecond |].
  split; [exact Htl |].
  apply Htot; [reflexivity | reflexivity | vm_compute; discriminate].
Defined.

(** ** The periodic flush *)

Lemma persistRunningTotal_no_session (clk : Clock) (w : World) :
  lastDomain (fst w) = None \/ lastStartTimestamp (fst w) = None ->
  persistRunningTotal clk w = w.
Proof.
  destruct w as [m st]. cbn [fst]. rewrite persistRunningTotal_unfold.
  intros [H | H]; rewrite H; [reflexivity | destruct (lastDomain m); reflexivity].
Qed.

Lemma persistRunningTotal_cases (clk : Clock) (m : Mem) (st : Storage)
  (d : string) (s : Z) (cfg : Settings) :
  lastDomain m = Some d -> lastStartTimestamp m = Some s ->
  getSettings (settings st) = Some cfg ->
  shouldTrack d (excludeDomains cfg) = true ->
  let delta :=
    roundMs (now clk - default s (lastPersistedAt m)) (timeGranularityMs cfg) in
  persistRunningTotal clk (m, st) =
  if negb (persistable cfg (lastTabIncognito m)) then (m, st)
  else if delta <=? 0 then (set_lastPersistedAt (Some (now clk)) m, st)
  else
    (set_pendingWrite None (set_lastPersistedAt (Some (now clk)) m),
     set_days
       (<[dateKey clk :=
            {| domains :=
                 store_ms (domains (day_of (days st) (dateKey clk))) d
                   (total_at st (dateKey clk) d + delta);
               timeline := timeline_at st (dateKey clk) |}]> (days st)) st).
Proof.
  intros Hd Hs Hcfg Htrack. rewrite persistRunningTotal_unfold. unfold persistable.
  rewrite Hd, Hs, Hcfg, Htrack, negb_involutive. reflexivity.
Qed.

Lemma persistRunningTotal_untracked (clk : Clock) (m : Mem) (st : Storage)
  (d : string) (s : Z) (cfg : Settings) :
  lastDomain m = Some d -> lastStartTimestamp m = Some s ->
  getSettings (settings st) = Some cfg ->
  shouldTrack d (excludeDomains cfg) = false ->
  persistRunningTotal clk (m, st) =
  (clear_session_flush m, set_currentSession None st).
Proof.
  intros Hd Hs Hcfg Htrack. rewrite persistRunningTotal_unfold.
  rewrite Hd, Hs, Hcfg, Htrack. reflexivity.
Qed.

Lemma timeline_at_rewritten (st : Storage) (key k : string)
  (doms : gmap string Z) :
  timeline_at
    (set_days (<[key := {| domains := doms; timeline := timeline_at st key |}]>
                 (days st)) st) k
  = timeline_at st k.
Proof.
  destruct (decide (k = key)) as [-> | Hk].
  - erewrite timeline_at_days by reflexivity. reflexivity.
  - unfold timeline_at, day_of. cbn [set_days days].
    rewrite lookup_insert_ne by congruence. reflexivity.
Qed.

Lemma entry_at_rewritten (st : Storage) (key k d d' : string) (v : Z) :
  k <> key \/ d' <> d ->
  entry_at
    (set_days (<[key := {| domains := store_ms (domains (day_of (days st) key)) d v;
                           timeline := timeline_at st key |}]>
                 (days st)) st) k d'
  = entry_at st k d'.
Proof.
  intros Hne. destruct (decide (k = key)) as [-> | Hk].
  - destruct Hne as [Hne | Hne]; [congruence |].
    erewrite entry_at_days by reflexivity. cbn [domains].
    rewrite store_ms_lookup_ne by congruence. reflexivity.
  - unfold entry_at, day_of. cbn [set_days days].
    rewrite lookup_insert_ne by congruence. reflexivity.
Qed.

Lemma persistRunningTotal_active (clk : Clock) (m : Mem) (st : Storage)
  (d : string) (s : Z) (cfg : Settings) :
  lastDomain m = Some d -> lastStartTimestamp m = Some s ->
  getSettings (settings st) = Some cfg ->
  shouldTrack d (excludeDomains cfg) = true ->
  let w' := persistRunningTotal clk (m, st) in
  lastDomain (fst w') = Some d
  /\ lastStartTimestamp (fst w') = Some s
  /\ lastTabId (fst w') = lastTabId m
  /\ lastTabIncognito (fst w') = lastTabIncognito m
  /\ lastFocusedWindowId (fst w') = lastFocusedWindowId m
  /\ lastTrackedWindowId (fst w') = lastTrackedWindowId m
  /\ incognitoWindowIds (fst w') = incognitoWindowIds m
  /\ isIdle (fst w') = isIdle m
  /\ (pendingWrite (fst w') = pendingWrite m \/ pendingWrite (fst w') = None)
  /\ settings (snd w') = settings st
  /\ currentSession (snd w') = currentSession st
  /\ _pendingSession (snd w') = _pendingSession st
  /\ (forall k : string, timeline_at (snd w') k = timeline_at st k)
  /\ (forall k d' : string,
        k <> dateKey clk \/ d' <> d ->
        entry_at (snd w') k d' = entry_at st k d')
  /\ (forall k : string,
        k <> dateKey clk -> days (snd w') !! k = days st !! k)
  /\ (inherited d = false ->
      total_at (snd w') (dateKey clk) d =
      total_at st (dateKey clk) d
      + (if persistable cfg (lastTabIncognito m)
         then Z.max 0 (roundMs (now clk - default s (lastPersistedAt m))
                               (timeGranularityMs cfg))
         else 0))
  /\ lastPersistedAt (fst w') =
     (if persistable cfg (lastTabIncognito m)
      then Some (now clk)
      else lastPersistedAt m).
Proof.
  intros Hd Hs Hcfg Htrack. cbv zeta.
  rewrite (persistRunningTotal_cases clk m st d s cfg Hd Hs Hcfg Htrack).
  cbv zeta.
  destruct (persistable cfg (lastTabIncognito m)); cbn [negb];
    [| cbn [fst snd]; repeat split; auto; intros _; lia].
  destruct (_ <=? 0) eqn:E.
  { apply Z.leb_le in E.
    cbn [fst snd set_lastPersistedAt lastDomain lastStartTimestamp lastTabId
         lastTabIncognito lastFocusedWindowId lastTrackedWindowId
         incognitoWindowIds isIdle pendingWrite lastPersistedAt].
    repeat split; auto; intros _; lia. }
  apply Z.leb_gt in E.
  cbn [fst snd set_lastPersistedAt set_pendingWrite lastDomain
       lastStartTimestamp lastTabId lastTabIncognito lastFocusedWindowId
       lastTrackedWindowId incognitoWindowIds isIdle pendingWrite].
  repeat split; auto.
  - intros k. apply timeline_at_rewritten.
  - intros k d' Hne. apply entry_at_rewritten. exact Hne.
  - intros k Hk. cbn [set_days days]. rewrite lookup_insert_ne by congruence.
    reflexivity.
  - intros Hown. rewrite (total_at_entry (set_days _ _)).
    erewrite entry_at_days by reflexivity. cbn [domains].
    rewrite store_ms_lookup by exact Hown. cbn [from_option id]. lia.
Qed.

(** What a flush does to the pending-stop slot: it empties the slot when
    it writes a positive delta, and leaves it alone otherwise. *)
Lemma persistRunningTotal_pendingWrite (clk : Clock) (m : Mem) (st : Storage)
  (d : string) (s : Z) (cfg : Settings) :
  lastDomain m = Some d -> lastStartTimestamp m = Some s ->
  getSettings (settings st) = Some cfg ->
  shouldTrack d (excludeDomains cfg) = true ->
  pendingWrite (fst (persistRunningTotal clk (m, st))) =
  if persistable cfg (lastTabIncognito m)
     && (0 <? roundMs (now clk - default s (lastPersistedAt m))
                      (timeGranularityMs cfg))
  then None
  else pendingWrite m.
Proof.
  intros Hd Hs Hcfg Htrack.
  rewrite (persistRunningTotal_cases clk m st d s cfg Hd Hs Hcfg Htrack).
  cbv zeta.
  destruct (persistable cfg (lastTabIncognito m)); cbn [negb andb];
    [| reflexivity].
  destruct (_ <=? 0) eqn:E.
  - apply Z.leb_le in E.
    assert (H : (0 <? roundMs (now clk - default s (lastPersistedAt m))
                              (timeGranularityMs cfg)) = false)
      by (apply Z.ltb_ge; exact E).
    rewrite H. reflexivity.
  - apply Z.leb_gt in E.
    assert (H : (0 <? roundMs (now clk - default s (lastPersistedAt m))
                              (timeGranularityMs cfg)) = true)
      by (apply Z.ltb_lt; exact E).
    rewrite H. reflexivity.
Qed.

(** C6, the part that fails. A stop is pending (the idle stop of the
    session [started]) when a new session starts at 1010000; the flush at
    1015000 adds 5000 to the new domain's total and also empties the
    pending-stop slot, which is neither the total nor [lastPersistedAt]. *)
Lemma flush_resets_pendingWrite :
  pendingWrite (fst restarted) <> None
  /\ lastDomain (fst restarted) = Some "example.org"
  /\ total_at (snd (persistRunningTotal (at_time 1015000) restarted))
       "2025-02-13" "example.org" = 5000
  /\ pendingWrite (fst (persistRunningTotal (at_time 1015000) restarted)) = None.
Proof.
  split; [vm_compute; discriminate |].
  split; [reflexivity |]. split; vm_compute; reflexivity.
Qed.

(** C6, amended. While the session is active and its domain trackable, a
    flush leaves the session's domain, start, tab, window and privacy flag
    as they were and leaves settings, the live indicator, the pending
    marker, every timeline, every other day and every other domain's entry
    untouched. It changes [lastPersistedAt], the total of the day of a
    domain whose name is not one that objects inherit, and the pending-stop
    slot, which it empties exactly when it writes a positive delta. With no
    session it changes nothing. *)
Theorem persistRunningTotal_frame (clk : Clock) (m : Mem) (st : Storage) :
  (lastDomain m = None \/ lastStartTimestamp m = None ->
   persistRunningTotal clk (m, st) = (m, st))
  /\ (forall (d : string) (s : Z) (cfg : Settings),
        lastDomain m = Some d -> lastStartTimestamp m = Some s ->
        getSettings (settings st) = Some cfg ->
        shouldTrack d (excludeDomains cfg) = true ->
        let w' := persistRunningTotal clk (m, st) in
        let delta :=
          roundMs (now clk - default s (lastPersistedAt m))
                  (timeGranularityMs cfg) in
        lastDomain (fst w') = Some d
        /\ lastStartTimestamp (fst w') = Some s
        /\ lastTabId (fst w') = lastTabId m
        /\ lastTabIncognito (fst w') = lastTabIncognito m
        /\ lastFocusedWindowId (fst w') = lastFocusedWindowId m
        /\ lastTrackedWindowId (fst w') = lastTrackedWindowId m
        /\ incognitoWindowIds (fst w') = incognitoWindowIds m
        /\ isIdle (fst w') = isIdle m
        /\ pendingWrite (fst w') =
           (if persistable cfg (lastTabIncognito m) && (0 <? delta)
            then None
            else pendingWrite m)
        /\ settings (snd w') = settings st
        /\ currentSession (snd w') = currentSession st
        /\ _pendingSession (snd w') = _pendingSession st
        /\ (forall k : string, timeline_at (snd w') k = timeline_at st k)
        /\ (forall k d' : string,
              k <> dateKey clk \/ d' <> d ->
              entry_at (snd w') k d' = entry_at st k d')
        /\ (forall k : string,
              k <> dateKey clk -> days (snd w') !! k = days st !! k)
        /\ (inherited d = false ->
            total_at (snd w') (dateKey clk) d =
            total_at st (dateKey clk) d
            + (if persistable cfg (lastTabIncognito m)
               then Z.max 0 delta
               else 0))
        /\ lastPersistedAt (fst w') =
           (if persistable cfg (lastTabIncognito m)
            then Some (now clk)
            else lastPersistedAt m)).
Proof.
  split; [apply (persistRunningTotal_no_session clk (m, st)) |].
  intros d s cfg Hd Hs Hcfg Htrack. cbv zeta.
  pose proof (persistRunningTotal_active clk m st d s cfg Hd Hs Hcfg Htrack) as H.
  cbv zeta in H.
  destruct H as (H1 & H2 & H3 & H4 & H5 & H6 & H7 & H8 & _ & H10 & H11 & H12
                 & H13 & H14 & H15 & H16 & H17).
  pose proof (persistRunningTotal_pendingWrite clk m st d s cfg Hd Hs Hcfg Htrack)
    as H9.
  exact (conj H1 (conj H2 (conj H3 (conj H4 (conj H5 (conj H6 (conj H7 (conj H8
          (conj H9 (conj H10 (conj H11 (conj H12 (conj H13 (conj H14 (conj H15
          (conj H16 H17)))))))))))))))).
Qed.

Lemma persistRunningTotal_frame_witness :
  let w' := persistRunningTotal (at_time 1003700) started in
  lastStartTimestamp (fst w') = Some 1000000
  /\ lastPersistedAt (fst w') = Some 1003700
  /\ timeline_at (snd w') "2025-02-13" = []
  /\ total_at (snd w') "2025-02-13" "example.com" = 3000
  /\ persistRunningTotal (at_time 1003700) (fresh_mem, snd started)
     = (fresh_mem, snd started).
Proof.
  destruct (persistRunningTotal_frame (at_time 1003700) (fst started) (snd started))
    as [_ Hframe].
  specialize (Hframe "example.com" 1000000 default_settings
                eq_refl eq_refl eq_refl eq_refl).
  cbv zeta in Hframe.
  destruct Hframe as (_ & Hstart & _ & _ & _ & _ & _ & _ & _ & _ & _ & _
                      & Htl & _ & _ & Htot & Hlast).
  destruct (persistRunningTotal_frame (at_time 1003700) fresh_mem (snd started))
    as [Hnone _].
  cbv zeta.
  split; [exact Hstart |]. split; [exact Hlast |].
  split; [exact (Htl "2025-02-13") |]. split; [exact (Htot eq_refl) |].
  apply Hnone. left. reflexivity.
Defined.

Lemma flushes_cons (c : Clock) (clks : list Clock) (w : World) :
  flushes (c :: clks) w = flushes clks (persistRunningTotal c w).
Proof. reflexivity. Qed.

(** A flush that finds less than one granularity unit since the last one
    adds nothing to the total and still moves [lastPersistedAt] to [now]. *)
Lemma persistRunningTotal_below_granularity (clk : Clock) (m : Mem)
  (st : Storage) (d : string) (s : Z) (cfg : Settings) :
  lastDomain m = Some d -> lastStartTimestamp m = Some s ->
  getSettings (settings st) = Some cfg ->
  shouldTrack d (excludeDomains cfg) = true ->
  persistable cfg (lastTabIncognito m) = true ->
  0 <= now clk - default s (lastPersistedAt m) < timeGranularityMs cfg ->
  persistRunningTotal clk (m, st) = (set_lastPersistedAt (Some (now clk)) m, st).
Proof.
  intros Hd Hs Hcfg Htrack Hpers Hlt.
  rewrite (persistRunningTotal_cases clk m st d s cfg Hd Hs Hcfg Htrack).
  cbv zeta. rewrite Hpers. cbn [negb].
  rewrite roundMs_below by lia. reflexivity.
Qed.

(** Flushes spaced by less than one granularity unit never add anything,
    however many they are and however long the session lasts. *)
Lemma flushes_below_granularity (clks : list Clock) (m : Mem) (st : Storage)
  (d : string) (s t : Z) (cfg : Settings) :
  lastDomain m = Some d -> lastStartTimestamp m = Some s ->
  lastPersistedAt m = Some t ->
  getSettings (settings st) = Some cfg ->
  shouldTrack d (excludeDomains cfg) = true ->
  persistable cfg (lastTabIncognito m) = true ->
  spaced_below (timeGranularityMs cfg) t clks ->
  snd (flushes clks (m, st)) = st
  /\ lastStartTimestamp (fst (flushes clks (m, st))) = Some s.
Proof.
  revert m t. induction clks as [| c clks IH];
    intros m t Hd Hs Hp Hcfg Htrack Hpers Hgap.
  - cbn. split; [reflexivity | exact Hs].
  - destruct Hgap as [H0 Hrest].
    rewrite flushes_cons.
    rewrite (persistRunningTotal_below_granularity c m st d s cfg)
      by (try assumption; rewrite Hp; exact H0).
    apply (IH (set_lastPersistedAt (Some (now c)) m) (now c));
      try assumption; reflexivity.
Qed.

(** C1, evaluated on the code. A session starts at 1000000 with
    granularity 1000 and is flushed at 1000500 and at 1001000: both flushes
    find a rounded delta of 0, each moves [lastPersistedAt] to its own
    [now], and nothing at all is added to the total. A stop at 1001000 then
    records a block of 1000 ms and a total of 0. *)
Theorem two_flushes_add_nothing :
  let w2 := persistRunningTotal (at_time 1000500) started in
  let w3 := persistRunningTotal (at_time 1001000) w2 in
  let w4 := stopTracking_await (at_time 1001000) w3 in
  lastPersistedAt (fst started) = Some 1000000
  /\ lastPersistedAt (fst w2) = Some 1000500
  /\ lastPersistedAt (fst w3) = Some 1001000
  /\ total_at (snd w3) "2025-02-13" "example.com" = 0
  /\ days (snd w3) = ∅
  /\ timeline_at (snd w4) "2025-02-13" =
     [{| blk_start := 1000000; blk_end := 1001000; blk_domain := "example.com" |}]
  /\ total_at (snd w4) "2025-02-13" "example.com" = 0.
Proof.
  cbv zeta. vm_compute. repeat split; reflexivity.
Qed.

(** ** Blocks are exact, counters are rounded *)

Lemma flushes_active (clks : list Clock) (m : Mem) (st : Storage)
  (d : string) (s : Z) (cfg : Settings) :
  lastDomain m = Some d -> lastStartTimestamp m = Some s ->
  pendingWrite m = None ->
  getSettings (settings st) = Some cfg ->
  shouldTrack d (excludeDomains cfg) = true ->
  let w1 := flushes clks (m, st) in
  lastDomain (fst w1) = Some d
  /\ lastStartTimestamp (fst w1) = Some s
  /\ pendingWrite (fst w1) = None
  /\ lastTabIncognito (fst w1) = lastTabIncognito m
  /\ settings (snd w1) = settings st
  /\ (forall k : string, timeline_at (snd w1) k = timeline_at st k).
Proof.
  revert m st. induction clks as [| c clks IH];
    intros m st Hd Hs Hp Hcfg Htrack; cbv zeta.
  - cbn. repeat split; assumption.
  - rewrite flushes_cons.
    pose proof (persistRunningTotal_active c m st d s cfg Hd Hs Hcfg Htrack) as Hf.
    cbv zeta in Hf.
    destruct (persistRunningTotal c (m, st)) as [m' st'] eqn:E.
    cbn [fst snd] in Hf.
    destruct Hf as (Hd' & Hs' & _ & Hinc & _ & _ & _ & _ & Hpw & Hset & _ & _
                    & Htl & _).
    assert (Hp' : pendingWrite m' = None) by (destruct Hpw; congruence).
    rewrite <- Hset in Hcfg.
    destruct (IH m' st' Hd' Hs' Hp' Hcfg Htrack)
      as (H1 & H2 & H3 & H4 & H5 & H6).
    split; [exact H1 |]. split; [exact H2 |]. split; [exact H3 |].
    split; [rewrite H4; exact Hinc |]. split; [rewrite H5; exact Hset |].
    intros k. rewrite H6. apply Htl.
Qed.

Lemma stopTracking_await_active (clk : Clock) (m : Mem) (st : Storage)
  (d : string) (s : Z) :
  lastDomain m = Some d -> lastStartTimestamp m = Some s ->
  pendingWrite m = None ->
  let c := {| c_domain := d; c_start := s;
              c_persistedAt := lastPersistedAt m;
              c_wasIncognito := lastTabIncognito m |} in
  stopTracking_await clk (m, st) =
  settle (Some c) clk (set_pendingWrite (Some (Some c)) (clear_session_end m), st).
Proof.
  intros Hd Hs Hp. cbv zeta. unfold stopTracking_await.
  pose proof (stopTracking_starts m d s Hd Hs Hp) as H. cbv zeta in H.
  rewrite H. reflexivity.
Qed.

(** X27. A session on a trackable, persistable domain whose name is not
    one that objects inherit, flushed any number of times and then stopped,
    gets exactly one timeline block, from the start it was given when
    tracking began to the [now] of the stop, both unrounded; no flush
    writes a block; and the stop adds to the counter the rounded time since
    the [lastPersistedAt] it captured. *)
Theorem endSession_block_exact_counter_rounded (clks : list Clock)
  (m : Mem) (st : Storage) (clk : Clock) (d : string) (s : Z) (cfg : Settings) :
  lastDomain m = Some d -> lastStartTimestamp m = Some s ->
  pendingWrite m = None ->
  getSettings (settings st) = Some cfg ->
  shouldTrack d (excludeDomains cfg) = true ->
  persistable cfg (lastTabIncognito m) = true ->
  inherited d = false ->
  let w1 := flushes clks (m, st) in
  let w2 := stopTracking_await clk w1 in
  let increment :=
    roundMs (now clk - default s (lastPersistedAt (fst w1)))
            (timeGranularityMs cfg) in
  (forall k : string, timeline_at (snd w1) k = timeline_at st k)
  /\ timeline_at (snd w2) (dateKey clk) =
     (timeline_at st (dateKey clk) ++
        [{| blk_start := s; blk_end := now clk; blk_domain := d |}])%list
  /\ (forall k : string,
        k <> dateKey clk -> timeline_at (snd w2) k = timeline_at st k)
  /\ total_at (snd w2) (dateKey clk) d =
     total_at (snd w1) (dateKey clk) d + Z.max 0 increment
  /\ lastDomain (fst w2) = None
  /\ lastStartTimestamp (fst w2) = None.
Proof.
  intros Hd Hs Hp Hcfg Htrack Hpers Hown. cbv zeta.
  pose proof (flushes_active clks m st d s cfg Hd Hs Hp Hcfg Htrack) as Hf.
  cbv zeta in Hf.
  destruct (flushes clks (m, st)) as [m1 st1] eqn:E. cbn [fst snd] in *.
  destruct Hf as (Hd1 & Hs1 & Hp1 & Hinc1 & Hset1 & Htl1).
  rewrite (stopTracking_await_active clk m1 st1 d s Hd1 Hs1 Hp1).
  rewrite settle_snd, settle_fst.
  rewrite <- Hset1 in Hcfg. rewrite <- Hinc1 in Hpers.
  match goal with
  | |- context [endSession_persist ?c clk (?m2, st1)] =>
      pose proof (endSession_persist_effect c clk m2 st1 cfg Hcfg Htrack Hpers) as He
  end.
  cbv zeta in He. cbn [c_domain c_start c_persistedAt] in He.
  destruct He as (_ & _ & _ & _ & Htl & Htot & Hdays & _).
  split; [exact Htl1 |].
  split; [rewrite Htl, Htl1; reflexivity |].
  split.
  - intros k Hk. rewrite <- Htl1. unfold timeline_at, day_of.
    rewrite (Hdays k Hk). reflexivity.
  - split; [exact (Htot Hown) |]. split; reflexivity.
Qed.

Lemma endSession_block_exact_counter_rounded_witness :
  let w1 := flushes [at_time 1000400; at_time 1002900; at_time 1003100] started in
  let w2 := stopTracking_await (at_time 1005650) w1 in
  timeline_at (snd w1) "2025-02-13" = []
  /\ timeline_at (snd w2) "2025-02-13" =
     [{| blk_start := 1000000; blk_end := 1005650; blk_domain := "example.com" |}]
  /\ total_at (snd w2) "2025-02-13" "example.com" = 4000.
Proof.
  pose proof (endSession_block_exact_counter_rounded
                [at_time 1000400; at_time 1002900; at_time 1003100]
                (fst started) (snd started) (at_time 1005650)
                "example.com" 1000000 default_settings
                eq_refl eq_refl eq_refl eq_refl eq_refl eq_refl eq_refl) as H.
  cbv zeta in H. destruct H as (Hflush & Hblock & _ & Htot & _).
  cbv zeta.
  split; [exact (Hflush "2025-02-13") |].
  split; [exact Hblock |].
  exact Htot.
Defined.

(** C3, evaluated on the code. The tab shows [http://constructor/], whose
    host is ["constructor"], a trackable name. The session starts at
    1000000 and is stopped at 1005650 with granularity 1000. The stop
    appends the exact block, as for any domain; but
    [day.domains["constructor"]] reads as the function every object
    inherits, so no entry is made, the increment of 5000 is added to that
    function and the stored counter of the domain stays absent. The same
    session on example.com is counted with 5000. *)
Theorem inherited_name_not_counted :
  let w2 := stopTracking_await (at_time 1005650) started_constructor in
  hostnameFromUrl basic_URL_hostname "http://constructor/" = Some "constructor"
  /\ shouldTrack "constructor" (excludeDomains default_settings) = true
  /\ lastDomain (fst started_constructor) = Some "constructor"
  /\ lastStartTimestamp (fst started_constructor) = Some 1000000
  /\ timeline_at (snd w2) "2025-02-13" =
     [{| blk_start := 1000000; blk_end := 1005650; blk_domain := "constructor" |}]
  /\ roundMs (1005650 - 1000000) 1000 = 5000
  /\ entry_at (snd w2) "2025-02-13" "constructor" = None
  /\ total_at (snd w2) "2025-02-13" "constructor" = 0
  /\ total_at (snd (persistRunningTotal (at_time 1005650) started_constructor))
       "2025-02-13" "constructor" = 0
  /\ total_at (snd (stopTracking_await (at_time 1005650) started))
       "2025-02-13" "example.com" = 5000.
Proof.
  cbv zeta. vm_compute. repeat split; reflexivity.
Qed.

(** ** Sessions that may no longer be persisted *)

Lemma stopTracking_await_no_session (clk : Clock) (w : World) :
  lastDomain (fst w) = None \/ lastStartTimestamp (fst w) = None ->
  stopTracking_await clk w = w.
Proof.
  destruct w as [m st]. cbn [fst]. intros H. unfold stopTracking_await.
  rewrite (stopTracking_no_session m H). reflexivity.
Qed.

Lemma persistRunningTotal_discards (clk : Clock) (m : Mem) (st : Storage)
  (d : string) (s : Z) (cfg : Settings) :
  lastDomain m = Some d -> lastStartTimestamp m = Some s ->
  getSettings (settings st) = Some cfg ->
  shouldTrack d (excludeDomains cfg) = false
  \/ persistable cfg (lastTabIncognito m) = false ->
  (shouldTrack d (excludeDomains cfg) = false ->
   persistRunningTotal clk (m, st) =
   (clear_session_flush m, set_currentSession None st))
  /\ (shouldTrack d (excludeDomains cfg) = true ->
      persistRunningTotal clk (m, st) = (m, st)).
Proof.
  intros Hd Hs Hcfg Hwhy. split; intros Htrack.
  - apply (persistRunningTotal_untracked clk m st d s cfg); assumption.
  - destruct Hwhy as [Hx | Hpers]; [congruence |].
    rewrite (persistRunningTotal_cases clk m st d s cfg Hd Hs Hcfg Htrack).
    cbv zeta. rewrite Hpers. reflexivity.
Qed.

Lemma stopTracking_await_discards (clk : Clock) (m : Mem) (st : Storage)
  (d : string) (s : Z) (cfg : Settings) :
  lastDomain m = Some d -> lastStartTimestamp m = Some s ->
  pendingWrite m = None ->
  getSettings (settings st) = Some cfg ->
  shouldTrack d (excludeDomains cfg) = false
  \/ persistable cfg (lastTabIncognito m) = false ->
  stopTracking_await clk (m, st) = (set_pendingWrite None (clear_session_end m), st).
Proof.
  intros Hd Hs Hp Hcfg Hwhy.
  rewrite (stopTracking_await_active clk m st d s Hd Hs Hp). unfold settle.
  destruct (shouldTrack d (excludeDomains cfg)) eqn:Htrack.
  - destruct Hwhy as [Hx | Hpers]; [discriminate |].
    match goal with
    | |- context [endSession_persist ?c clk (?m1, st)] =>
        rewrite (endSession_persist_forbidden c clk m1 st cfg Hcfg Htrack Hpers)
    end.
    reflexivity.
  - match goal with
    | |- context [endSession_persist ?c clk ?w] =>
        rewrite (endSession_persist_untracked c clk w cfg Hcfg Htrack)
    end.
    reflexivity.
Qed.

Lemma stopTracking_await_pending (clk : Clock) (m : Mem) (st : Storage)
  (d : string) (s : Z) (p : Promise) :
  lastDomain m = Some d -> lastStartTimestamp m = Some s ->
  pendingWrite m = Some p ->
  stopTracking_await clk (m, st) = settle p clk (m, st).
Proof.
  intros Hd Hs Hp. unfold stopTracking_await.
  rewrite (stopTracking_pending m p) by congruence. reflexivity.
Qed.

(** C5, amended. When the session's domain has been excluded, the next
    flush clears the session and writes neither a block nor time. When the
    session is incognito and [keepIncognitoData] is off, the next flush
    changes nothing at all: the session stays as it is. In both cases the
    next flush, the next stop, and a flush or stop after that flush leave
    every day record as it was: nothing more is persisted for the domain.
    A stop that finds an earlier stop still pending starts no write of its
    own: it does what the settling of the earlier one does. *)
Theorem untrackable_session_discarded (clk clk2 : Clock) (m : Mem)
  (st : Storage) (d : string) (s : Z) (cfg : Settings) :
  lastDomain m = Some d -> lastStartTimestamp m = Some s ->
  getSettings (settings st) = Some cfg ->
  shouldTrack d (excludeDomains cfg) = false
  \/ persistable cfg (lastTabIncognito m) = false ->
  let wf := persistRunningTotal clk (m, st) in
  let ws := stopTracking_await clk (m, st) in
  days (snd wf) = days st
  /\ (shouldTrack d (excludeDomains cfg) = false ->
      lastDomain (fst wf) = None
      /\ lastStartTimestamp (fst wf) = None
      /\ lastPersistedAt (fst wf) = None
      /\ currentSession (snd wf) = None)
  /\ (shouldTrack d (excludeDomains cfg) = true -> wf = (m, st))
  /\ days (snd (persistRunningTotal clk2 wf)) = days st
  /\ (pendingWrite m = None ->
      days (snd ws) = days st
      /\ days (snd (stopTracking_await clk2 wf)) = days st)
  /\ (forall p : Promise,
        pendingWrite m = Some p ->
        ws = settle p clk (m, st)
        /\ stopTracking_await clk2 wf =
           if shouldTrack d (excludeDomains cfg) then settle p clk2 (m, st)
           else wf).
Proof.
  intros Hd Hs Hcfg Hwhy. cbv zeta.
  destruct (persistRunningTotal_discards clk m st d s cfg Hd Hs Hcfg Hwhy)
    as [Hexcl Hforb].
  destruct (persistRunningTotal_discards clk2 m st d s cfg Hd Hs Hcfg Hwhy)
    as [_ Hforb2].
  assert (Hstop : forall c : Clock,
            pendingWrite m = None ->
            stopTracking_await c (m, st)
            = (set_pendingWrite None (clear_session_end m), st)).
  { intros c Hp.
    exact (stopTracking_await_discards c m st d s cfg Hd Hs Hp Hcfg Hwhy). }
  clear Hwhy.
  destruct (shouldTrack d (excludeDomains cfg)) eqn:Htrack.
  - rewrite (Hforb eq_refl). cbn [fst snd]. rewrite (Hforb2 eq_refl).
    split; [reflexivity |]. split; [discriminate |].
    split; [reflexivity |]. split; [reflexivity |].
    split.
    + intros Hp. rewrite !(Hstop _ Hp). split; reflexivity.
    + intros p Hp.
      rewrite !(stopTracking_await_pending _ m st d s p Hd Hs Hp).
      split; reflexivity.
  - rewrite (Hexcl eq_refl). cbn [fst snd].
    rewrite persistRunningTotal_no_session by (left; reflexivity).
    rewrite (stopTracking_await_no_session clk2
               (clear_session_flush m, set_currentSession None st))
      by (left; reflexivity).
    cbn [fst snd set_currentSession days].
    split; [reflexivity |].
    split; [intros _; repeat split; reflexivity |].
    split; [discriminate |]. split; [reflexivity |].
    split.
    + intros Hp. rewrite (Hstop _ Hp). split; reflexivity.
    + intros p Hp.
      rewrite (stopTracking_await_pending clk m st d s p Hd Hs Hp).
      split; reflexivity.
Qed.

Lemma untrackable_session_discarded_witness :
  lastDomain (fst (persistRunningTotal (at_time 1030000) excluded)) = None
  /\ currentSession (snd (persistRunningTotal (at_time 1030000) excluded)) = None
  /\ days (snd (persistRunningTotal (at_time 1030000) excluded)) = ∅
  /\ days (snd (stopTracking_await (at_time 1030000) excluded)) = ∅
  /\ persistRunningTotal (at_time 1030000) started_incognito = started_incognito
  /\ days (snd (stopTracking_await (at_time 1030000) started_incognito)) = ∅.
Proof.
  pose proof (untrackable_session_discarded
                (at_time 1030000) (at_time 1060000) (fst started)
                (set_settings (settings_of [JStr "example.com"] 1000 false)
                   (snd started))
                "example.com" 1000000
                {| excludeDomains := [JStr "example.com"];
                   timeGranularityMs := 1000;
                   keepIncognitoData := false |}
                eq_refl eq_refl eq_refl (or_introl eq_refl)) as Hex.
  pose proof (untrackable_session_discarded
                (at_time 1030000) (at_time 1060000) (fst started_incognito)
                (snd started_incognito) "example.com" 1000000 default_settings
                eq_refl eq_refl eq_refl (or_intror eq_refl)) as Hinc.
  cbv zeta in Hex, Hinc. cbv zeta.
  destruct Hex as (Hdays & Hclear & _ & _ & Hstop & _).
  destruct (Hclear eq_refl) as (Hdom & _ & _ & Hcur).
  destruct (Hstop eq_refl) as [Hstop1 _].
  destruct Hinc as (_ & _ & Hsame & _ & Hstop2 & _).
  destruct (Hstop2 eq_refl) as [Hstop3 _].
  split; [exact Hdom |]. split; [exact Hcur |]. split; [exact Hdays |].
  split; [exact Hstop1 |]. split; [exact (Hsame eq_refl) |]. exact Hstop3.
Defined.

(** C5, as stated, fails: the flush of an incognito session with
    [keepIncognitoData] off does not clear the session. *)
Lemma flush_keeps_forbidden_session :
  persistable default_settings (lastTabIncognito (fst started_incognito)) = false
  /\ getSettings (settings (snd started_incognito)) = Some default_settings
  /\ ~ (lastDomain (fst (persistRunningTotal (at_time 1030000) started_incognito))
        = None).
Proof.
  split; [reflexivity |]. split; [reflexivity |]. vm_compute. discriminate.
Qed.

(** ** Recovery of a pending session *)

Lemma endSession_override (d : string) (s : Z) (p : option Z) (t : option (option Z))
  (inc : bool) (clk : Clock) (m : Mem) (st : Storage) :
  endSession (Some {| ov_domain := Some d; ov_start := Some s;
                      ov_persistedAt := p; ov_tabIdToCheck := t;
                      ov_wasIncognito := Some inc |}) clk (m, st)
  = endSession_persist {| c_domain := d; c_start := s; c_persistedAt := p;
                          c_wasIncognito := inc |}
      clk (clear_session_end m, st).
Proof. reflexivity. Qed.

Lemma handleActiveTab_recovery_runs (windows_get : Z -> bool) (windowId : Z)
  (clk : Clock) (m : Mem) (st : Storage) (pending : PendingSession)
  (d : string) (s pw : Z) :
  lastTabId m = None -> lastDomain m = None ->
  _pendingSession st = Some pending ->
  ps_domain pending = Some d -> ps_start pending = Some s ->
  ps_windowId pending = Some pw ->
  pw <> windowId -> windows_get pw = false ->
  let c := {| c_domain := d; c_start := s;
              c_persistedAt := ps_persistedAt pending;
              c_wasIncognito :=
                match ps_wasIncognito pending with
                | Some false => false
                | _ => true
                end |} in
  let w1 := endSession_persist c clk (clear_session_end m, st) in
  handleActiveTab_recovery windows_get windowId clk (m, st) =
  (set_lastFocusedWindowId (Some windowId) (fst w1),
   set__pendingSession None (snd w1)).
Proof.
  intros Ht Hd Hp Hpd Hps Hpw Hne Hgone. cbv zeta.
  unfold handleActiveTab_recovery. rewrite Ht, Hd, Hp, Hpd, Hps, Hpw, Hgone.
  apply Z.eqb_neq in Hne. rewrite Hne. cbn [negb andb].
  rewrite endSession_override.
  destruct (endSession_persist _ clk (clear_session_end m, st)) as [m1 st1].
  reflexivity.
Qed.

(** Without a marker, with a session in memory, or while the marker's
    window is the current one or still exists, the block does nothing. *)
Lemma handleActiveTab_recovery_skipped (windows_get : Z -> bool) (windowId : Z)
  (clk : Clock) (m : Mem) (st : Storage) :
  lastTabId m <> None \/ lastDomain m <> None \/ _pendingSession st = None
  \/ (exists pending pw,
        _pendingSession st = Some pending /\ ps_windowId pending = Some pw
        /\ (pw = windowId \/ windows_get pw = true)) ->
  handleActiveTab_recovery windows_get windowId clk (m, st) = (m, st).
Proof.
  unfold handleActiveTab_recovery.
  intros [H | [H | [H | (pending & pw & Hp & Hpw & Hw)]]].
  - destruct (lastTabId m); [reflexivity | congruence].
  - destruct (lastTabId m); [reflexivity |].
    destruct (lastDomain m); [reflexivity | congruence].
  - rewrite H. destruct (lastTabId m), (lastDomain m); reflexivity.
  - rewrite Hp, Hpw.
    destruct (lastTabId m), (lastDomain m); try reflexivity.
    destruct (ps_domain pending); [| reflexivity].
    destruct (ps_start pending); [| reflexivity].
    destruct Hw as [-> | Hw].
    + rewrite Z.eqb_refl. reflexivity.
    + rewrite Hw. rewrite andb_false_r. reflexivity.
Qed.

(** X28. With no session in memory and a pending marker whose window is
    another one and no longer exists, the recovery block runs [endSession]
    on the marker with the clock read at recovery: for a trackable,
    persistable marker it appends one block from the marker's start to the
    time of recovery and, for a domain whose name is not one that objects
    inherit, adds the rounded time from the marker's [persistedAt] (its
    start when absent) to the time of recovery; a marker that is excluded,
    or whose [wasIncognito] is not [false] while [keepIncognitoData] is
    off, writes nothing; in every case the marker is cleared and the
    focused window set before tracking goes on. *)
Theorem recovery_ends_at_recovery_time (windows_get : Z -> bool) (windowId : Z)
  (clk : Clock) (m : Mem) (st : Storage) (pending : PendingSession)
  (d : string) (s pw : Z) (cfg : Settings) :
  lastTabId m = None -> lastDomain m = None ->
  _pendingSession st = Some pending ->
  ps_domain pending = Some d -> ps_start pending = Some s ->
  ps_windowId pending = Some pw ->
  pw <> windowId -> windows_get pw = false ->
  getSettings (settings st) = Some cfg ->
  let w' := handleActiveTab_recovery windows_get windowId clk (m, st) in
  let incognito :=
    match ps_wasIncognito pending with Some false => false | _ => true end in
  let increment :=
    roundMs (now clk - default s (ps_persistedAt pending))
            (timeGranularityMs cfg) in
  _pendingSession (snd w') = None
  /\ lastFocusedWindowId (fst w') = Some windowId
  /\ lastDomain (fst w') = None
  /\ lastStartTimestamp (fst w') = None
  /\ (shouldTrack d (excludeDomains cfg) = true ->
      persistable cfg incognito = true ->
      timeline_at (snd w') (dateKey clk) =
        (timeline_at st (dateKey clk) ++
           [{| blk_start := s; blk_end := now clk; blk_domain := d |}])%list
      /\ (inherited d = false ->
          total_at (snd w') (dateKey clk) d =
            total_at st (dateKey clk) d + Z.max 0 increment)
      /\ currentSession (snd w') = None)
  /\ (shouldTrack d (excludeDomains cfg) = false
      \/ persistable cfg incognito = false ->
      days (snd w') = days st).
Proof.
  intros Ht Hd Hp Hpd Hps Hpw Hne Hgone Hcfg. cbv zeta.
  rewrite (handleActiveTab_recovery_runs windows_get windowId clk m st pending
             d s pw Ht Hd Hp Hpd Hps Hpw Hne Hgone).
  cbv zeta. cbn [fst snd].
  set (c := {| c_domain := d; c_start := s;
               c_persistedAt := ps_persistedAt pending;
               c_wasIncognito := _ |}).
  split; [reflexivity |]. split; [reflexivity |].
  assert (Hmem : lastDomain (fst (endSession_persist c clk (clear_session_end m, st))) = None
                 /\ lastStartTimestamp (fst (endSession_persist c clk (clear_session_end m, st))) = None).
  { destruct (endSession_persist_mem c clk (clear_session_end m) st) as [E | E];
      rewrite E; split; reflexivity. }
  split; [apply Hmem |]. split; [apply Hmem |].
  split.
  - intros Htrack Hpers.
    pose proof (endSession_persist_effect c clk (clear_session_end m) st cfg
                  Hcfg Htrack Hpers) as He.
    cbv zeta in He. destruct He as (_ & _ & Hcur & _ & Htl & Htot & _).
    split; [exact Htl |]. split; [exact Htot |]. exact Hcur.
  - intros Hwhy. cbn [set__pendingSession days].
    destruct (shouldTrack d (excludeDomains cfg)) eqn:Htrack.
    + destruct Hwhy as [Hx | Hpers]; [discriminate |].
      rewrite (endSession_persist_forbidden c clk _ st cfg Hcfg Htrack Hpers).
      reflexivity.
    + rewrite (endSession_persist_untracked c clk (clear_session_end m, st)
                 cfg Hcfg Htrack).
      reflexivity.
Qed.

Lemma recovery_ends_at_recovery_time_witness :
  let w' := handleActiveTab_recovery no_windows 2 (at_time 4600000) crashed in
  _pendingSession (snd w') = None
  /\ lastFocusedWindowId (fst w') = Some 2
  /\ timeline_at (snd w') "2025-02-13" =
     [{| blk_start := 1000000; blk_end := 4600000; blk_domain := "example.com" |}]
  /\ total_at (snd w') "2025-02-13" "example.com" = 30000 + 3600000.
Proof.
  pose proof (recovery_ends_at_recovery_time no_windows 2 (at_time 4600000)
                (fst crashed) (snd crashed)
                {| ps_domain := Some "example.com";
                   ps_start := Some 1000000;
                   ps_persistedAt := Some 1000000;
                   ps_windowId := Some 1;
                   ps_wasIncognito := Some false |}
                "example.com" 1000000 1 default_settings
                eq_refl eq_refl eq_refl eq_refl eq_refl eq_refl
                ltac:(discriminate) eq_refl eq_refl) as H.
  cbv zeta in H. destruct H as (Hmark & Hfocus & _ & _ & Hwrite & _).
  destruct (Hwrite eq_refl eq_refl) as (Htl & Htot & _).
  cbv zeta.
  split; [exact Hmark |]. split; [exact Hfocus |].
  split; [exact Htl |]. exact (Htot eq_refl).
Defined.

(** C4, evaluated on the code. The session [started] was last flushed at
    1030000: its total is 30000 then, and the marker still holds the start
    1000000 as [persistedAt], because only [startTracking] writes the
    marker. Recovered at 4600000, the session gets a block that ends at
    4600000, not at the last flush, and the whole span of 3600000 is added
    on top of the 30000 that the flush had added: the total, 3630000, is
    more than the block is long. *)
Theorem recovery_attributes_time_after_last_flush :
  let w' := handleActiveTab_recovery no_windows 2 (at_time 4600000) crashed in
  total_at (snd crashed) "2025-02-13" "example.com" = 30000
  /\ (ps_persistedAt <$> _pendingSession (snd crashed)) = Some (Some 1000000)
  /\ ~ attributed_until (snd w') "2025-02-13" "example.com" 1030000
  /\ total_at (snd w') "2025-02-13" "example.com" = 3630000.
Proof.
  cbv zeta. split; [reflexivity |]. split; [reflexivity |].
  split; [| reflexivity].
  unfold attributed_until.
  replace (timeline_at _ _) with
    [{| blk_start := 1000000; blk_end := 4600000; blk_domain := "example.com" |}]
    by reflexivity.
  intros H. apply Forall_cons in H. destruct H as [H _].
  specialize (H eq_refl). cbn [blk_end] in H. lia.
Qed.

(** ** The live indicator *)

Lemma startTracking_success (tabs_get : Z -> option Tab) (hostname : string)
  (tabId : option Z) (clk : Clock) (m : Mem) (st : Storage) (cfg : Settings) :
  getSettings (settings st) = Some cfg ->
  shouldTrack hostname (excludeDomains cfg) = true ->
  let w' := startTracking tabs_get hostname tabId clk (m, st) in
  lastDomain (fst w') = Some hostname
  /\ lastStartTimestamp (fst w') = Some (now clk)
  /\ lastPersistedAt (fst w') = Some (now clk)
  /\ lastTabId (fst w') = tabId
  /\ currentSession (snd w') =
     Some {| cs_domain := hostname; cs_start := now clk |}
  /\ (exists pending : PendingSession,
        _pendingSession (snd w') = Some pending
        /\ ps_domain pending = Some hostname
        /\ ps_start pending = Some (now clk)
        /\ ps_persistedAt pending = Some (now clk))
  /\ days (snd w') = days st.
Proof.
  intros Hcfg Htrack. cbv zeta. unfold startTracking.
  rewrite Hcfg, Htrack. cbn [negb fst snd lastDomain lastStartTimestamp
    lastPersistedAt lastTabId currentSession _pendingSession days].
  repeat split; try reflexivity.
  eexists. split; [reflexivity |]. repeat split; reflexivity.
Qed.

Lemma startTracking_untracked (tabs_get : Z -> option Tab) (hostname : string)
  (tabId : option Z) (clk : Clock) (w : World) (cfg : Settings) :
  getSettings (settings (snd w)) = Some cfg ->
  shouldTrack hostname (excludeDomains cfg) = false ->
  startTracking tabs_get hostname tabId clk w = w.
Proof.
  destruct w as [m st]. cbn [snd]. intros Hcfg Htrack. unfold startTracking.
  rewrite Hcfg, Htrack. reflexivity.
Qed.

(** A stop that persists the session clears the live indicator and the
    pending marker. *)
Lemma stopTracking_await_persisted_clears (clk : Clock) (m : Mem) (st : Storage)
  (d : string) (s : Z) (cfg : Settings) :
  lastDomain m = Some d -> lastStartTimestamp m = Some s ->
  pendingWrite m = None ->
  getSettings (settings st) = Some cfg ->
  shouldTrack d (excludeDomains cfg) = true ->
  persistable cfg (lastTabIncognito m) = true ->
  currentSession (snd (stopTracking_await clk (m, st))) = None
  /\ _pendingSession (snd (stopTracking_await clk (m, st))) = None.
Proof.
  intros Hd Hs Hp Hcfg Htrack Hpers.
  rewrite (stopTracking_await_active clk m st d s Hd Hs Hp), settle_snd.
  match goal with
  | |- context [endSession_persist ?c clk (?m1, st)] =>
      pose proof (endSession_persist_effect c clk m1 st cfg Hcfg Htrack Hpers) as He
  end.
  cbv zeta in He. destruct He as (_ & _ & Hcur & Hmark & _).
  split; assumption.
Qed.

(** C7, evaluated on the code. A start writes the live indicator. When the
    session's domain is excluded afterwards, or the session is incognito
    with [keepIncognitoData] off, a stop clears the session in memory and
    returns before any write: the live indicator and the pending marker of
    the ended session stay in storage. The flush, in the excluded case,
    does clear the indicator. *)
Theorem stop_leaves_stale_currentSession :
  let live := Some {| cs_domain := "example.com"; cs_start := 1000000 |} in
  currentSession (snd started) = live
  /\ lastDomain (fst (stopTracking_await (at_time 1060000) excluded)) = None
  /\ currentSession (snd (stopTracking_await (at_time 1060000) excluded)) = live
  /\ _pendingSession (snd (stopTracking_await (at_time 1060000) excluded))
     = _pendingSession (snd started)
  /\ currentSession (snd (persistRunningTotal (at_time 1060000) excluded)) = None
  /\ currentSession (snd started_incognito) = live
  /\ lastDomain (fst (stopTracking_await (at_time 1060000) started_incognito)) = None
  /\ currentSession (snd (stopTracking_await (at_time 1060000) started_incognito))
     = live.
Proof.
  cbv zeta. repeat split; reflexivity.
Qed.

(** ** Starting a session *)

(** X1. [startTracking] does nothing for a hostname that is not trackable;
    for a trackable one it sets the session with start and last flush both
    at [now], records the tab, and writes the live indicator and a pending
    marker holding the same domain and times, leaving the day records as
    they were. *)
Theorem startTracking_starts_or_skips (tabs_get : Z -> option Tab)
  (hostname : string) (tabId : option Z) (clk : Clock) (m : Mem)
  (st : Storage) (cfg : Settings) :
  getSettings (settings st) = Some cfg ->
  let w' := startTracking tabs_get hostname tabId clk (m, st) in
  (shouldTrack hostname (excludeDomains cfg) = false -> w' = (m, st))
  /\ (shouldTrack hostname (excludeDomains cfg) = true ->
      lastDomain (fst w') = Some hostname
      /\ lastStartTimestamp (fst w') = Some (now clk)
      /\ lastPersistedAt (fst w') = Some (now clk)
      /\ lastTabId (fst w') = tabId
      /\ currentSession (snd w') =
         Some {| cs_domain := hostname; cs_start := now clk |}
      /\ (exists pending : PendingSession,
            _pendingSession (snd w') = Some pending
            /\ ps_domain pending = Some hostname
            /\ ps_start pending = Some (now clk)
            /\ ps_persistedAt pending = Some (now clk))
      /\ days (snd w') = days st).
Proof.
  intros Hcfg. cbv zeta. split; intros Htrack.
  - apply (startTracking_untracked tabs_get hostname tabId clk (m, st) cfg);
      assumption.
  - apply (startTracking_success tabs_get hostname tabId clk m st cfg);
      assumption.
Qed.

Lemma startTracking_starts_or_skips_witness :
  lastDomain (fst started) = Some "example.com"
  /\ lastStartTimestamp (fst started) = Some 1000000
  /\ lastPersistedAt (fst started) = Some 1000000
  /\ currentSession (snd started) =
     Some {| cs_domain := "example.com"; cs_start := 1000000 |}
  /\ startTracking regular_tabs "example.com" (Some 7) (at_time 2000000) excluded
     = excluded.
Proof.
  pose proof (startTracking_starts_or_skips regular_tabs "example.com" (Some 7)
                (at_time 1000000) fresh_mem
                (storage_with (settings_of [] 1000 false)) default_settings
                eq_refl) as Hok.
  pose proof (startTracking_starts_or_skips regular_tabs "example.com" (Some 7)
                (at_time 2000000) (fst excluded) (snd excluded)
                {| excludeDomains := [JStr "example.com"];
                   timeGranularityMs := 1000;
                   keepIncognitoData := false |}
                eq_refl) as Hskip.
  cbv zeta in Hok, Hskip.
  destruct Hok as [_ Hok]. destruct (Hok eq_refl) as (H1 & H2 & H3 & _ & H5 & _).
  destruct Hskip as [Hskip _].
  split; [exact H1 |]. split; [exact H2 |]. split; [exact H3 |].
  split; [exact H5 |]. exact (Hskip eq_refl).
Defined.

(** X2. The recovery block of [handleActiveTab] leaves memory and storage
    as they are when a tab or a domain is in memory, when there is no
    pending marker, or when the marker's window is the current one or still
    exists. *)
Theorem recovery_only_when_window_gone (windows_get : Z -> bool) (windowId : Z)
  (clk : Clock) (m : Mem) (st : Storage) :
  lastTabId m <> None \/ lastDomain m <> None \/ _pendingSession st = None
  \/ (exists pending pw,
        _pendingSession st = Some pending /\ ps_windowId pending = Some pw
        /\ (pw = windowId \/ windows_get pw = true)) ->
  handleActiveTab_recovery windows_get windowId clk (m, st) = (m, st).
Proof. apply handleActiveTab_recovery_skipped. Qed.

Lemma recovery_only_when_window_gone_witness :
  handleActiveTab_recovery (fun _ => true) 2 (at_time 4600000) crashed = crashed
  /\ handleActiveTab_recovery no_windows 1 (at_time 4600000) crashed = crashed
  /\ handleActiveTab_recovery no_windows 2 (at_time 4600000) started = started.
Proof.
  split; [| split].
  - apply (recovery_only_when_window_gone (fun _ => true) 2 (at_time 4600000)
             (fst crashed) (snd crashed)).
    right. right. right. eexists. exists 1.
    split; [reflexivity |]. split; [reflexivity |]. right. reflexivity.
  - apply (recovery_only_when_window_gone no_windows 1 (at_time 4600000)
             (fst crashed) (snd crashed)).
    right. right. right. eexists. exists 1.
    split; [reflexivity |]. split; [reflexivity |]. left. reflexivity.
  - apply (recovery_only_when_window_gone no_windows 2 (at_time 4600000)
             (fst started) (snd started)).
    left. discriminate.
Defined.

(** ** Rounding and order *)

Lemma roundMs_le (x g : Z) : roundMs x g <= x.
Proof.
  destruct (Z_le_gt_dec g 0) as [Hg | Hg].
  - rewrite roundMs_nonpos by lia. lia.
  - rewrite roundMs_pos by lia. pose proof (roundMs_floor x g ltac:(lia)). lia.
Qed.

Lemma roundMs_gt (x g : Z) : 0 < g -> x - g < roundMs x g.
Proof.
  intros Hg. rewrite roundMs_pos by lia.
  pose proof (roundMs_floor x g Hg). lia.
Qed.

Lemma roundMs_mono (a b g : Z) : a <= b -> roundMs a g <= roundMs b g.
Proof.
  intros Hab. destruct (Z_le_gt_dec g 0) as [Hg | Hg].
  - rewrite !roundMs_nonpos by lia. lia.
  - rewrite !roundMs_pos by lia.
    apply Z.mul_le_mono_nonneg_r; [lia |].
    apply Z.div_le_mono; lia.
Qed.

Lemma roundMs_superadditive (a b g : Z) :
  roundMs a g + roundMs b g <= roundMs (a + b) g.
Proof.
  destruct (Z_le_gt_dec g 0) as [Hg | Hg].
  - rewrite !roundMs_nonpos by lia. lia.
  - rewrite !roundMs_pos by lia.
    rewrite <- Z.mul_add_distr_r.
    apply Z.mul_le_mono_nonneg_r; [lia |].
    apply Z.div_le_lower_bound; [lia |].
    pose proof (roundMs_floor a g ltac:(lia)).
    pose proof (roundMs_floor b g ltac:(lia)). lia.
Qed.

Lemma roundMs_multiple (k g : Z) : roundMs (k * g) g = k * g.
Proof.
  destruct (Z_le_gt_dec g 0) as [Hg | Hg].
  - apply roundMs_nonpos. lia.
  - rewrite roundMs_pos by lia. rewrite Z.div_mul by lia. reflexivity.
Qed.

(** X3. [roundMs] never rounds up, is monotone in the duration, keeps
    every multiple of the granularity, and the rounded parts of a split
    duration never add up to more than the rounded whole: cutting an
    interval at a flush can lose counted time and never adds any. *)
Theorem roundMs_order (a b g : Z) :
  roundMs a g <= a
  /\ (a <= b -> roundMs a g <= roundMs b g)
  /\ roundMs (a * g) g = a * g
  /\ roundMs a g + roundMs b g <= roundMs (a + b) g
  /\ (0 < g -> roundMs (a + b) g < roundMs a g + roundMs b g + 2 * g).
Proof.
  split; [apply roundMs_le |].
  split; [apply roundMs_mono |].
  split; [apply roundMs_multiple |].
  split; [apply roundMs_superadditive |].
  intros Hg.
  pose proof (roundMs_le (a + b) g).
  pose proof (roundMs_gt a g Hg). pose proof (roundMs_gt b g Hg). lia.
Qed.

Lemma roundMs_order_witness :
  roundMs 1700 1000 <= roundMs 2300 1000
  /\ roundMs 1700 1000 + roundMs 2300 1000 = 3000
  /\ roundMs (1700 + 2300) 1000 = 4000
  /\ roundMs (1700 + 2300) 1000 < roundMs 1700 1000 + roundMs 2300 1000 + 2 * 1000.
Proof.
  destruct (roundMs_order 1700 2300 1000) as (_ & Hmono & _ & _ & Hloss).
  split; [apply Hmono; lia |].
  split; [reflexivity |]. split; [reflexivity |].
  apply Hloss. lia.
Defined.

(** ** What one session adds to the counter *)

Lemma stopTracking_await_counted (clk : Clock) (m : Mem) (st : Storage)
  (d : string) (s : Z) (cfg : Settings) :
  lastDomain m = Some d -> lastStartTimestamp m = Some s ->
  pendingWrite m = None ->
  getSettings (settings st) = Some cfg ->
  shouldTrack d (excludeDomains cfg) = true ->
  persistable cfg (lastTabIncognito m) = true ->
  inherited d = false ->
  total_at (snd (stopTracking_await clk (m, st))) (dateKey clk) d =
  total_at st (dateKey clk) d
  + Z.max 0 (roundMs (now clk - default s (lastPersistedAt m))
                     (timeGranularityMs cfg)).
Proof.
  intros Hd Hs Hp Hcfg Htrack Hpers Hown.
  rewrite (stopTracking_await_active clk m st d s Hd Hs Hp), settle_snd.
  match goal with
  | |- context [endSession_persist ?c clk (?m1, st)] =>
      pose proof (endSession_persist_effect c clk m1 st cfg Hcfg Htrack Hpers) as He
  end.
  cbv zeta in He. destruct He as (_ & _ & _ & _ & _ & Htot & _).
  exact (Htot Hown).
Qed.

Lemma session_counted (clks : list Clock) :
  forall (clk : Clock) (m : Mem) (st : Storage) (d k : string) (s p : Z)
         (cfg : Settings),
    lastDomain m = Some d -> lastStartTimestamp m = Some s ->
    lastPersistedAt m = Some p -> pendingWrite m = None ->
    getSettings (settings st) = Some cfg ->
    shouldTrack d (excludeDomains cfg) = true ->
    persistable cfg (lastTabIncognito m) = true ->
    inherited d = false ->
    nondecreasing p (clks ++ [clk]) ->
    Forall (fun c => dateKey c = k) (clks ++ [clk]) ->
    let counted :=
      total_at (snd (stopTracking_await clk (flushes clks (m, st)))) k d
      - total_at st k d in
    let g := timeGranularityMs cfg in
    0 <= counted <= now clk - p
    /\ (g <= 0 -> counted = now clk - p)
    /\ (0 < g ->
        now clk - p - (Z.of_nat (length clks) + 1) * g < counted
        /\ exists q : Z, counted = q * g).
Proof.
  induction clks as [| c clks IH];
    intros clk m st d k s p cfg Hd Hs Hp Hpw Hcfg Htrack Hpers Hown Hmono Hkey;
    cbv zeta.
  - cbn [app] in Hmono, Hkey. destruct Hmono as [Hle _].
    apply Forall_cons in Hkey. destruct Hkey as [Hk _]. subst k.
    change (flushes [] (m, st)) with (m, st).
    rewrite (stopTracking_await_counted clk m st d s cfg) by assumption.
    rewrite Hp. cbn [from_option id length Z.of_nat].
    set (x := now clk - p) in *. set (g := timeGranularityMs cfg).
    pose proof (roundMs_le x g) as Hle'.
    pose proof (roundMs_nonneg x g ltac:(subst x; lia)) as Hnn.
    rewrite Z.max_r by lia.
    split; [lia |]. split.
    + intros Hg. rewrite roundMs_nonpos by lia. lia.
    + intros Hg. pose proof (roundMs_gt x g Hg). split; [lia |].
      exists (x / g). rewrite roundMs_pos by lia. lia.
  - cbn [app] in Hmono, Hkey. destruct Hmono as [Hle Hmono].
    apply Forall_cons in Hkey. destruct Hkey as [Hk Hkey].
    rewrite flushes_cons.
    pose proof (persistRunningTotal_active c m st d s cfg Hd Hs Hcfg Htrack) as Hf.
    cbv zeta in Hf.
    destruct (persistRunningTotal c (m, st)) as [m' st'] eqn:E.
    cbn [fst snd] in Hf.
    destruct Hf as (Hd' & Hs' & _ & Hinc & _ & _ & _ & _ & Hpw' & Hset & _ & _
                    & _ & _ & _ & Htot & Hlast).
    specialize (Htot Hown).
    rewrite Hpers in Htot, Hlast. rewrite Hp in Htot. cbn [from_option id] in Htot.
    rewrite Hk in Htot.
    assert (Hp' : pendingWrite m' = None) by (destruct Hpw'; congruence).
    rewrite <- Hset in Hcfg. rewrite <- Hinc in Hpers.
    specialize (IH clk m' st' d k s (now c) cfg Hd' Hs' Hlast Hp' Hcfg Htrack
                  Hpers Hown Hmono Hkey).
    cbv zeta in IH. destruct IH as (Hb & Hz & Hpos).
    set (x := now c - p) in *. set (g := timeGranularityMs cfg) in *.
    pose proof (roundMs_le x g) as Hle'.
    pose proof (roundMs_nonneg x g ltac:(subst x; lia)) as Hnn.
    rewrite Z.max_r in Htot by lia.
    cbn [length]. rewrite Nat2Z.inj_succ.
    split; [lia |]. split.
    + intros Hg. specialize (Hz Hg). rewrite roundMs_nonpos in Htot by lia. lia.
    + intros Hg. destruct (Hpos Hg) as [Hlow [q Hq]].
      pose proof (roundMs_gt x g Hg). split; [lia |].
      exists (q + x / g). rewrite roundMs_pos in Htot by lia. lia.
Qed.

(** X4. Over one session on a trackable, persistable domain whose name
    is not one that objects inherit, flushed any number of times and then
    stopped, with a clock that does not go back and one date key: what the
    counter gains is never negative and never
    more than the time from the session's last flush mark to the stop; it
    is exactly that time when rounding is off (granularity 0 or negative);
    with a positive granularity [g] it is a multiple of [g] and falls short
    by less than [g] per flush and [g] for the stop. *)
Theorem session_never_overcounts (clks : list Clock) (clk : Clock) (m : Mem)
  (st : Storage) (d k : string) (s p : Z) (cfg : Settings) :
  lastDomain m = Some d -> lastStartTimestamp m = Some s ->
  lastPersistedAt m = Some p -> pendingWrite m = None ->
  getSettings (settings st) = Some cfg ->
  shouldTrack d (excludeDomains cfg) = true ->
  persistable cfg (lastTabIncognito m) = true ->
  inherited d = false ->
  nondecreasing p (clks ++ [clk]) ->
  Forall (fun c => dateKey c = k) (clks ++ [clk]) ->
  let counted :=
    total_at (snd (stopTracking_await clk (flushes clks (m, st)))) k d
    - total_at st k d in
  let g := timeGranularityMs cfg in
  0 <= counted <= now clk - p
  /\ (g <= 0 -> counted = now clk - p)
  /\ (0 < g ->
      now clk - p - (Z.of_nat (length clks) + 1) * g < counted
      /\ exists q : Z, counted = q * g).
Proof. apply session_counted. Qed.

Lemma session_never_overcounts_witness :
  let w2 := stopTracking_await (at_time 1005650)
              (flushes [at_time 1000400; at_time 1002900; at_time 1003100] started) in
  let counted := total_at (snd w2) "2025-02-13" "example.com" - 0 in
  0 <= counted <= 1005650 - 1000000
  /\ 1005650 - 1000000 - (3 + 1) * 1000 < counted.
Proof.
  pose proof (session_never_overcounts
                [at_time 1000400; at_time 1002900; at_time 1003100]
                (at_time 1005650) (fst started) (snd started)
                "example.com" "2025-02-13" 1000000 1000000 default_settings
                eq_refl eq_refl eq_refl eq_refl eq_refl eq_refl eq_refl eq_refl) as H.
  cbv zeta in H.
  assert (Hmono : nondecreasing 1000000
                    ([at_time 1000400; at_time 1002900; at_time 1003100]
                       ++ [at_time 1005650])).
  { cbn. repeat split; lia. }
  assert (Hkey : Forall (fun c => dateKey c = "2025-02-13")
                   ([at_time 1000400; at_time 1002900; at_time 1003100]
                      ++ [at_time 1005650])).
  { repeat constructor. }
  destruct (H Hmono Hkey) as (Hb & _ & Hpos).
  cbv zeta. split; [exact Hb |].
  destruct Hpos as [Hlow _]; [reflexivity |]. exact Hlow.
Defined.

(** ** The timeline over a run of tracker operations *)

Lemma chronological_weaken (t t' : Z) (l : list Block) :
  t <= t' -> chronological t l -> chronological t' l.
Proof.
  intros Hle [Hb Hs]. split; [| exact Hs].
  eapply Forall_impl; [exact Hb |]. cbn. intros b Hb'. lia.
Qed.

Lemma chronological_snoc (t : Z) (l : list Block) (b : Block) :
  chronological t l ->
  Forall (fun x => blk_end x <= blk_start b) l ->
  blk_start b <= blk_end b -> t <= blk_end b ->
  chronological (blk_end b) (l ++ [b]).
Proof.
  intros [Hb Hs] Hall Hse Ht. split.
  - apply Forall_app. split.
    + eapply Forall_impl; [exact Hb |]. cbn. intros x Hx. lia.
    + constructor; [lia | constructor].
  - induction Hs as [| x l Hs IH Hx].
    + cbn. constructor; constructor.
    + apply Forall_cons in Hall. destruct Hall as [Hxb Hall].
      apply Forall_cons in Hb. destruct Hb as [_ Hb].
      cbn. constructor; [apply IH; assumption |].
      apply Forall_app. split; [exact Hx |]. constructor; [exact Hxb | constructor].
Qed.

Lemma session_ok_weaken (t t' : Z) (w : World) :
  t <= t' -> session_ok t w -> session_ok t' w.
Proof.
  intros Hle [Hp Hs]. split; [exact Hp |].
  destruct Hs as [Hs | (d & s & p & Hd & Hst & Hpa & Hsp & Hends)];
    [left; exact Hs | right].
  exists d, s, p. repeat split; try assumption; lia.
Qed.

Lemma tracker_inv_weaken (t t' : Z) (w : World) :
  t <= t' -> tracker_inv t w -> tracker_inv t' w.
Proof.
  intros Hle [Hs Hc]. split; [eapply session_ok_weaken; eassumption |].
  intros key. eapply chronological_weaken; [exact Hle | apply Hc].
Qed.

Lemma timeline_at_same_days (st st' : Storage) (key : string) :
  days st' = days st -> timeline_at st' key = timeline_at st key.
Proof. intros H. unfold timeline_at. rewrite H. reflexivity. Qed.

Lemma timeline_at_other_day (st st' : Storage) (key : string) :
  days st' !! key = days st !! key -> timeline_at st' key = timeline_at st key.
Proof. intros H. unfold timeline_at, day_of. rewrite H. reflexivity. Qed.

Lemma startTracking_mem (tabs_get : Z -> option Tab) (hostname : string)
  (tabId : option Z) (clk : Clock) (m : Mem) (st : Storage) (cfg : Settings) :
  getSettings (settings st) = Some cfg ->
  shouldTrack hostname (excludeDomains cfg) = true ->
  let w' := startTracking tabs_get hostname tabId clk (m, st) in
  pendingWrite (fst w') = pendingWrite m
  /\ lastFocusedWindowId (fst w') = lastFocusedWindowId m
  /\ isIdle (fst w') = isIdle m
  /\ settings (snd w') = settings st.
Proof.
  intros Hcfg Htrack. cbv zeta. unfold startTracking. rewrite Hcfg, Htrack.
  repeat split; reflexivity.
Qed.

Lemma step_start_inv (tabs_get : Z -> option Tab) (clk : Clock)
  (hostname : string) (tabId : option Z) (t : Z) (w : World) :
  tracker_inv t w -> t <= now clk ->
  tracker_inv (now clk) (startTracking tabs_get hostname tabId clk w).
Proof.
  intros Hinv Hle. destruct w as [m st].
  pose proof (getSettings_fields (settings st)) as Hcfg.
  set (cfg := {| excludeDomains := _ |}) in Hcfg.
  destruct (shouldTrack hostname (excludeDomains cfg)) eqn:Htrack.
  - pose proof (startTracking_success tabs_get hostname tabId clk m st cfg
                  Hcfg Htrack) as Hs.
    pose proof (startTracking_mem tabs_get hostname tabId clk m st cfg
                  Hcfg Htrack) as Hm.
    cbv zeta in Hs, Hm.
    destruct Hs as (Hd & Hst & Hp & _ & _ & _ & Hdays).
    destruct Hm as (Hpw & _).
    destruct Hinv as [[Hpend _] Hchron]. cbn [fst snd] in *.
    split.
    + split; [rewrite Hpw; exact Hpend |]. right.
      exists hostname, (now clk), (now clk).
      repeat split; try assumption; try lia.
      intros key. rewrite (timeline_at_same_days st _ key Hdays).
      destruct (Hchron key) as [Hb _].
      eapply Forall_impl; [exact Hb |]. cbn. intros b Hb'. lia.
    + intros key. rewrite (timeline_at_same_days st _ key Hdays).
      eapply chronological_weaken; [exact Hle | apply Hchron].
  - rewrite (startTracking_untracked tabs_get hostname tabId clk (m, st) cfg
               Hcfg Htrack).
    eapply tracker_inv_weaken; eassumption.
Qed.

Lemma step_flush_inv (clk : Clock) (t : Z) (w : World) :
  tracker_inv t w -> t <= now clk ->
  tracker_inv (now clk) (persistRunningTotal clk w).
Proof.
  intros Hinv Hle. destruct w as [m st].
  destruct Hinv as [[Hpend Hsess] Hchron]. cbn [fst snd] in *.
  destruct Hsess as [(Hd & Hs & Hp) | (d & s & p & Hd & Hs & Hp & Hsp & Hends)].
  - rewrite persistRunningTotal_no_session by (left; exact Hd).
    apply (tracker_inv_weaken t); [exact Hle |].
    split; [split; [exact Hpend | left; auto] | exact Hchron].
  - pose proof (getSettings_fields (settings st)) as Hcfg.
    set (cfg := {| excludeDomains := _ |}) in Hcfg.
    destruct (shouldTrack d (excludeDomains cfg)) eqn:Htrack.
    + pose proof (persistRunningTotal_active clk m st d s cfg Hd Hs Hcfg Htrack)
        as Hf.
      cbv zeta in Hf.
      destruct (persistRunningTotal clk (m, st)) as [m' st'].
      cbn [fst snd] in *.
      destruct Hf as (Hd' & Hs' & _ & _ & _ & _ & _ & _ & Hpw' & _ & _ & _
                      & Htl & _ & _ & _ & Hlast).
      unfold tracker_inv, session_ok. cbn [fst snd]. split.
      * split; [destruct Hpw'; congruence |]. right.
        destruct (persistable cfg (lastTabIncognito m)).
        -- exists d, s, (now clk). repeat split; try assumption; try lia.
           intros key. rewrite Htl. apply Hends.
        -- exists d, s, p. rewrite Hlast. repeat split; try assumption; try lia.
           intros key. rewrite Htl. apply Hends.
      * intros key. rewrite Htl.
        eapply chronological_weaken; [exact Hle | apply Hchron].
    + rewrite (persistRunningTotal_untracked clk m st d s cfg Hd Hs Hcfg Htrack).
      split.
      * split; [exact Hpend | left]. repeat split; reflexivity.
      * intros key. cbn [snd].
        rewrite (timeline_at_same_days st (set_currentSession None st) key eq_refl).
        eapply chronological_weaken; [exact Hle | apply Hchron].
Qed.

Lemma step_stop_inv (clk : Clock) (t : Z) (w : World) :
  tracker_inv t w -> t <= now clk ->
  tracker_inv (now clk) (stopTracking_await clk w).
Proof.
  intros Hinv Hle. destruct w as [m st].
  destruct Hinv as [[Hpend Hsess] Hchron]. cbn [fst snd] in *.
  destruct Hsess as [(Hd & Hs & Hp) | (d & s & p & Hd & Hs & Hp & Hsp & Hends)].
  - rewrite stopTracking_await_no_session by (left; exact Hd).
    apply (tracker_inv_weaken t); [exact Hle |].
    split; [split; [exact Hpend | left; auto] | exact Hchron].
  - pose proof (getSettings_fields (settings st)) as Hcfg.
    set (cfg := {| excludeDomains := _ |}) in Hcfg.
    destruct (shouldTrack d (excludeDomains cfg)
              && persistable cfg (lastTabIncognito m)) eqn:Hok.
    + apply andb_true_iff in Hok. destruct Hok as [Htrack Hpers].
      rewrite (stopTracking_await_active clk m st d s Hd Hs Hpend).
      set (c := {| c_domain := d |}).
      pose proof (endSession_persist_effect c clk
                    (set_pendingWrite (Some (Some c)) (clear_session_end m))
                    st cfg Hcfg Htrack Hpers) as He.
      cbv zeta in He. destruct He as (_ & _ & _ & _ & Htl & _ & Hdays & _).
      split.
      * split; [rewrite settle_fst; reflexivity |]. left.
        rewrite settle_fst. repeat split; reflexivity.
      * intros key. rewrite settle_snd.
        destruct (decide (key = dateKey clk)) as [-> | Hk].
        -- rewrite Htl.
           apply (chronological_snoc t _
                    {| blk_start := s; blk_end := now clk; blk_domain := d |});
             [apply Hchron | apply Hends | cbn; lia | cbn; lia].
        -- rewrite (timeline_at_other_day st _ key (Hdays key Hk)).
           eapply chronological_weaken; [exact Hle | apply Hchron].
    + assert (Hwhy : shouldTrack d (excludeDomains cfg) = false
                     \/ persistable cfg (lastTabIncognito m) = false).
      { apply andb_false_iff in Hok. exact Hok. }
      rewrite (stopTracking_await_discards clk m st d s cfg Hd Hs Hpend Hcfg Hwhy).
      split.
      * split; [reflexivity | left]. repeat split; reflexivity.
      * intros key. cbn [snd].
        eapply chronological_weaken; [exact Hle | apply Hchron].
Qed.

Lemma step_inv (tabs_get : Z -> option Tab) (clk : Clock) (op : TrackerOp)
  (t : Z) (w : World) :
  tracker_inv t w -> t <= now clk ->
  tracker_inv (now clk) (step tabs_get clk op w).
Proof.
  intros Hinv Hle. destruct op as [hostname tabId | | | v]; cbn [step].
  - apply (step_start_inv tabs_get clk hostname tabId t); assumption.
  - apply (step_flush_inv clk t); assumption.
  - apply (step_stop_inv clk t); assumption.
  - apply (tracker_inv_weaken t); [exact Hle |].
    destruct w as [m st]. destruct Hinv as [[Hpend Hsess] Hchron].
    split; [split; [exact Hpend |] | exact Hchron].
    exact Hsess.
Qed.

Lemma run_inv (tabs_get : Z -> option Tab) (evs : list (Clock * TrackerOp)) :
  forall (t : Z) (w : World),
    tracker_inv t w -> nondecreasing t (fst <$> evs) ->
    exists t' : Z, t <= t' /\ tracker_inv t' (run tabs_get evs w).
Proof.
  induction evs as [| [clk op] evs IH]; intros t w Hinv Hmono.
  - exists t. split; [lia | exact Hinv].
  - cbn in Hmono. destruct Hmono as [Hle Hmono]. cbn [run].
    destruct (IH (now clk) (step tabs_get clk op w)
                (step_inv tabs_get clk op t w Hinv Hle) Hmono)
      as (t' & Hle' & Hinv').
    exists t'. split; [lia | exact Hinv'].
Qed.

Lemma tracker_inv_fresh (t : Z) (cfg : JSVal) :
  tracker_inv t (fresh_mem, storage_with cfg).
Proof.
  split.
  - split; [reflexivity | left]. repeat split; reflexivity.
  - intros key. unfold timeline_at, day_of. cbn [snd storage_with days].
    rewrite lookup_empty. cbn. split; constructor.
Qed.

(** X5. Starting from a state that satisfies [tracker_inv] (a fresh
    service worker with empty storage does), any sequence of starts,
    flushes, awaited stops and settings changes whose clock readings do not
    go back leaves, for every day, a timeline in which each block starts no
    later than it ends and ends no later than the next block of the list
    starts: no two blocks overlap. The session variables stay all set or
    all [null]. *)
Theorem run_timeline_chronological (tabs_get : Z -> option Tab)
  (evs : list (Clock * TrackerOp)) (t : Z) (w : World) :
  tracker_inv t w -> nondecreasing t (fst <$> evs) ->
  let w' := run tabs_get evs w in
  (forall key : string,
      Forall (fun b => blk_start b <= blk_end b) (timeline_at (snd w') key)
      /\ StronglySorted (fun b1 b2 => blk_end b1 <= blk_start b2)
           (timeline_at (snd w') key))
  /\ (lastDomain (fst w') = None <-> lastStartTimestamp (fst w') = None)
  /\ (lastDomain (fst w') = None <-> lastPersistedAt (fst w') = None)
  /\ exists t' : Z, t <= t' /\ tracker_inv t' w'.
Proof.
  intros Hinv Hmono. cbv zeta.
  destruct (run_inv tabs_get evs t w Hinv Hmono) as (t' & Hle & Hinv').
  pose proof Hinv' as [[_ Hsess] Hchron].
  split; [| split; [| split]].
  - intros key. destruct (Hchron key) as [Hb Hs]. split; [| exact Hs].
    eapply Forall_impl; [exact Hb |]. cbn. intros b Hb'. lia.
  - destruct Hsess as [(Hd & Hs & Hp) | (d & s & p & Hd & Hs & Hp & _)];
      rewrite Hd, Hs; split; intros H; try reflexivity; discriminate H.
  - destruct Hsess as [(Hd & Hs & Hp) | (d & s & p & Hd & Hs & Hp & _)];
      rewrite Hd, Hp; split; intros H; try reflexivity; discriminate H.
  - exists t'. split; assumption.
Qed.

Lemma run_timeline_chronological_witness :
  let w' :=
    run regular_tabs
      [(at_time 100, OpStart "a.com" (Some 1));
       (at_time 2600, OpFlush);
       (at_time 4100, OpStop);
       (at_time 4100, OpStart "b.com" (Some 2));
       (at_time 5000, OpSaveSettings (settings_of [JStr "b.com"] 1000 false));
       (at_time 6000, OpStop);
       (at_time 7000, OpStart "a.com" (Some 1));
       (at_time 9500, OpStop)]
      (fresh_mem, storage_with (settings_of [] 1000 false)) in
  timeline_at (snd w') "2025-02-13" =
    [{| blk_start := 100; blk_end := 4100; blk_domain := "a.com" |};
     {| blk_start := 7000; blk_end := 9500; blk_domain := "a.com" |}]
  /\ StronglySorted (fun b1 b2 => blk_end b1 <= blk_start b2)
       (timeline_at (snd w') "2025-02-13")
  /\ (lastDomain (fst w') = None <-> lastStartTimestamp (fst w') = None).
Proof.
  cbv zeta.
  pose proof (run_timeline_chronological regular_tabs
                [(at_time 100, OpStart "a.com" (Some 1));
                 (at_time 2600, OpFlush);
                 (at_time 4100, OpStop);
                 (at_time 4100, OpStart "b.com" (Some 2));
                 (at_time 5000, OpSaveSettings (settings_of [JStr "b.com"] 1000 false));
                 (at_time 6000, OpStop);
                 (at_time 7000, OpStart "a.com" (Some 1));
                 (at_time 9500, OpStop)]
                0 (fresh_mem, storage_with (settings_of [] 1000 false))
                (tracker_inv_fresh 0 _)) as H.
  cbv zeta in H.
  assert (Hmono : nondecreasing 0
            (fst <$> [(at_time 100, OpStart "a.com" (Some 1));
                      (at_time 2600, OpFlush);
                      (at_time 4100, OpStop);
                      (at_time 4100, OpStart "b.com" (Some 2));
                      (at_time 5000, OpSaveSettings (settings_of [JStr "b.com"] 1000 false));
                      (at_time 6000, OpStop);
                      (at_time 7000, OpStart "a.com" (Some 1));
                      (at_time 9500, OpStop)])).
  { cbn. repeat split; lia. }
  destruct (H Hmono) as (Hchron & Hwf & _).
  split; [reflexivity |].
  split; [exact (proj2 (Hchron "2025-02-13")) | exact Hwf].
Defined.

(** ** How the operations change memory *)

Lemma set_pendingWrite_same (m : Mem) : set_pendingWrite (pendingWrite m) m = m.
Proof. destruct m. reflexivity. Qed.

Lemma set_pendingWrite_twice (p q : option Promise) (m : Mem) :
  set_pendingWrite p (set_pendingWrite q m) = set_pendingWrite p m.
Proof. reflexivity. Qed.

Lemma endSession_persist_settings (c : Claimed) (clk : Clock) (w : World) :
  settings (snd (endSession_persist c clk w)) = settings (snd w).
Proof.
  destruct w as [m st]. unfold endSession_persist.
  destruct (getSettings (settings st)) as [cfg |]; [| reflexivity].
  destruct (negb (shouldTrack (c_domain c) (excludeDomains cfg))); [reflexivity |].
  destruct (negb (keepIncognitoData cfg) && c_wasIncognito c); reflexivity.
Qed.

Lemma endSession_persist_fst (c : Claimed) (clk : Clock) (m : Mem) (st : Storage) :
  exists pw : option Promise,
    fst (endSession_persist c clk (m, st)) = set_pendingWrite pw m.
Proof.
  destruct (endSession_persist_mem c clk m st) as [H | H]; rewrite H.
  - exists (pendingWrite m). symmetry. apply set_pendingWrite_same.
  - exists None. reflexivity.
Qed.

Lemma settle_settings (p : Promise) (clk : Clock) (w : World) :
  settings (snd (settle p clk w)) = settings (snd w).
Proof.
  unfold settle. destruct p as [c |].
  - pose proof (endSession_persist_settings c clk w) as H.
    destruct (endSession_persist c clk w). exact H.
  - destruct w. reflexivity.
Qed.

Lemma settle_mem (p : Promise) (clk : Clock) (m : Mem) (st : Storage) :
  fst (settle p clk (m, st)) = set_pendingWrite None m.
Proof.
  destruct p as [c |]; [apply settle_fst | reflexivity].
Qed.

(** A stop either leaves the variables alone or clears the session; in
    both cases only [pendingWrite] may differ besides. *)
Lemma stopTracking_fst (m : Mem) :
  fst (stopTracking m) = m
  \/ (lastDomain m <> None /\ lastStartTimestamp m <> None
      /\ pendingWrite m = None
      /\ exists p : Promise,
           fst (stopTracking m) = set_pendingWrite (Some p) (clear_session_end m)).
Proof.
  unfold stopTracking.
  destruct (lastDomain m) as [d |] eqn:Hd; [| left; reflexivity].
  destruct (lastStartTimestamp m) as [s |] eqn:Hs; [| left; reflexivity].
  destruct (pendingWrite m) as [p |] eqn:Hp; [left; reflexivity | right].
  split; [discriminate |]. split; [discriminate |]. split; [reflexivity |].
  unfold endSession_claim. cbn. eexists. reflexivity.
Qed.

Lemma stopTracking_await_fst (clk : Clock) (m : Mem) (st : Storage) :
  exists pw : option Promise,
    fst (stopTracking_await clk (m, st)) = set_pendingWrite pw m
    \/ (lastDomain m <> None /\ lastStartTimestamp m <> None
        /\ pw = None
        /\ fst (stopTracking_await clk (m, st))
           = set_pendingWrite None (clear_session_end m)).
Proof.
  unfold stopTracking_await, stopTracking.
  destruct (lastDomain m) as [d |] eqn:Hd;
    [| exists (pendingWrite m); left; symmetry; apply set_pendingWrite_same].
  destruct (lastStartTimestamp m) as [s |] eqn:Hs;
    [| exists (pendingWrite m); left; symmetry; apply set_pendingWrite_same].
  destruct (pendingWrite m) as [p |] eqn:Hp.
  - exists None. left. apply settle_mem.
  - exists None. right. split; [discriminate |]. split; [discriminate |].
    split; [reflexivity |].
    unfold endSession_claim. cbn. rewrite settle_mem. reflexivity.
Qed.

Lemma stopTracking_await_settings (clk : Clock) (w : World) :
  settings (snd (stopTracking_await clk w)) = settings (snd w).
Proof.
  destruct w as [m st]. unfold stopTracking_await.
  destruct (stopTracking m) as [m1 [p |]]; [| reflexivity].
  apply (settle_settings p clk (m1, st)).
Qed.

(** With no stop pending, an awaited stop always leaves no session. *)
Lemma stopTracking_await_clears (clk : Clock) (m : Mem) (st : Storage) :
  mem_wf m -> pendingWrite m = None ->
  let m' := fst (stopTracking_await clk (m, st)) in
  lastDomain m' = None /\ lastStartTimestamp m' = None
  /\ lastPersistedAt m' = None /\ lastTabId m' = None
  /\ pendingWrite m' = None.
Proof.
  intros [Hnone Hsome] Hp. cbv zeta.
  destruct (lastDomain m) as [d |] eqn:Hd.
  - destruct (Hsome ltac:(discriminate)) as [Hs _].
    destruct (lastStartTimestamp m) as [s |] eqn:Hs'; [| congruence].
    rewrite (stopTracking_await_active clk m st d s Hd Hs' Hp), settle_fst.
    repeat split; reflexivity.
  - rewrite stopTracking_await_no_session by (left; exact Hd).
    destruct (Hnone eq_refl) as (H1 & H2 & H3). cbn [fst].
    repeat split; assumption.
Qed.

(** ** Consistency of the session variables *)

Lemma mem_wf_same (m m' : Mem) :
  lastDomain m' = lastDomain m ->
  lastStartTimestamp m' = lastStartTimestamp m ->
  lastPersistedAt m' = lastPersistedAt m ->
  lastTabId m' = lastTabId m ->
  mem_wf m -> mem_wf m'.
Proof.
  intros Hd Hs Hp Ht Hwf. unfold mem_wf. rewrite Hd, Hs, Hp, Ht. exact Hwf.
Qed.

Lemma mem_wf_cleared (m : Mem) :
  lastDomain m = None -> lastStartTimestamp m = None ->
  lastPersistedAt m = None -> lastTabId m = None -> mem_wf m.
Proof.
  intros Hd Hs Hp Ht. split; [intros _; auto | intros H; congruence].
Qed.

Lemma mem_wf_stopTracking_await (clk : Clock) (w : World) :
  mem_wf (fst w) -> mem_wf (fst (stopTracking_await clk w)).
Proof.
  destruct w as [m st]. cbn [fst]. intros Hwf.
  destruct (stopTracking_await_fst clk m st) as [pw [H | (_ & _ & _ & H)]];
    rewrite H.
  - revert Hwf. apply mem_wf_same; reflexivity.
  - apply mem_wf_cleared; reflexivity.
Qed.

Lemma mem_wf_stopTracking_nowait (w : World) :
  mem_wf (fst w) -> mem_wf (fst (stopTracking_nowait w)).
Proof.
  destruct w as [m st]. cbn [fst stopTracking_nowait]. intros Hwf.
  destruct (stopTracking_fst m) as [H | (_ & _ & _ & p & H)]; rewrite H.
  - exact Hwf.
  - apply mem_wf_cleared; reflexivity.
Qed.

Lemma mem_wf_settle (p : Promise) (clk : Clock) (w : World) :
  mem_wf (fst w) -> mem_wf (fst (settle p clk w)).
Proof.
  destruct w as [m st]. cbn [fst]. rewrite settle_mem.
  apply mem_wf_same; reflexivity.
Qed.

Lemma mem_wf_startTracking (tabs_get : Z -> option Tab) (hostname : string)
  (tabId : option Z) (clk : Clock) (w : World) :
  mem_wf (fst w) -> mem_wf (fst (startTracking tabs_get hostname tabId clk w)).
Proof.
  destruct w as [m st]. cbn [fst]. intros Hwf. unfold startTracking.
  destruct (getSettings (settings st)) as [cfg |]; [| exact Hwf].
  destruct (negb (shouldTrack hostname (excludeDomains cfg))); [exact Hwf |].
  cbn [fst]. split; cbn; [discriminate | intros _; split; discriminate].
Qed.

Lemma mem_wf_persistRunningTotal (clk : Clock) (w : World) :
  mem_wf (fst w) -> mem_wf (fst (persistRunningTotal clk w)).
Proof.
  destruct w as [m st]. cbn [fst]. intros Hwf. rewrite persistRunningTotal_unfold.
  destruct (lastDomain m) as [d |] eqn:Hd; [| exact Hwf].
  destruct (lastStartTimestamp m) as [s |] eqn:Hs; [| exact Hwf].
  destruct (getSettings (settings st)) as [cfg |]; [| exact Hwf].
  destruct (negb (shouldTrack d (excludeDomains cfg))).
  { apply mem_wf_cleared; reflexivity. }
  destruct (negb (keepIncognitoData cfg) && lastTabIncognito m); [exact Hwf |].
  destruct (_ <=? 0); cbn [fst];
    (split; cbn; [congruence | intros _; split; congruence]).
Qed.

Lemma handleActiveTab_recover_fst (windows_get : Z -> bool)
  (windowId : option Z) (clk : Clock) (m : Mem) (st : Storage) :
  handleActiveTab_recover windows_get windowId clk (m, st) = (m, st)
  \/ (lastDomain m = None
      /\ exists pw : option Promise,
           fst (handleActiveTab_recover windows_get windowId clk (m, st))
           = set_lastFocusedWindowId windowId
               (set_pendingWrite pw (clear_session_end m))).
Proof.
  assert (Hrun : forall (d : string) (s : Z) (p : option Z) (inc : bool),
             exists pw : option Promise,
               fst (let '(m1, st1) :=
                      endSession
                        (Some {| ov_domain := Some d; ov_start := Some s;
                                 ov_persistedAt := p; ov_tabIdToCheck := None;
                                 ov_wasIncognito := Some inc |}) clk (m, st) in
                    (set_lastFocusedWindowId windowId m1,
                     set__pendingSession None st1))
               = set_lastFocusedWindowId windowId
                   (set_pendingWrite pw (clear_session_end m))).
  { intros d s p inc. rewrite endSession_override.
    destruct (endSession_persist_fst
                {| c_domain := d; c_start := s; c_persistedAt := p;
                   c_wasIncognito := inc |} clk (clear_session_end m) st)
      as [pw Hpw].
    destruct (endSession_persist _ clk (clear_session_end m, st)) as [m1 st1].
    cbn [fst] in *. subst m1. exists pw. reflexivity. }
  destruct windowId as [wid |];
    unfold handleActiveTab_recover, handleActiveTab_recovery;
    destruct (lastTabId m); [left; reflexivity | | left; reflexivity |];
    (destruct (lastDomain m) eqn:Hd; [left; reflexivity |]);
    (destruct (_pendingSession st) as [pending |]; [| left; reflexivity]);
    (destruct (ps_domain pending) as [d |] eqn:Hpd; [| left; reflexivity]);
    (destruct (ps_start pending) as [s |] eqn:Hps; [| left; reflexivity]);
    (destruct (ps_windowId pending) as [pw |]; [| left; reflexivity]).
  - destruct (negb (pw =? wid) && negb (windows_get pw)); [| left; reflexivity].
    right. split; [reflexivity |]. apply Hrun.
  - destruct (negb (windows_get pw)); [| left; reflexivity].
    right. split; [reflexivity |]. apply Hrun.
Qed.

Lemma handleActiveTab_recover_settings (windows_get : Z -> bool)
  (windowId : option Z) (clk : Clock) (w : World) :
  settings (snd (handleActiveTab_recover windows_get windowId clk w))
  = settings (snd w).
Proof.
  destruct w as [m st].
  assert (Hrun : forall (ov : SessionOverride),
             settings (snd (let '(m1, st1) := endSession (Some ov) clk (m, st) in
                            (set_lastFocusedWindowId windowId m1,
                             set__pendingSession None st1)))
             = settings st).
  { intros ov. unfold endSession.
    destruct (endSession_claim (Some ov) m) as [m1 [c |]]; [| reflexivity].
    pose proof (endSession_persist_settings c clk (m1, st)) as H.
    destruct (endSession_persist c clk (m1, st)) as [m2 st2]. exact H. }
  destruct windowId as [wid |];
    unfold handleActiveTab_recover, handleActiveTab_recovery;
    destruct (lastTabId m); try reflexivity;
    destruct (lastDomain m); try reflexivity;
    destruct (_pendingSession st) as [pending |]; try reflexivity;
    destruct (ps_domain pending); try reflexivity;
    destruct (ps_start pending); try reflexivity;
    destruct (ps_windowId pending) as [pw |]; try reflexivity.
  - destruct (negb (pw =? wid) && negb (windows_get pw)); [| reflexivity].
    apply Hrun.
  - destruct (negb (windows_get pw)); [| reflexivity]. apply Hrun.
Qed.

Lemma mem_wf_recover (windows_get : Z -> bool) (windowId : option Z)
  (clk : Clock) (w : World) :
  mem_wf (fst w) ->
  mem_wf (fst (handleActiveTab_recover windows_get windowId clk w)).
Proof.
  destruct w as [m st]. cbn [fst]. intros Hwf.
  destruct (handleActiveTab_recover_fst windows_get windowId clk m st)
    as [H | (_ & pw & H)]; rewrite H; [exact Hwf |].
  apply mem_wf_cleared; reflexivity.
Qed.

Lemma mem_wf_set_lastFocusedWindowId (x : option Z) (m : Mem) :
  mem_wf m -> mem_wf (set_lastFocusedWindowId x m).
Proof. apply mem_wf_same; reflexivity. Qed.

Lemma mem_wf_focus_after (x : option Z) (w : World) :
  mem_wf (fst w) ->
  mem_wf (fst (let '(m, st) := w in (set_lastFocusedWindowId x m, st))).
Proof. destruct w as [m st]. apply mem_wf_set_lastFocusedWindowId. Qed.

Lemma mem_wf_handleActiveTab_window (windowId : option Z) (clk : Clock)
  (w : World) :
  mem_wf (fst w) -> mem_wf (fst (handleActiveTab_window windowId clk w)).
Proof.
  intros Hwf. unfold handleActiveTab_window.
  destruct (negb (bool_decide (windowId = lastFocusedWindowId (fst w)))).
  - apply mem_wf_focus_after, mem_wf_stopTracking_await, Hwf.
  - destruct (_ && _ && _); [| exact Hwf].
    apply mem_wf_focus_after, mem_wf_stopTracking_await, Hwf.
Qed.

Lemma mem_wf_handleActiveTab_tab (br : Chrome) (tabId windowId : option Z)
  (rd : Readings) (w : World) :
  mem_wf (fst w) -> mem_wf (fst (handleActiveTab_tab br tabId windowId rd w)).
Proof.
  intros H2. unfold handleActiveTab_tab.
  destruct tabId as [tid |]; [| exact H2].
  destruct (chrome_tabs_get br tid) as [tab |];
    [| apply mem_wf_stopTracking_await, H2].
  cbv zeta.
  destruct (negb (bool_decide (Some tid = lastTabId (fst w)))
            && bool_decide (lastDomain (fst w) <> None)
            && _) eqn:Hshort.
  - apply andb_true_iff in Hshort. destruct Hshort as [Hshort _].
    apply andb_true_iff in Hshort. destruct Hshort as [_ Hdom].
    apply bool_decide_eq_true in Hdom. cbn [fst].
    destruct H2 as [Hnone Hsome]. split; cbn; [congruence | exact Hsome].
  - clear Hshort.
    match goal with
    | |- mem_wf (fst (match _ with Some _ => _ | None => clear_currentSession (stopTracking_await _ ?x) end)) =>
        set (w3 := x)
    end.
    assert (H3 : mem_wf (fst w3)).
    { subst w3. destruct (negb _); [apply mem_wf_stopTracking_await |]; exact H2. }
    clearbody w3.
    destruct (hostname_of_tab_url br (tab_url tab)) as [h |].
    + destruct (bool_decide (lastFocusedWindowId (fst w3) = windowId)).
      * apply mem_wf_startTracking, H3.
      * apply mem_wf_stopTracking_await, H3.
    + apply mem_wf_stopTracking_await, H3.
Qed.

Lemma mem_wf_handleActiveTab (br : Chrome) (tabId windowId : option Z)
  (rd : Readings) (w : World) :
  mem_wf (fst w) -> mem_wf (fst (handleActiveTab br tabId windowId rd w)).
Proof.
  intros Hwf. unfold handleActiveTab.
  apply mem_wf_handleActiveTab_tab, mem_wf_handleActiveTab_window,
    mem_wf_recover, Hwf.
Qed.

Lemma mem_wf_query_and_handle (br : Chrome) (windowId : option Z) (rd : Readings)
  (on_reject : World -> World) (w : World) :
  (forall w0 : World, mem_wf (fst w0) -> mem_wf (fst (on_reject w0))) ->
  mem_wf (fst w) ->
  mem_wf (fst (query_and_handle br windowId rd on_reject w)).
Proof.
  intros Hrej Hwf. unfold query_and_handle.
  destruct (chrome_tabs_query br windowId) as [[tab |] |].
  - apply mem_wf_handleActiveTab, Hwf.
  - exact Hwf.
  - apply Hrej, Hwf.
Qed.

Lemma mem_wf_resume (br : Chrome) (rd : Readings) (w : World) :
  mem_wf (fst w) -> mem_wf (fst (resume_in_last_focused br rd w)).
Proof.
  intros Hwf. unfold resume_in_last_focused.
  destruct (chrome_windows_getLastFocused br) as [[wid |] |]; try exact Hwf.
  apply mem_wf_query_and_handle; [intros w0 H0; exact H0 |].
  apply mem_wf_set_lastFocusedWindowId, Hwf.
Qed.

Lemma mem_wf_handleWindowFocus (br : Chrome) (windowId : Z) (rd : Readings)
  (w : World) :
  mem_wf (fst w) -> mem_wf (fst (handleWindowFocus br windowId rd w)).
Proof.
  intros Hwf. unfold handleWindowFocus.
  destruct (windowId =? WINDOW_ID_NONE).
  - apply mem_wf_focus_after, mem_wf_stopTracking_nowait, Hwf.
  - apply mem_wf_query_and_handle; [apply mem_wf_stopTracking_nowait |].
    destruct (negb _).
    + apply mem_wf_stopTracking_await, mem_wf_set_lastFocusedWindowId, Hwf.
    + apply mem_wf_set_lastFocusedWindowId, Hwf.
Qed.

Lemma mem_wf_set_isIdle (b : bool) (m : Mem) : mem_wf m -> mem_wf (set_isIdle b m).
Proof. apply mem_wf_same; reflexivity. Qed.

Lemma mem_wf_onIdleStateChange (br : Chrome) (state : string) (rd : Readings)
  (w : World) :
  mem_wf (fst w) -> mem_wf (fst (onIdleStateChange br state rd w)).
Proof.
  intros Hwf. unfold onIdleStateChange. cbv zeta.
  destruct (_ && negb (isIdle (fst w))).
  - apply mem_wf_stopTracking_nowait, mem_wf_set_isIdle, Hwf.
  - destruct (_ && isIdle (fst w)); [| exact Hwf].
    apply mem_wf_resume, mem_wf_set_isIdle, Hwf.
Qed.

Lemma mem_wf_onTabActivated (br : Chrome) (tabId windowId : Z) (rd : Readings)
  (w : World) :
  mem_wf (fst w) -> mem_wf (fst (onTabActivated br tabId windowId rd w)).
Proof.
  intros Hwf. unfold onTabActivated. apply mem_wf_handleActiveTab.
  destruct (negb _); [| exact Hwf].
  apply mem_wf_focus_after, mem_wf_stopTracking_await, Hwf.
Qed.

Lemma mem_wf_onTabUpdated (br : Chrome) (tabId : Z)
  (changed url : option string) (rd : Readings) (w : World) :
  mem_wf (fst w) -> mem_wf (fst (onTabUpdated br tabId changed url rd w)).
Proof.
  intros Hwf. unfold onTabUpdated.
  destruct changed as [c |]; [| exact Hwf].
  destruct (chrome_tabs_query_current br) as [[active |] |]; try exact Hwf.
  destruct (negb (bool_decide (ref_id active = Some tabId))); [exact Hwf |].
  destruct (negb (bool_decide (Some (ref_windowId active) = _))); [exact Hwf |].
  destruct (hostnameFromUrl _ _) as [h |];
    [| apply mem_wf_stopTracking_nowait, Hwf].
  destruct (_ && _); [exact Hwf |].
  apply mem_wf_startTracking, mem_wf_stopTracking_await, Hwf.
Qed.

Lemma mem_wf_reconcile (br : Chrome) (rd : Readings) (w : World) :
  mem_wf (fst w) -> mem_wf (fst (reconcileWithCurrentTab br rd w)).
Proof.
  intros Hwf. unfold reconcileWithCurrentTab.
  destruct (lastDomain (fst w)); [| exact Hwf].
  destruct (chrome_windows_getLastFocused br) as [win |];
    [| apply mem_wf_stopTracking_nowait, Hwf].
  cbv zeta.
  match goal with
  | |- context [match ?x with Some _ => _ | None => _ end] =>
      destruct x as [wid |]
  end.
  - pose proof (mem_wf_stopTracking_await (rd AtStop) w Hwf) as Hs.
    destruct (stopTracking_await (rd AtStop) w) as [m1 st1].
    apply mem_wf_query_and_handle; [apply mem_wf_stopTracking_nowait |].
    apply mem_wf_set_lastFocusedWindowId, Hs.
  - destruct (chrome_tabs_query br _) as [[tab |] |].
    + destruct (_ && _); [exact Hwf |].
      apply mem_wf_handleActiveTab, mem_wf_stopTracking_await, Hwf.
    + apply mem_wf_stopTracking_await, Hwf.
    + apply mem_wf_stopTracking_nowait, Hwf.
Qed.

Lemma mem_wf_onTabRemoved (br : Chrome) (tabId : Z) (rd : Readings) (w : World) :
  mem_wf (fst w) -> mem_wf (fst (onTabRemoved br tabId rd w)).
Proof.
  intros Hwf. unfold onTabRemoved.
  destruct (bool_decide _); [| exact Hwf].
  apply mem_wf_resume, mem_wf_stopTracking_await, Hwf.
Qed.

Lemma mem_wf_onWindowRemoved (windowId : Z) (clk : Clock) (w : World) :
  mem_wf (fst w) -> mem_wf (fst (onWindowRemoved windowId clk w)).
Proof.
  intros Hwf. unfold onWindowRemoved.
  destruct (bool_decide (windowId ∈ _)); [| exact Hwf].
  cbv zeta.
  assert (H1 : mem_wf (set_incognitoWindowIds
                         (incognitoWindowIds (fst w) ∖ {[windowId]}) (fst w))).
  { revert Hwf. apply mem_wf_same; reflexivity. }
  destruct (_ && _); [| exact H1].
  apply mem_wf_stopTracking_await. exact H1.
Qed.

Lemma mem_wf_onAlarm (br : Chrome) (name : string) (rd : Readings) (w : World) :
  mem_wf (fst w) -> mem_wf (fst (onAlarm br name rd w)).
Proof.
  intros Hwf. unfold onAlarm. destruct (negb _); [exact Hwf |].
  apply mem_wf_reconcile, mem_wf_persistRunningTotal, Hwf.
Qed.

Lemma mem_wf_onStartup (br : Chrome) (rd : Readings) (w : World) :
  mem_wf (fst (onStartup br rd w)).
Proof.
  unfold onStartup. cbv zeta. apply mem_wf_resume.
  apply mem_wf_cleared; reflexivity.
Qed.

Lemma mem_wf_listener_run (br : Chrome) (rd : Readings) (ev : Event) (w : World) :
  mem_wf (fst w) -> mem_wf (fst (listener_run br rd ev w)).
Proof.
  intros Hwf. destruct ev; cbn [listener_run].
  - apply mem_wf_handleWindowFocus, Hwf.
  - apply mem_wf_onIdleStateChange, Hwf.
  - apply mem_wf_onTabActivated, Hwf.
  - apply mem_wf_onTabUpdated, Hwf.
  - apply mem_wf_onTabRemoved, Hwf.
  - apply mem_wf_onWindowRemoved, Hwf.
  - apply mem_wf_onAlarm, Hwf.
  - apply mem_wf_onStartup.
  - apply mem_wf_settle, Hwf.
  - exact Hwf.
Qed.

(** X6. A listener that runs from its start to its end while no other
    listener runs keeps the session variables consistent, whatever the
    event, the browser state and the readings of the clock, and so does
    the settling of a pending stop: [lastDomain] and [lastStartTimestamp]
    are both set or both [null], a set domain has a flush mark, and a tab is
    tracked only while a domain is. (A listener that is interrupted at an
    [await] need not: see [flush_interrupted].) *)
Theorem handlers_keep_session_consistent
  (br : Chrome) (rd : Readings) (ev : Event) (w : World) :
  mem_wf (fst w) ->
  let m' := fst (listener_run br rd ev w) in
  (lastDomain m' = None <-> lastStartTimestamp m' = None)
  /\ (lastDomain m' = None -> lastPersistedAt m' = None /\ lastTabId m' = None)
  /\ (lastDomain m' <> None -> lastPersistedAt m' <> None)
  /\ mem_wf m'.
Proof.
  intros Hwf. cbv zeta.
  pose proof (mem_wf_listener_run br rd ev w Hwf) as H.
  split; [| split; [| split]]; [| | | exact H].
  - destruct H as [Hnone Hsome]. split.
    + intros Hd. apply Hnone, Hd.
    + intros Hs. destruct (lastDomain (fst (listener_run br rd ev w))) eqn:Hd;
        [| reflexivity].
      destruct (Hsome ltac:(discriminate)) as [Hs' _]. contradiction.
  - intros Hd. destruct H as [Hnone _]. destruct (Hnone Hd) as (_ & Hp & Ht).
    split; assumption.
  - intros Hd. destruct H as [_ Hsome]. apply Hsome, Hd.
Qed.

Lemma handlers_keep_session_consistent_witness :
  let br :=
    {| chrome_URL := basic_URL_hostname;
       chrome_tabs_get := regular_tabs;
       chrome_windows_get := fun _ => true;
       chrome_windows_getLastFocused := Some (Some 1);
       chrome_tabs_query := fun _ => Some (Some {| ref_id := Some 7; ref_windowId := 1 |});
       chrome_tabs_query_current := Some (Some {| ref_id := Some 7; ref_windowId := 1 |}) |} in
  let w' :=
    listener_run br (always (at_time 1000)) EvStartup
      (fresh_mem, storage_with (settings_of [] 1000 false)) in
  (lastDomain (fst w') = None <-> lastStartTimestamp (fst w') = None)
  /\ lastDomain (fst w') = Some "example.com".
Proof.
  cbv zeta.
  split; [| reflexivity].
  refine (proj1 (handlers_keep_session_consistent _ _ _ _ _)).
  apply mem_wf_cleared; reflexivity.
Defined.

(** X29. A flush that is interrupted leaves the session variables
    inconsistent. [persistRunningTotal] is suspended at its read of [days]
    when the user goes idle; [onIdleStateChange] clears the session; the
    flush then resumes, reads [lastDomain] again, which is [null] now,
    credits its 30000 ms to an entry named ["null"], and sets
    [lastPersistedAt] although no session is running. *)
Theorem flush_interrupted_inconsistent :
  mem_wf (fst started)
  /\ lastDomain (fst flush_interrupted) = None
  /\ lastStartTimestamp (fst flush_interrupted) = None
  /\ lastPersistedAt (fst flush_interrupted) = Some 1030000
  /\ ~ mem_wf (fst flush_interrupted)
  /\ entry_at (snd flush_interrupted) "2025-02-13" "null" = Some 30000
  /\ entry_at (snd flush_interrupted) "2025-02-13" "example.com" = None.
Proof.
  split.
  { split; cbn; [discriminate | intros _; split; discriminate]. }
  split; [reflexivity |]. split; [reflexivity |]. split; [reflexivity |].
  split; [| split; vm_compute; reflexivity].
  intros [Hnone _]. destruct (Hnone eq_refl) as (_ & Hp & _).
  discriminate Hp.
Qed.

(** ** What [handleActiveTab] decides *)

Lemma stopTracking_await_frame (clk : Clock) (w : World) :
  let m' := fst (stopTracking_await clk w) in
  lastFocusedWindowId m' = lastFocusedWindowId (fst w)
  /\ isIdle m' = isIdle (fst w)
  /\ incognitoWindowIds m' = incognitoWindowIds (fst w).
Proof.
  destruct w as [m st]. cbv zeta. cbn [fst].
  destruct (stopTracking_await_fst clk m st) as [pw [H | (_ & _ & _ & H)]];
    rewrite H; repeat split; reflexivity.
Qed.

Lemma endSession_persist_pending (c : Claimed) (clk : Clock) (m : Mem)
  (st : Storage) :
  pendingWrite m = None ->
  pendingWrite (fst (endSession_persist c clk (m, st))) = None.
Proof.
  intros Hp. destruct (endSession_persist_mem c clk m st) as [H | H]; rewrite H;
    [exact Hp | reflexivity].
Qed.

Lemma handleActiveTab_recover_cases (windows_get : Z -> bool)
  (windowId : option Z) (clk : Clock) (m : Mem) (st : Storage) :
  handleActiveTab_recover windows_get windowId clk (m, st) = (m, st)
  \/ (lastTabId m = None /\ lastDomain m = None
      /\ exists c : Claimed,
           handleActiveTab_recover windows_get windowId clk (m, st)
           = (set_lastFocusedWindowId windowId
                (fst (endSession_persist c clk (clear_session_end m, st))),
              set__pendingSession None
                (snd (endSession_persist c clk (clear_session_end m, st))))).
Proof.
  assert (Hrun : forall (d : string) (s : Z) (p : option Z) (inc : bool),
             exists c : Claimed,
               (let '(m1, st1) :=
                  endSession
                    (Some {| ov_domain := Some d; ov_start := Some s;
                             ov_persistedAt := p; ov_tabIdToCheck := None;
                             ov_wasIncognito := Some inc |}) clk (m, st) in
                (set_lastFocusedWindowId windowId m1,
                 set__pendingSession None st1))
               = (set_lastFocusedWindowId windowId
                    (fst (endSession_persist c clk (clear_session_end m, st))),
                  set__pendingSession None
                    (snd (endSession_persist c clk (clear_session_end m, st))))).
  { intros d s p inc. rewrite endSession_override.
    exists {| c_domain := d; c_start := s; c_persistedAt := p;
              c_wasIncognito := inc |}.
    destruct (endSession_persist _ clk (clear_session_end m, st)) as [m1 st1].
    reflexivity. }
  destruct windowId as [wid |];
    unfold handleActiveTab_recover, handleActiveTab_recovery;
    destruct (lastTabId m) eqn:Ht; [left; reflexivity | | left; reflexivity |];
    (destruct (lastDomain m) eqn:Hd; [left; reflexivity |]);
    (destruct (_pendingSession st) as [pending |]; [| left; reflexivity]);
    (destruct (ps_domain pending) as [d |] eqn:Hpd; [| left; reflexivity]);
    (destruct (ps_start pending) as [s |] eqn:Hps; [| left; reflexivity]);
    (destruct (ps_windowId pending) as [pw |]; [| left; reflexivity]).
  - destruct (negb (pw =? wid) && negb (windows_get pw)); [| left; reflexivity].
    right. split; [reflexivity |]. split; [reflexivity |]. apply Hrun.
  - destruct (negb (windows_get pw)); [| left; reflexivity].
    right. split; [reflexivity |]. split; [reflexivity |]. apply Hrun.
Qed.

Lemma handleActiveTab_recover_pending (windows_get : Z -> bool)
  (windowId : option Z) (clk : Clock) (w : World) :
  pendingWrite (fst w) = None ->
  pendingWrite (fst (handleActiveTab_recover windows_get windowId clk w)) = None.
Proof.
  destruct w as [m st]. cbn [fst]. intros Hp.
  destruct (handleActiveTab_recover_cases windows_get windowId clk m st)
    as [H | (_ & _ & c & H)]; rewrite H; [exact Hp |].
  cbn [fst set_lastFocusedWindowId pendingWrite].
  apply endSession_persist_pending. exact Hp.
Qed.

Lemma handleActiveTab_recover_active (windows_get : Z -> bool)
  (windowId : option Z) (clk : Clock) (w : World) :
  lastDomain (fst w) <> None ->
  handleActiveTab_recover windows_get windowId clk w = w.
Proof.
  destruct w as [m st]. cbn [fst]. intros Hd.
  destruct (handleActiveTab_recover_cases windows_get windowId clk m st)
    as [H | (_ & Hnone & _)]; [exact H | contradiction].
Qed.

Lemma handleActiveTab_window_focus (windowId : option Z) (clk : Clock)
  (w : World) :
  lastFocusedWindowId (fst (handleActiveTab_window windowId clk w)) = windowId.
Proof.
  unfold handleActiveTab_window.
  destruct (bool_decide (windowId = lastFocusedWindowId (fst w))) eqn:E;
    cbn [negb].
  - apply bool_decide_eq_true in E.
    destruct (_ && _ && _); [| symmetry; exact E].
    destruct (stopTracking_await clk w). reflexivity.
  - destruct (stopTracking_await clk w). reflexivity.
Qed.

Lemma handleActiveTab_window_settings (windowId : option Z) (clk : Clock)
  (w : World) :
  settings (snd (handleActiveTab_window windowId clk w)) = settings (snd w).
Proof.
  unfold handleActiveTab_window.
  pose proof (stopTracking_await_settings clk w) as H.
  destruct (negb _); [destruct (stopTracking_await clk w); exact H |].
  destruct (_ && _ && _); [destruct (stopTracking_await clk w); exact H |].
  reflexivity.
Qed.

Lemma handleActiveTab_window_pending (windowId : option Z) (clk : Clock)
  (w : World) :
  mem_wf (fst w) -> pendingWrite (fst w) = None ->
  pendingWrite (fst (handleActiveTab_window windowId clk w)) = None.
Proof.
  intros Hwf Hp. unfold handleActiveTab_window.
  destruct w as [m st]. cbn [fst] in *.
  pose proof (stopTracking_await_clears clk m st Hwf Hp) as Hc. cbv zeta in Hc.
  destruct Hc as (_ & _ & _ & _ & Hc).
  destruct (negb _); [destruct (stopTracking_await clk (m, st)); exact Hc |].
  destruct (_ && _ && _); [destruct (stopTracking_await clk (m, st)); exact Hc |].
  exact Hp.
Qed.

(** X7. When the activated tab can be read and its URL classifies to a
    hostname that is trackable, [handleActiveTab] always ends with the
    tracker on that hostname, in that tab, with the handled window as the
    focused one, whatever the state before. *)
Theorem handleActiveTab_tracks_active_tab (br : Chrome) (tid : Z)
  (windowId : option Z) (rd : Readings) (w : World) (tab : Tab) (h : string)
  (cfg : Settings) :
  chrome_tabs_get br tid = Some tab ->
  hostname_of_tab_url br (tab_url tab) = Some h ->
  getSettings (settings (snd w)) = Some cfg ->
  shouldTrack h (excludeDomains cfg) = true ->
  let w' := handleActiveTab br (Some tid) windowId rd w in
  lastDomain (fst w') = Some h
  /\ lastTabId (fst w') = Some tid
  /\ lastFocusedWindowId (fst w') = windowId.
Proof.
  intros Htab Hhost Hcfg Htrack. cbv zeta. unfold handleActiveTab.
  set (w1 := handleActiveTab_recover (chrome_windows_get br) windowId
              (rd AtRecovery) w).
  pose proof (handleActiveTab_window_focus windowId (rd AtWindowStop) w1) as Hfocus.
  pose proof (handleActiveTab_window_settings windowId (rd AtWindowStop) w1) as Hset.
  unfold w1 in Hset at 2. rewrite handleActiveTab_recover_settings in Hset.
  set (w2 := handleActiveTab_window windowId (rd AtWindowStop) w1) in *.
  clearbody w2. clear w1.
  unfold handleActiveTab_tab. rewrite Htab. cbv zeta. rewrite Hhost.
  destruct (negb (bool_decide (Some tid = lastTabId (fst w2)))
            && bool_decide (lastDomain (fst w2) <> None)
            && _) eqn:Hshort.
  - apply andb_true_iff in Hshort. destruct Hshort as [_ Hsame].
    apply orb_true_iff in Hsame. destruct Hsame as [Hsame | Hsame].
    + apply bool_decide_eq_true in Hsame. cbn [fst].
      split; [symmetry; exact Hsame |]. split; [reflexivity | exact Hfocus].
    + apply andb_true_iff in Hsame. destruct Hsame as [Hsame _].
      apply bool_decide_eq_true in Hsame. discriminate Hsame.
  - clear Hshort.
    match goal with
    | |- context [startTracking _ _ _ _ ?x] => set (w3 := x)
    end.
    assert (H3 : lastFocusedWindowId (fst w3) = windowId
                 /\ settings (snd w3) = settings (snd w)).
    { subst w3. destruct (negb _); [| split; assumption].
      destruct (stopTracking_await_frame (rd AtTabStop) w2) as (Hf & _).
      split; [rewrite Hf; exact Hfocus |].
      rewrite stopTracking_await_settings. exact Hset. }
    clearbody w3. destruct H3 as [Hf3 Hs3].
    rewrite bool_decide_eq_true_2 by exact Hf3.
    destruct w3 as [m3 st3]. cbn [fst snd] in *.
    rewrite <- Hs3 in Hcfg.
    pose proof (startTracking_success (chrome_tabs_get br) h (Some tid)
                  (rd AtStart) m3 st3 cfg Hcfg Htrack) as Hs.
    pose proof (startTracking_mem (chrome_tabs_get br) h (Some tid)
                  (rd AtStart) m3 st3 cfg Hcfg Htrack) as Hm.
    cbv zeta in Hs, Hm.
    destruct Hs as (Hd & _ & _ & Ht & _). destruct Hm as (_ & Hfoc & _).
    split; [exact Hd |]. split; [exact Ht |]. rewrite Hfoc. exact Hf3.
Qed.

Lemma handleActiveTab_tracks_active_tab_witness :
  let br :=
    {| chrome_URL := basic_URL_hostname;
       chrome_tabs_get :=
         fun _ => Some {| tab_url := Some "https://www.github.com/foo";
                          tab_incognito := false; tab_windowId := 3 |};
       chrome_windows_get := fun _ => true;
       chrome_windows_getLastFocused := Some (Some 3);
       chrome_tabs_query := fun _ => None;
       chrome_tabs_query_current := None |} in
  let w' := handleActiveTab br (Some 9) (Some 3) (always (at_time 1040000))
              started in
  lastDomain (fst w') = Some "github.com"
  /\ lastTabId (fst w') = Some 9
  /\ lastFocusedWindowId (fst w') = Some 3
  /\ timeline_at (snd w') "2025-02-13" =
     [{| blk_start := 1000000; blk_end := 1040000; blk_domain := "example.com" |}].
Proof.
  cbv zeta.
  pose proof (handleActiveTab_tracks_active_tab
                {| chrome_URL := basic_URL_hostname;
                   chrome_tabs_get :=
                     fun _ => Some {| tab_url := Some "https://www.github.com/foo";
                                      tab_incognito := false; tab_windowId := 3 |};
                   chrome_windows_get := fun _ => true;
                   chrome_windows_getLastFocused := Some (Some 3);
                   chrome_tabs_query := fun _ => None;
                   chrome_tabs_query_current := None |}
                9 (Some 3) (always (at_time 1040000)) started
                {| tab_url := Some "https://www.github.com/foo";
                   tab_incognito := false; tab_windowId := 3 |}
                "github.com" default_settings
                eq_refl eq_refl eq_refl eq_refl) as H.
  cbv zeta in H. destruct H as (Hd & Ht & Hf).
  split; [exact Hd |]. split; [exact Ht |]. split; [exact Hf |]. reflexivity.
Defined.

Lemma hostname_of_loading_url (br : Chrome) (url : option string) :
  url = None \/ url = Some "" \/ url = Some "about:blank" ->
  hostname_of_tab_url br url = None
  /\ (String.eqb (default "" url) "" || String.eqb (default "" url) "about:blank")
     = true.
Proof.
  intros [-> | [-> | ->]]; split; reflexivity.
Qed.

(** X8. While a session is running in the focused window, activating
    another tab that shows the same site, or a tab that has no URL yet (or
    [about:blank]), continues the session: only the tracked tab id changes;
    start, flush mark, storage and timeline stay as they are. *)
Theorem handleActiveTab_same_site_continues (br : Chrome) (tid : Z)
  (windowId : option Z) (rd : Readings) (m : Mem) (st : Storage) (d : string)
  (tab : Tab) :
  lastDomain m = Some d ->
  lastTabId m <> Some tid ->
  lastFocusedWindowId m = windowId ->
  lastTrackedWindowId m = None \/ lastTrackedWindowId m = windowId ->
  chrome_tabs_get br tid = Some tab ->
  hostname_of_tab_url br (tab_url tab) = Some d
  \/ tab_url tab = None \/ tab_url tab = Some "" \/ tab_url tab = Some "about:blank" ->
  handleActiveTab br (Some tid) windowId rd (m, st)
  = (set_lastTabId (Some tid) m, st).
Proof.
  intros Hd Ht Hfocus Htracked Htab Hurl. unfold handleActiveTab.
  rewrite handleActiveTab_recover_active by (cbn [fst]; congruence).
  assert (Hwin : handleActiveTab_window windowId (rd AtWindowStop) (m, st)
                 = (m, st)).
  { unfold handleActiveTab_window. cbn [fst].
    rewrite bool_decide_eq_true_2 by (symmetry; exact Hfocus). cbn [negb].
    destruct Htracked as [Hn | Hs].
    - rewrite (bool_decide_eq_false_2 (lastTrackedWindowId m <> None))
        by (rewrite Hn; intros H; apply H; reflexivity).
      rewrite andb_false_r. reflexivity.
    - rewrite (bool_decide_eq_true_2 (windowId = lastTrackedWindowId m))
        by (symmetry; exact Hs).
      cbn [negb]. rewrite andb_false_r. reflexivity. }
  rewrite Hwin. unfold handleActiveTab_tab. rewrite Htab. cbv zeta. cbn [fst snd].
  rewrite (bool_decide_eq_false_2 (Some tid = lastTabId m)) by congruence.
  rewrite (bool_decide_eq_true_2 (lastDomain m <> None)) by congruence.
  cbn [negb andb].
  destruct Hurl as [Hsame | Hload].
  - rewrite Hsame, Hd. rewrite bool_decide_eq_true_2 by reflexivity. reflexivity.
  - destruct (hostname_of_loading_url br (tab_url tab) Hload) as [Hnone Hl].
    rewrite Hnone, Hl. rewrite (bool_decide_eq_true_2 (None = None)) by reflexivity.
    rewrite andb_true_r, orb_true_r. reflexivity.
Qed.

Lemma handleActiveTab_same_site_continues_witness :
  let br :=
    {| chrome_URL := basic_URL_hostname;
       chrome_tabs_get :=
         fun _ => Some {| tab_url := Some "https://example.com/other";
                          tab_incognito := false; tab_windowId := 1 |};
       chrome_windows_get := fun _ => true;
       chrome_windows_getLastFocused := Some (Some 1);
       chrome_tabs_query := fun _ => None;
       chrome_tabs_query_current := None |} in
  let w := (set_lastFocusedWindowId (Some 1) (fst started), snd started) in
  handleActiveTab br (Some 8) (Some 1) (always (at_time 1040000)) w
  = (set_lastTabId (Some 8) (fst w), snd w).
Proof.
  cbv zeta.
  apply (handleActiveTab_same_site_continues _ 8 (Some 1)
           (always (at_time 1040000))
           _ _ "example.com"
           {| tab_url := Some "https://example.com/other";
              tab_incognito := false; tab_windowId := 1 |}).
  - reflexivity.
  - discriminate.
  - reflexivity.
  - right. reflexivity.
  - reflexivity.
  - left. reflexivity.
Defined.

Lemma handleActiveTab_tab_ends (br : Chrome) (tid : Z) (windowId : option Z)
  (rd : Readings) (w : World) :
  mem_wf (fst w) -> pendingWrite (fst w) = None ->
  lastFocusedWindowId (fst w) = windowId ->
  chrome_tabs_get br tid = None
  \/ (exists (tab : Tab) (url : string),
        chrome_tabs_get br tid = Some tab /\ tab_url tab = Some url
        /\ url <> "" /\ url <> "about:blank"
        /\ hostnameFromUrl (chrome_URL br) url = None) ->
  let w' := handleActiveTab_tab br (Some tid) windowId rd w in
  lastDomain (fst w') = None /\ lastStartTimestamp (fst w') = None
  /\ lastTabId (fst w') = None /\ pendingWrite (fst w') = None
  /\ currentSession (snd w') = None
  /\ lastFocusedWindowId (fst w') = windowId.
Proof.
  intros Hwf Hp Hfocus Hwhy. cbv zeta. unfold handleActiveTab_tab.
  assert (Hstop : forall (clk : Clock) (w0 : World),
             mem_wf (fst w0) -> pendingWrite (fst w0) = None ->
             lastFocusedWindowId (fst w0) = windowId ->
             let w' := clear_currentSession (stopTracking_await clk w0) in
             lastDomain (fst w') = None /\ lastStartTimestamp (fst w') = None
             /\ lastTabId (fst w') = None /\ pendingWrite (fst w') = None
             /\ currentSession (snd w') = None
             /\ lastFocusedWindowId (fst w') = windowId).
  { intros clk [m0 st0] Hwf0 Hp0 Hf0. cbv zeta. cbn [fst] in *.
    pose proof (stopTracking_await_clears clk m0 st0 Hwf0 Hp0) as Hc.
    destruct (stopTracking_await_frame clk (m0, st0)) as (Hf & _).
    cbv zeta in Hc. destruct Hc as (H1 & H2 & _ & H4 & H5).
    unfold clear_currentSession. cbn [fst snd].
    repeat split; try assumption. rewrite Hf. exact Hf0. }
  destruct Hwhy as [Hnone | (tab & url & Htab & Hurl & Hne & Hnb & Hhost)].
  - rewrite Hnone. apply Hstop; assumption.
  - rewrite Htab. cbv zeta. unfold hostname_of_tab_url. rewrite Hurl, Hhost.
    cbn [from_option id].
    apply String.eqb_neq in Hne. apply String.eqb_neq in Hnb.
    rewrite Hne, Hnb. cbn [orb]. rewrite andb_false_r, orb_false_r.
    destruct (bool_decide (Some tid = lastTabId (fst w))) eqn:Etab; cbn [negb andb].
    + apply Hstop; assumption.
    + destruct (bool_decide (lastDomain (fst w) <> None)) eqn:Edom; cbn [andb].
      * destruct (bool_decide (None = lastDomain (fst w))) eqn:Esame.
        -- apply bool_decide_eq_true in Esame. apply bool_decide_eq_true in Edom.
           congruence.
        -- destruct w as [m0 st0]. cbn [fst] in *.
           pose proof (stopTracking_await_clears (rd AtTabStop) m0 st0 Hwf Hp) as Hc.
           cbv zeta in Hc. destruct Hc as (H1 & H2 & H3 & H4 & H5).
           destruct (stopTracking_await_frame (rd AtTabStop) (m0, st0)) as (Hf & _).
           apply Hstop.
           ++ apply mem_wf_stopTracking_await. exact Hwf.
           ++ exact H5.
           ++ rewrite Hf. exact Hfocus.
      * destruct w as [m0 st0]. cbn [fst] in *.
        pose proof (stopTracking_await_clears (rd AtTabStop) m0 st0 Hwf Hp) as Hc.
        cbv zeta in Hc. destruct Hc as (H1 & H2 & H3 & H4 & H5).
        destruct (stopTracking_await_frame (rd AtTabStop) (m0, st0)) as (Hf & _).
        apply Hstop.
        -- apply mem_wf_stopTracking_await. exact Hwf.
        -- exact H5.
        -- rewrite Hf. exact Hfocus.
Qed.

(** X9. With consistent session variables and no stop pending: when the
    activated tab cannot be read, or shows a URL that is neither empty nor
    [about:blank] and classifies to no hostname (an internal page),
    [handleActiveTab] leaves no session in memory and no live indicator in
    storage, and the handled window is the focused one. *)
Theorem handleActiveTab_untrackable_ends (br : Chrome) (tid : Z)
  (windowId : option Z) (rd : Readings) (w : World) :
  mem_wf (fst w) -> pendingWrite (fst w) = None ->
  chrome_tabs_get br tid = None
  \/ (exists (tab : Tab) (url : string),
        chrome_tabs_get br tid = Some tab /\ tab_url tab = Some url
        /\ url <> "" /\ url <> "about:blank"
        /\ hostnameFromUrl (chrome_URL br) url = None) ->
  let w' := handleActiveTab br (Some tid) windowId rd w in
  lastDomain (fst w') = None /\ lastStartTimestamp (fst w') = None
  /\ lastTabId (fst w') = None /\ pendingWrite (fst w') = None
  /\ currentSession (snd w') = None
  /\ lastFocusedWindowId (fst w') = windowId.
Proof.
  intros Hwf Hp Hwhy. cbv zeta. unfold handleActiveTab.
  apply handleActiveTab_tab_ends.
  - apply mem_wf_handleActiveTab_window, mem_wf_recover, Hwf.
  - apply handleActiveTab_window_pending.
    + apply mem_wf_recover, Hwf.
    + apply handleActiveTab_recover_pending, Hp.
  - apply handleActiveTab_window_focus.
  - exact Hwhy.
Qed.

Lemma handleActiveTab_untrackable_ends_witness :
  let br :=
    {| chrome_URL := basic_URL_hostname;
       chrome_tabs_get :=
         fun _ => Some {| tab_url := Some "chrome://extensions";
                          tab_incognito := false; tab_windowId := 1 |};
       chrome_windows_get := fun _ => true;
       chrome_windows_getLastFocused := Some (Some 1);
       chrome_tabs_query := fun _ => None;
       chrome_tabs_query_current := None |} in
  let w' := handleActiveTab br (Some 8) (Some 1) (always (at_time 1040000))
              excluded in
  lastDomain (fst w') = None /\ currentSession (snd w') = None
  /\ days (snd w') = ∅.
Proof.
  cbv zeta.
  pose proof (handleActiveTab_untrackable_ends
                {| chrome_URL := basic_URL_hostname;
                   chrome_tabs_get :=
                     fun _ => Some {| tab_url := Some "chrome://extensions";
                                      tab_incognito := false; tab_windowId := 1 |};
                   chrome_windows_get := fun _ => true;
                   chrome_windows_getLastFocused := Some (Some 1);
                   chrome_tabs_query := fun _ => None;
                   chrome_tabs_query_current := None |}
                8 (Some 1) (always (at_time 1040000)) excluded) as H.
  cbv zeta in H.
  destruct H as (Hd & _ & _ & _ & Hcur & _).
  - split; cbn; [discriminate | intros _; split; discriminate].
  - reflexivity.
  - right. eexists. exists "chrome://extensions".
    split; [reflexivity |]. split; [reflexivity |].
    split; [discriminate |]. split; [discriminate | reflexivity].
  - split; [exact Hd |]. split; [exact Hcur | reflexivity].
Defined.

(** ** Idle, navigation, alarm and window removal *)





(** ** Switching sites *)

Lemma stopTracking_await_writes (clk : Clock) (m : Mem) (st : Storage)
  (d : string) (s : Z) (cfg : Settings) :
  lastDomain m = Some d -> lastStartTimestamp m = Some s ->
  pendingWrite m = None ->
  getSettings (settings st) = Some cfg ->
  shouldTrack d (excludeDomains cfg) = true ->
  persistable cfg (lastTabIncognito m) = true ->
  stopTracking_await clk (m, st) =
  (set_pendingWrite None (clear_session_end m),
   {| settings := settings st;
      days :=
        <[dateKey clk :=
            {| domains :=
                 store_ms (domains (day_of (days st) (dateKey clk))) d
                   (total_at st (dateKey clk) d
                    + Z.max 0 (roundMs (now clk - default s (lastPersistedAt m))
                                       (timeGranularityMs cfg)));
               timeline :=
                 timeline_at st (dateKey clk) ++
                   [{| blk_start := s; blk_end := now clk; blk_domain := d |}] |}]>
          (days st);
      currentSession := None;
      _pendingSession := None |}).
Proof.
  intros Hd Hs Hp Hset Htrack Hok.
  rewrite (stopTracking_await_active clk m st d s Hd Hs Hp). cbv zeta.
  unfold settle.
  rewrite (endSession_persist_eq
             {| c_domain := d; c_start := s;
                c_persistedAt := lastPersistedAt m;
                c_wasIncognito := lastTabIncognito m |}
             clk _ st cfg Hset Htrack Hok).
  reflexivity.
Qed.

(** What a stop followed by a start on another site leaves: the block of
    the old session, closed at the time [clk] that the stop read, and the
    new session, started at the time [clk2] that [startTracking] read. *)
Lemma stop_then_start (tabs_get : Z -> option Tab) (clk clk2 : Clock)
  (m m2 : Mem) (st : Storage) (d h : string) (s : Z) (tabId : option Z)
  (cfg : Settings) :
  lastDomain m = Some d -> lastStartTimestamp m = Some s ->
  pendingWrite m = None ->
  getSettings (settings st) = Some cfg ->
  shouldTrack d (excludeDomains cfg) = true ->
  persistable cfg (lastTabIncognito m) = true ->
  shouldTrack h (excludeDomains cfg) = true ->
  let w' := startTracking tabs_get h tabId clk2
              (m2, snd (stopTracking_await clk (m, st))) in
  timeline_at (snd w') (dateKey clk) =
    (timeline_at st (dateKey clk) ++
      [{| blk_start := s; blk_end := now clk; blk_domain := d |}])%list
  /\ (inherited d = false ->
      total_at (snd w') (dateKey clk) d =
      total_at st (dateKey clk) d
      + Z.max 0 (roundMs (now clk - default s (lastPersistedAt m))
                         (timeGranularityMs cfg)))
  /\ lastDomain (fst w') = Some h
  /\ lastStartTimestamp (fst w') = Some (now clk2)
  /\ lastTabId (fst w') = tabId
  /\ lastFocusedWindowId (fst w') = lastFocusedWindowId m2
  /\ currentSession (snd w') = Some {| cs_domain := h; cs_start := now clk2 |}.
Proof.
  intros Hd Hs Hp Hset Hd_ok Hp_ok Hh_ok w'.
  pose proof (stopTracking_await_counted clk m st d s cfg Hd Hs Hp Hset Hd_ok Hp_ok)
    as Hcount.
  pose proof (stopTracking_await_writes clk m st d s cfg Hd Hs Hp Hset Hd_ok Hp_ok)
    as Hstop.
  set (st1 := snd (stopTracking_await clk (m, st))) in *.
  assert (Hset1 : getSettings (settings st1) = Some cfg).
  { unfold st1. rewrite stopTracking_await_settings. exact Hset. }
  assert (Htl : timeline_at st1 (dateKey clk) =
                (timeline_at st (dateKey clk) ++
                  [{| blk_start := s; blk_end := now clk; blk_domain := d |}])%list).
  { unfold st1. rewrite Hstop. cbn [snd].
    erewrite timeline_at_days by (cbn [days]; reflexivity). reflexivity. }
  destruct (startTracking_success tabs_get h tabId clk2 m2 st1 cfg Hset1 Hh_ok)
    as (H1 & H2 & _ & H4 & H5 & _ & H7).
  destruct (startTracking_mem tabs_get h tabId clk2 m2 st1 cfg Hset1 Hh_ok)
    as (_ & Hf & _ & _).
  fold w' in H1, H2, H4, H5, H7, Hf.
  split; [| split; [| exact (conj H1 (conj H2 (conj H4 (conj Hf H5))))]].
  - rewrite (timeline_at_same_days st1 (snd w') (dateKey clk) H7). exact Htl.
  - intros Hown. unfold total_at. rewrite H7. exact (Hcount Hown).
Qed.

Lemma hostnameFromUrl_empty (U : string -> option string) :
  hostnameFromUrl U "" = None.
Proof. reflexivity. Qed.

(** X11. When the active tab of the focused window reports a new URL:
    a URL of the site being tracked in that tab changes nothing; a URL of
    another trackable site ends the running session with one block from
    its start to the time that the stop reads, counted as a stop counts it
    (for a domain whose name is not one that objects inherit), and starts
    the session of the new site in the same tab, at the time that
    [startTracking] reads after the stop has been awaited. *)
Theorem onTabUpdated_navigation (br : Chrome) (tabId : Z)
  (changed url h d : string) (rd : Readings) (m : Mem) (st : Storage)
  (active : TabRef) (s : Z) (cfg : Settings) :
  lastDomain m = Some d -> lastStartTimestamp m = Some s ->
  pendingWrite m = None -> lastTabId m = Some tabId ->
  chrome_tabs_query_current br = Some (Some active) ->
  ref_id active = Some tabId ->
  lastFocusedWindowId m = Some (ref_windowId active) ->
  hostnameFromUrl (chrome_URL br) url = Some h ->
  getSettings (settings st) = Some cfg ->
  shouldTrack d (excludeDomains cfg) = true ->
  persistable cfg (lastTabIncognito m) = true ->
  shouldTrack h (excludeDomains cfg) = true ->
  let w' := onTabUpdated br tabId (Some changed) (Some url) rd (m, st) in
  let stop := rd AtStop in
  let started := now (rd AtStart) in
  (h = d -> w' = (m, st))
  /\ (h <> d ->
      timeline_at (snd w') (dateKey stop) =
        (timeline_at st (dateKey stop) ++
          [{| blk_start := s; blk_end := now stop; blk_domain := d |}])%list
      /\ (inherited d = false ->
          total_at (snd w') (dateKey stop) d =
          total_at st (dateKey stop) d
          + Z.max 0 (roundMs (now stop - default s (lastPersistedAt m))
                             (timeGranularityMs cfg)))
      /\ lastDomain (fst w') = Some h
      /\ lastStartTimestamp (fst w') = Some started
      /\ lastTabId (fst w') = Some tabId
      /\ currentSession (snd w') = Some {| cs_domain := h; cs_start := started |}).
Proof.
  intros Hd Hs Hp Htab Hq Hid Hwin Hurl Hset Hd_ok Hp_ok Hh_ok w'. cbv zeta.
  assert (Hne : String.eqb url "" = false).
  { destruct (String.eqb url "") eqn:E; [| reflexivity].
    apply String.eqb_eq in E. subst url.
    rewrite hostnameFromUrl_empty in Hurl. discriminate. }
  assert (Hstep : w' =
    if bool_decide (Some h = lastDomain m) && bool_decide (Some tabId = lastTabId m)
    then (m, st)
    else startTracking (chrome_tabs_get br) h (Some tabId) (rd AtStart)
           (stopTracking_await (rd AtStop) (m, st))).
  { unfold w', onTabUpdated. rewrite Hq. cbn [fst snd].
    rewrite (bool_decide_eq_true_2 _ Hid). cbn [negb].
    rewrite (bool_decide_eq_true_2 _ (eq_sym Hwin)). cbn [negb].
    rewrite Hne, Hurl. reflexivity. }
  split.
  - intros ->. rewrite Hstep, Hd, Htab.
    rewrite !bool_decide_eq_true_2 by reflexivity. reflexivity.
  - intros Hdiff. rewrite Hstep, Hd.
    rewrite (bool_decide_eq_false_2 (Some h = Some d)) by congruence.
    cbn [andb].
    destruct (stopTracking_await (rd AtStop) (m, st)) as [m1 st1] eqn:Hstop.
    pose proof (stop_then_start (chrome_tabs_get br) (rd AtStop) (rd AtStart)
                  m m1 st d h s (Some tabId) cfg Hd Hs Hp Hset Hd_ok Hp_ok Hh_ok)
      as H.
    cbv zeta in H. rewrite Hstop in H. cbn [snd] in H.
    destruct H as (H1 & H2 & H3 & H4 & H5 & _ & H7).
    exact (conj H1 (conj H2 (conj H3 (conj H4 (conj H5 H7))))).
Qed.

Lemma onTabUpdated_navigation_witness :
  let br :=
    {| chrome_URL := basic_URL_hostname;
       chrome_tabs_get := regular_tabs;
       chrome_windows_get := fun _ => true;
       chrome_windows_getLastFocused := Some (Some 1);
       chrome_tabs_query := fun _ => Some (Some {| ref_id := Some 7; ref_windowId := 1 |});
       chrome_tabs_query_current := Some (Some {| ref_id := Some 7; ref_windowId := 1 |}) |} in
  let w0 := (set_lastFocusedWindowId (Some 1) (fst started), snd started) in
  let w' := onTabUpdated br 7 (Some "https://news.example.org/a")
              (Some "https://news.example.org/a")
              (end_then_start 1004200 1004215) w0 in
  timeline_at (snd w') "2025-02-13" =
    [{| blk_start := 1000000; blk_end := 1004200; blk_domain := "example.com" |}]
  /\ total_at (snd w') "2025-02-13" "example.com" = 4000
  /\ lastDomain (fst w') = Some "news.example.org"
  /\ lastStartTimestamp (fst w') = Some 1004215.
Proof.
  intros br w0 w'.
  destruct (onTabUpdated_navigation br 7 "https://news.example.org/a"
              "https://news.example.org/a" "news.example.org" "example.com"
              (end_then_start 1004200 1004215) (fst w0) (snd w0)
              {| ref_id := Some 7; ref_windowId := 1 |} 1000000 default_settings
              eq_refl eq_refl eq_refl eq_refl eq_refl eq_refl eq_refl eq_refl
              eq_refl eq_refl eq_refl eq_refl) as [_ H].
  destruct (H ltac:(discriminate)) as (H1 & H2 & H3 & H4 & _).
  exact (conj H1 (conj (H2 eq_refl) (conj H3 H4))).
Defined.

Lemma stopTracking_await_active_fst (clk : Clock) (m : Mem) (st : Storage)
  (d : string) (s : Z) :
  lastDomain m = Some d -> lastStartTimestamp m = Some s ->
  pendingWrite m = None ->
  fst (stopTracking_await clk (m, st)) = set_pendingWrite None (clear_session_end m).
Proof.
  intros Hd Hs Hp.
  rewrite (stopTracking_await_active clk m st d s Hd Hs Hp). cbv zeta.
  rewrite settle_fst. reflexivity.
Qed.

(** The state in which [handleActiveTab] reaches [startTracking] when the
    activated tab shows another site than the one being tracked. *)
Lemma handleActiveTab_switch_state (br : Chrome) (tid : Z)
  (windowId : option Z) (rd : Readings) (m : Mem) (st : Storage) (d h : string)
  (s : Z) (tab : Tab) :
  lastDomain m = Some d -> lastStartTimestamp m = Some s ->
  pendingWrite m = None -> lastTabId m <> Some tid ->
  chrome_tabs_get br tid = Some tab ->
  hostname_of_tab_url br (tab_url tab) = Some h -> h <> d ->
  exists m2 : Mem,
    lastFocusedWindowId m2 = windowId
    /\ handleActiveTab br (Some tid) windowId rd (m, st)
       = startTracking (chrome_tabs_get br) h (Some tid) (rd AtStart)
           (m2, snd (stopTracking_await (rd (stop_site windowId m)) (m, st))).
Proof.
  intros Hd Hs Hp Htid Htab Hhost Hdiff.
  unfold handleActiveTab.
  rewrite handleActiveTab_recover_active by (cbn [fst]; rewrite Hd; discriminate).
  assert (Hstopped : forall (clk : Clock) m1 st1,
    stopTracking_await clk (m, st) = (m1, st1) ->
    handleActiveTab_tab br (Some tid) windowId rd
      (set_lastFocusedWindowId windowId m1, st1)
    = startTracking (chrome_tabs_get br) h (Some tid) (rd AtStart)
        (set_lastFocusedWindowId windowId m1, st1)).
  { intros clk m1 st1 Hstop.
    pose proof (stopTracking_await_active_fst clk m st d s Hd Hs Hp) as Hfst.
    rewrite Hstop in Hfst. cbn [fst] in Hfst. subst m1.
    unfold handleActiveTab_tab. rewrite Htab. cbn [fst snd].
    rewrite Hhost.
    cbn [set_lastFocusedWindowId set_pendingWrite clear_session_end lastDomain
         lastTabId].
    rewrite (bool_decide_eq_false_2 (None <> None)) by (intros H; apply H; reflexivity).
    rewrite andb_false_r. cbn [andb].
    rewrite (bool_decide_eq_false_2 (Some tid = None)) by discriminate.
    cbn [negb].
    rewrite stopTracking_await_no_session by (left; reflexivity).
    cbn [fst lastFocusedWindowId].
    rewrite bool_decide_eq_true_2 by reflexivity. reflexivity. }
  unfold handleActiveTab_window, stop_site. cbn [fst].
  rewrite (bool_decide_eq_true_2 (lastDomain m <> None)) by congruence.
  cbn [andb].
  case_bool_decide as Hfocus; cbn [negb orb].
  - destruct (bool_decide (lastTrackedWindowId m <> None)
              && negb (bool_decide (windowId = lastTrackedWindowId m))).
    + destruct (stopTracking_await (rd AtWindowStop) (m, st)) as [m1 st1] eqn:Hstop.
      exists (set_lastFocusedWindowId windowId m1). split; [reflexivity |].
      cbn [snd]. apply (Hstopped (rd AtWindowStop)). exact Hstop.
    + destruct (stopTracking_await (rd AtTabStop) (m, st)) as [m1 st1] eqn:Hstop.
      exists m1. split.
      { pose proof (stopTracking_await_frame (rd AtTabStop) (m, st)) as Hfr.
        cbv zeta in Hfr.
        rewrite Hstop in Hfr. cbn [fst] in Hfr. destruct Hfr as [Hfr _].
        rewrite Hfr. symmetry. exact Hfocus. }
      unfold handleActiveTab_tab. rewrite Htab. cbn [fst snd]. rewrite Hhost, Hd.
      rewrite (bool_decide_eq_false_2 (Some tid = lastTabId m)) by congruence.
      cbn [negb andb].
      rewrite (bool_decide_eq_true_2 (Some d <> None)) by discriminate.
      rewrite (bool_decide_eq_false_2 (Some h = Some d)) by congruence.
      rewrite (bool_decide_eq_false_2 (Some h = None)) by discriminate.
      cbn [andb orb]. rewrite Hstop. cbn [fst].
      pose proof (stopTracking_await_frame (rd AtTabStop) (m, st)) as Hfr.
      cbv zeta in Hfr.
      rewrite Hstop in Hfr. cbn [fst] in Hfr. destruct Hfr as [Hfr _].
      rewrite Hfr. rewrite bool_decide_eq_true_2 by (symmetry; exact Hfocus).
      reflexivity.
  - destruct (stopTracking_await (rd AtWindowStop) (m, st)) as [m1 st1] eqn:Hstop.
    exists (set_lastFocusedWindowId windowId m1). split; [reflexivity |].
    cbn [snd]. apply (Hstopped (rd AtWindowStop)). exact Hstop.
Qed.

(** X12. When the activated tab shows a trackable site other than the one
    being tracked in another tab, [handleActiveTab] ends the running
    session with one block from its start to the time that its stop reads
    (the stop of the window block when the window changes too, the stop of
    the tab block otherwise), counted as a stop counts it (for a domain
    whose name is not one that objects inherit), and starts the session of
    the new site at the time that [startTracking] reads after that, with
    the handled window as the focused one. *)
Theorem handleActiveTab_switch_site (br : Chrome) (tid : Z)
  (windowId : option Z) (rd : Readings) (m : Mem) (st : Storage) (d h : string)
  (s : Z) (tab : Tab) (cfg : Settings) :
  lastDomain m = Some d -> lastStartTimestamp m = Some s ->
  pendingWrite m = None -> lastTabId m <> Some tid ->
  chrome_tabs_get br tid = Some tab ->
  hostname_of_tab_url br (tab_url tab) = Some h -> h <> d ->
  getSettings (settings st) = Some cfg ->
  shouldTrack d (excludeDomains cfg) = true ->
  persistable cfg (lastTabIncognito m) = true ->
  shouldTrack h (excludeDomains cfg) = true ->
  let w' := handleActiveTab br (Some tid) windowId rd (m, st) in
  let stop := rd (stop_site windowId m) in
  let started := now (rd AtStart) in
  timeline_at (snd w') (dateKey stop) =
    (timeline_at st (dateKey stop) ++
      [{| blk_start := s; blk_end := now stop; blk_domain := d |}])%list
  /\ (inherited d = false ->
      total_at (snd w') (dateKey stop) d =
      total_at st (dateKey stop) d
      + Z.max 0 (roundMs (now stop - default s (lastPersistedAt m))
                         (timeGranularityMs cfg)))
  /\ lastDomain (fst w') = Some h
  /\ lastStartTimestamp (fst w') = Some started
  /\ lastTabId (fst w') = Some tid
  /\ lastFocusedWindowId (fst w') = windowId
  /\ currentSession (snd w') = Some {| cs_domain := h; cs_start := started |}.
Proof.
  intros Hd Hs Hp Htid Htab Hhost Hdiff Hset Hd_ok Hp_ok Hh_ok w'. cbv zeta.
  destruct (handleActiveTab_switch_state br tid windowId rd m st d h s tab
              Hd Hs Hp Htid Htab Hhost Hdiff) as (m2 & Hfocus & Heq).
  pose proof (stop_then_start (chrome_tabs_get br) (rd (stop_site windowId m))
                (rd AtStart) m m2 st d h s
                (Some tid) cfg Hd Hs Hp Hset Hd_ok Hp_ok Hh_ok) as H.
  cbv zeta in H. rewrite <- Heq in H. fold w' in H.
  destruct H as (H1 & H2 & H3 & H4 & H5 & H6 & H7).
  rewrite Hfocus in H6.
  exact (conj H1 (conj H2 (conj H3 (conj H4 (conj H5 (conj H6 H7)))))).
Qed.

Lemma handleActiveTab_switch_site_witness :
  let br :=
    {| chrome_URL := basic_URL_hostname;
       chrome_tabs_get :=
         fun _ => Some {| tab_url := Some "https://www.rocq-prover.org/docs";
                          tab_incognito := false; tab_windowId := 2 |};
       chrome_windows_get := fun _ => true;
       chrome_windows_getLastFocused := Some (Some 2);
       chrome_tabs_query := fun _ => None;
       chrome_tabs_query_current := None |} in
  let w' := handleActiveTab br (Some 9) (Some 2)
              (end_then_start 1007500 1007530) started in
  timeline_at (snd w') "2025-02-13" =
    [{| blk_start := 1000000; blk_end := 1007500; blk_domain := "example.com" |}]
  /\ total_at (snd w') "2025-02-13" "example.com" = 7000
  /\ lastDomain (fst w') = Some "rocq-prover.org"
  /\ lastStartTimestamp (fst w') = Some 1007530
  /\ lastFocusedWindowId (fst w') = Some 2.
Proof.
  intros br w'.
  destruct (handleActiveTab_switch_site br 9 (Some 2)
              (end_then_start 1007500 1007530)
              (fst started) (snd started) "example.com" "rocq-prover.org"
              1000000
              {| tab_url := Some "https://www.rocq-prover.org/docs";
                 tab_incognito := false; tab_windowId := 2 |}
              default_settings
              eq_refl eq_refl eq_refl ltac:(discriminate) eq_refl eq_refl
              ltac:(discriminate) eq_refl eq_refl eq_refl eq_refl)
    as (H1 & H2 & H3 & H4 & _ & H6 & _).
  exact (conj H1 (conj (H2 eq_refl) (conj H3 (conj H4 H6)))).
Defined.

(** ** The periodic alarm *)

Lemma persistRunningTotal_keeps_tab (clk : Clock) (m : Mem) (st : Storage) :
  let m' := fst (persistRunningTotal clk (m, st)) in
  lastDomain m' = None
  \/ (lastTabId m' = lastTabId m
      /\ lastFocusedWindowId m' = lastFocusedWindowId m).
Proof.
  rewrite persistRunningTotal_unfold.
  destruct (lastDomain m) as [d |] eqn:Hd; [| right; split; reflexivity].
  destruct (lastStartTimestamp m) as [s |]; [| right; split; reflexivity].
  destruct (getSettings (settings st)) as [cfg |]; [| right; split; reflexivity].
  destruct (negb (shouldTrack d (excludeDomains cfg))); [left; reflexivity |].
  destruct (negb (keepIncognitoData cfg) && lastTabIncognito m);
    [right; split; reflexivity |].
  cbv zeta.
  destruct (_ <=? 0); right; split; reflexivity.
Qed.

Lemma reconcile_in_place (br : Chrome) (rd : Readings) (w : World) (t : Z) :
  lastTabId (fst w) = Some t ->
  chrome_windows_getLastFocused br = Some None
  \/ chrome_windows_getLastFocused br = Some (lastFocusedWindowId (fst w)) ->
  (exists tab : TabRef,
      chrome_tabs_query br (lastFocusedWindowId (fst w)) = Some (Some tab)
      /\ ref_id tab = Some t) ->
  reconcileWithCurrentTab br rd w = w.
Proof.
  intros Htab Hwin (tab & Hq & Hid).
  unfold reconcileWithCurrentTab.
  destruct (lastDomain (fst w)); [| reflexivity].
  assert (Hmoved :
    exists win, chrome_windows_getLastFocused br = Some win
      /\ match win with
         | Some wid =>
             if bool_decide (Some wid = lastFocusedWindowId (fst w))
             then None else Some wid
         | None => None
         end = None).
  { destruct Hwin as [H | H]; rewrite H.
    - exists None. split; reflexivity.
    - exists (lastFocusedWindowId (fst w)). split; [reflexivity |].
      destruct (lastFocusedWindowId (fst w)); [| reflexivity].
      rewrite bool_decide_eq_true_2 by reflexivity. reflexivity. }
  destruct Hmoved as (win & Hwin' & Hm). rewrite Hwin'. cbv zeta. rewrite Hm.
  rewrite Hq, Hid, Htab.
  rewrite (bool_decide_eq_true_2 (Some t <> None)) by discriminate.
  rewrite bool_decide_eq_true_2 by reflexivity. reflexivity.
Qed.

(** X13. The alarm listener ignores every alarm but [persist], and does
    nothing when no session is running. While the browser still shows the
    tracked tab as the active tab of the focused window, the [persist]
    alarm does exactly what the periodic flush does: the session is never
    cut by the alarm. *)
Theorem onAlarm_flushes_in_place (br : Chrome) (name : string) (rd : Readings)
  (m : Mem) (st : Storage) :
  (name <> ALARM_PERSIST -> onAlarm br name rd (m, st) = (m, st))
  /\ (lastDomain m = None -> onAlarm br name rd (m, st) = (m, st))
  /\ (forall t : Z,
        name = ALARM_PERSIST -> lastTabId m = Some t ->
        chrome_windows_getLastFocused br = Some None
        \/ chrome_windows_getLastFocused br = Some (lastFocusedWindowId m) ->
        (exists tab : TabRef,
            chrome_tabs_query br (lastFocusedWindowId m) = Some (Some tab)
            /\ ref_id tab = Some t) ->
        onAlarm br name rd (m, st) = persistRunningTotal (rd AtFlush) (m, st)).
Proof.
  split; [| split].
  - intros Hname. unfold onAlarm.
    destruct (String.eqb name ALARM_PERSIST) eqn:E; [| reflexivity].
    apply String.eqb_eq in E. contradiction.
  - intros Hd. unfold onAlarm.
    destruct (negb (String.eqb name ALARM_PERSIST)); [reflexivity |].
    rewrite persistRunningTotal_no_session by (left; exact Hd).
    unfold reconcileWithCurrentTab. cbn [fst]. rewrite Hd. reflexivity.
  - intros t -> Htab Hwin Hq. unfold onAlarm.
    rewrite String.eqb_refl. cbn [negb].
    destruct (persistRunningTotal_keeps_tab (rd AtFlush) m st) as [Hnone | [Ht Hf]].
    + unfold reconcileWithCurrentTab. rewrite Hnone. reflexivity.
    + apply (reconcile_in_place br rd _ t).
      * rewrite Ht. exact Htab.
      * rewrite Hf. exact Hwin.
      * rewrite Hf. exact Hq.
Qed.

Lemma onAlarm_flushes_in_place_witness :
  let br :=
    {| chrome_URL := basic_URL_hostname;
       chrome_tabs_get := regular_tabs;
       chrome_windows_get := fun _ => true;
       chrome_windows_getLastFocused := Some None;
       chrome_tabs_query := fun _ => Some (Some {| ref_id := Some 7; ref_windowId := 1 |});
       chrome_tabs_query_current := None |} in
  onAlarm br "reminder" (always (at_time 1030000)) started = started
  /\ onAlarm br "persist" (always (at_time 1030000)) started
     = persistRunningTotal (at_time 1030000) started.
Proof.
  intros br.
  destruct (onAlarm_flushes_in_place br "reminder" (always (at_time 1030000))
              (fst started) (snd started)) as [H1 _].
  destruct (onAlarm_flushes_in_place br "persist" (always (at_time 1030000))
              (fst started) (snd started)) as (_ & _ & H3).
  split.
  - apply H1. discriminate.
  - apply (H3 7); [reflexivity | reflexivity | left; reflexivity |].
    exists {| ref_id := Some 7; ref_windowId := 1 |}. split; reflexivity.
Defined.

(** ** Closing an incognito window *)

(** X14. Closing a window that holds no tracked incognito tab changes
    nothing. After a session has started in an incognito tab, closing the
    window of that tab ends the session and forgets the window; with
    [keepIncognitoData] off the day records are left exactly as they were
    before the session started, with it on the timeline gains the block of
    the session, from its start to the closing of the window. *)
Theorem incognito_window_closed (tabs_get : Z -> option Tab) (h : string)
  (tid : Z) (tab : Tab) (clk1 clk2 : Clock) (m : Mem) (st : Storage)
  (cfg : Settings) :
  getSettings (settings st) = Some cfg ->
  shouldTrack h (excludeDomains cfg) = true ->
  pendingWrite m = None ->
  tabs_get tid = Some tab -> tab_incognito tab = true -> tab_windowId tab <> 0 ->
  let w1 := startTracking tabs_get h (Some tid) clk1 (m, st) in
  let w2 := onWindowRemoved (tab_windowId tab) clk2 w1 in
  (forall (other : Z) (w : World),
      other ∉ incognitoWindowIds (fst w) -> onWindowRemoved other clk2 w = w)
  /\ tab_windowId tab ∈ incognitoWindowIds (fst w1)
  /\ lastDomain (fst w2) = None
  /\ (tab_windowId tab ∉ incognitoWindowIds (fst w2))
  /\ (keepIncognitoData cfg = false -> days (snd w2) = days st)
  /\ (keepIncognitoData cfg = true ->
      timeline_at (snd w2) (dateKey clk2) =
        (timeline_at st (dateKey clk2) ++
          [{| blk_start := now clk1; blk_end := now clk2; blk_domain := h |}])%list).
Proof.
  intros Hset Hh Hp Htab Hinc Hwid w1 w2.
  split.
  { intros other w Hnot. unfold onWindowRemoved.
    rewrite bool_decide_eq_false_2 by exact Hnot. reflexivity. }
  assert (Hw1 : w1 =
    ({| lastDomain := Some h;
        lastStartTimestamp := Some (now clk1);
        lastPersistedAt := Some (now clk1);
        lastTabId := Some tid;
        lastTabIncognito := true;
        lastFocusedWindowId := lastFocusedWindowId m;
        lastTrackedWindowId := Some (tab_windowId tab);
        incognitoWindowIds := {[tab_windowId tab]} ∪ incognitoWindowIds m;
        isIdle := isIdle m;
        pendingWrite := None |},
     {| settings := settings st;
        days := days st;
        currentSession := Some {| cs_domain := h; cs_start := now clk1 |};
        _pendingSession :=
          Some {| ps_domain := Some h;
                  ps_start := Some (now clk1);
                  ps_persistedAt := Some (now clk1);
                  ps_windowId := Some (tab_windowId tab);
                  ps_wasIncognito := Some true |} |})).
  { unfold w1, startTracking. rewrite Hset, Hh. cbn [negb].
    cbn [mbind option_bind]. rewrite Htab. cbn [fmap option_fmap option_map from_option id].
    rewrite Hinc, Hp.
    destruct (tab_windowId tab =? 0) eqn:E; [apply Z.eqb_eq in E; contradiction |].
    reflexivity. }
  set (m1 := fst w1). set (st1 := snd w1).
  assert (Hin : tab_windowId tab ∈ incognitoWindowIds m1).
  { unfold m1. rewrite Hw1. cbn [fst incognitoWindowIds]. set_solver. }
  split; [exact Hin |].
  set (m1' := set_incognitoWindowIds (incognitoWindowIds m1 ∖ {[tab_windowId tab]}) m1).
  assert (Hw2 : w2 = stopTracking_await clk2 (m1', st1)).
  { unfold w2, onWindowRemoved. fold m1 st1.
    rewrite bool_decide_eq_true_2 by exact Hin. cbv zeta. cbn [fst snd].
    fold m1'.
    assert (Hd : lastDomain m1' = Some h) by (unfold m1', m1; rewrite Hw1; reflexivity).
    assert (Ht : lastTrackedWindowId m1' = Some (tab_windowId tab))
      by (unfold m1', m1; rewrite Hw1; reflexivity).
    rewrite Hd, Ht.
    rewrite (bool_decide_eq_true_2 (Some h <> None)) by discriminate.
    rewrite (bool_decide_eq_true_2 (Some (tab_windowId tab) = Some (tab_windowId tab)))
      by reflexivity.
    rewrite orb_true_r. reflexivity. }
  assert (Hd : lastDomain m1' = Some h) by (unfold m1', m1; rewrite Hw1; reflexivity).
  assert (Hs : lastStartTimestamp m1' = Some (now clk1))
    by (unfold m1', m1; rewrite Hw1; reflexivity).
  assert (Hpa : lastPersistedAt m1' = Some (now clk1))
    by (unfold m1', m1; rewrite Hw1; reflexivity).
  assert (Hp1 : pendingWrite m1' = None)
    by (unfold m1', m1; rewrite Hw1; reflexivity).
  assert (Hi1 : lastTabIncognito m1' = true)
    by (unfold m1', m1; rewrite Hw1; reflexivity).
  assert (Hset1 : getSettings (settings st1) = Some cfg)
    by (unfold st1; rewrite Hw1; exact Hset).
  assert (Hdays1 : days st1 = days st) by (unfold st1; rewrite Hw1; reflexivity).
  pose proof (stopTracking_await_active_fst clk2 m1' st1 h (now clk1) Hd Hs Hp1)
    as Hfst.
  rewrite <- Hw2 in Hfst.
  split; [rewrite Hfst; reflexivity |].
  split.
  { rewrite Hfst.
    cbn [set_pendingWrite clear_session_end incognitoWindowIds].
    unfold m1'. cbn [set_incognitoWindowIds incognitoWindowIds].
    apply not_elem_of_difference. right. apply elem_of_singleton. reflexivity. }
  split.
  - intros Hkeep. rewrite Hw2.
    rewrite (stopTracking_await_discards clk2 m1' st1 h (now clk1) cfg Hd Hs Hp1 Hset1).
    + exact Hdays1.
    + right. unfold persistable. rewrite Hkeep, Hi1. reflexivity.
  - intros Hkeep. rewrite Hw2.
    rewrite (stopTracking_await_writes clk2 m1' st1 h (now clk1) cfg Hd Hs Hp1 Hset1 Hh).
    + cbn [snd]. erewrite timeline_at_days by (cbn [days]; reflexivity).
      cbn [timeline].
      rewrite (timeline_at_same_days st st1 (dateKey clk2) Hdays1). reflexivity.
    + unfold persistable. rewrite Hkeep. reflexivity.
Qed.

Lemma incognito_window_closed_witness :
  let w1 := started_incognito in
  let w2 := onWindowRemoved 5 (at_time 1090000) w1 in
  5 ∈ incognitoWindowIds (fst w1)
  /\ lastDomain (fst w2) = None
  /\ (5 ∉ incognitoWindowIds (fst w2))
  /\ days (snd w2) = ∅.
Proof.
  intros w1 w2.
  destruct (incognito_window_closed incognito_tabs "example.com" 7
              {| tab_url := Some "https://example.com/";
                 tab_incognito := true; tab_windowId := 5 |}
              (at_time 1000000) (at_time 1090000) fresh_mem
              (storage_with (settings_of [] 1000 false)) default_settings
              eq_refl eq_refl eq_refl eq_refl eq_refl ltac:(discriminate))
    as (_ & H2 & H3 & H4 & H5 & _).
  exact (conj H2 (conj H3 (conj H4 (H5 eq_refl)))).
Defined.

(** ** The live indicator after startup *)

Lemma endSession_persist_no_live (c : Claimed) (clk : Clock) (w : World) :
  currentSession (snd w) = None ->
  currentSession (snd (endSession_persist c clk w)) = None.
Proof.
  destruct w as [m st]. cbn [snd]. intros H. unfold endSession_persist.
  destruct (getSettings (settings st)) as [cfg |]; [| exact H].
  destruct (negb _); [exact H |].
  destruct (_ && _); [exact H | reflexivity].
Qed.

Lemma stopTracking_await_no_live (clk : Clock) (w : World) :
  currentSession (snd w) = None ->
  currentSession (snd (stopTracking_await clk w)) = None.
Proof.
  destruct w as [m st]. cbn [snd]. intros H.
  unfold stopTracking_await.
  destruct (stopTracking m) as [m1 [p |]]; [| exact H].
  unfold settle. destruct p as [c |]; [| exact H].
  pose proof (endSession_persist_no_live c clk (m1, st) H) as Hc.
  destruct (endSession_persist c clk (m1, st)). exact Hc.
Qed.

Lemma handleActiveTab_recover_no_live (windows_get : Z -> bool)
  (windowId : option Z) (clk : Clock) (w : World) :
  currentSession (snd w) = None ->
  currentSession (snd (handleActiveTab_recover windows_get windowId clk w)) = None.
Proof.
  destruct w as [m st]. cbn [snd]. intros H.
  destruct (handleActiveTab_recover_cases windows_get windowId clk m st)
    as [E | (_ & _ & c & E)]; rewrite E; [exact H |].
  cbn [snd set__pendingSession currentSession].
  apply (endSession_persist_no_live c clk (clear_session_end m, st) H).
Qed.

Lemma handleActiveTab_window_no_live (windowId : option Z) (clk : Clock)
  (w : World) :
  currentSession (snd w) = None ->
  currentSession (snd (handleActiveTab_window windowId clk w)) = None.
Proof.
  intros H. unfold handleActiveTab_window.
  pose proof (stopTracking_await_no_live clk w H) as Hs.
  destruct (negb _); [destruct (stopTracking_await clk w); exact Hs |].
  destruct (_ && _ && _); [destruct (stopTracking_await clk w); exact Hs |].
  exact H.
Qed.

Lemma no_live_matches (w : World) :
  currentSession (snd w) = None -> live_matches w.
Proof. intros H cs Hcs. rewrite H in Hcs. discriminate. Qed.

Lemma startTracking_live (tabs_get : Z -> option Tab) (hostname : string)
  (tabId : option Z) (clk : Clock) (w : World) :
  currentSession (snd w) = None ->
  live_matches (startTracking tabs_get hostname tabId clk w).
Proof.
  destruct w as [m st]. cbn [snd]. intros H. unfold startTracking.
  destruct (getSettings (settings st)) as [cfg |];
    [| apply no_live_matches; exact H].
  destruct (negb _); [apply no_live_matches; exact H |].
  intros cs Hcs. cbn [snd currentSession] in Hcs.
  injection Hcs as <-. split; reflexivity.
Qed.

Lemma handleActiveTab_tab_live (br : Chrome) (tabId windowId : option Z)
  (rd : Readings) (w : World) :
  currentSession (snd w) = None ->
  live_matches (handleActiveTab_tab br tabId windowId rd w).
Proof.
  intros H. unfold handleActiveTab_tab.
  destruct tabId as [tid |]; [| apply no_live_matches; exact H].
  destruct (chrome_tabs_get br tid) as [tab |];
    [| apply no_live_matches; reflexivity].
  cbv zeta.
  destruct (_ && _ && _); [apply no_live_matches; exact H |].
  set (w3 := if negb (bool_decide (Some tid = lastTabId (fst w)))
             then stopTracking_await (rd AtTabStop) w else w).
  assert (H3 : currentSession (snd w3) = None).
  { unfold w3. destruct (negb _); [apply stopTracking_await_no_live |]; exact H. }
  destruct (hostname_of_tab_url br (tab_url tab)) as [h |];
    [| apply no_live_matches; reflexivity].
  destruct (bool_decide (lastFocusedWindowId (fst w3) = windowId)).
  - apply startTracking_live. exact H3.
  - apply no_live_matches, stopTracking_await_no_live. exact H3.
Qed.

Lemma handleActiveTab_live (br : Chrome) (tabId windowId : option Z)
  (rd : Readings) (w : World) :
  currentSession (snd w) = None ->
  live_matches (handleActiveTab br tabId windowId rd w).
Proof.
  intros H. unfold handleActiveTab.
  apply handleActiveTab_tab_live, handleActiveTab_window_no_live,
    handleActiveTab_recover_no_live. exact H.
Qed.

Lemma resume_in_last_focused_live (br : Chrome) (rd : Readings) (w : World) :
  currentSession (snd w) = None ->
  live_matches (resume_in_last_focused br rd w).
Proof.
  intros H. unfold resume_in_last_focused.
  destruct (chrome_windows_getLastFocused br) as [[wid |] |];
    try (apply no_live_matches; exact H).
  unfold query_and_handle.
  destruct (chrome_tabs_query br (Some wid)) as [[tab |] |];
    try (apply no_live_matches; exact H).
  apply handleActiveTab_live. exact H.
Qed.

(** X15. After the startup listener has run, the live indicator in storage
    is never stale: a stored [currentSession] names exactly the domain and
    the start held in memory. When the browser reports no focused window,
    or no active tab in it, nothing is tracked and no indicator is
    stored, and the day records are left as they were. *)
Theorem onStartup_live_indicator (br : Chrome) (rd : Readings) (w : World) :
  let w' := onStartup br rd w in
  (forall cs : CurrentSession,
      currentSession (snd w') = Some cs ->
      lastDomain (fst w') = Some (cs_domain cs)
      /\ lastStartTimestamp (fst w') = Some (cs_start cs))
  /\ ((forall wid : Z, chrome_windows_getLastFocused br <> Some (Some wid))
      \/ (forall (wid : option Z) (tab : TabRef),
             chrome_tabs_query br wid <> Some (Some tab)) ->
      lastDomain (fst w') = None /\ lastTabId (fst w') = None
      /\ pendingWrite (fst w') = None
      /\ currentSession (snd w') = None
      /\ days (snd w') = days (snd w)).
Proof.
  intros w'. split.
  - apply (resume_in_last_focused_live br rd). reflexivity.
  - intros Hnone. unfold w', onStartup, resume_in_last_focused.
    destruct (chrome_windows_getLastFocused br) as [[wid |] |] eqn:Hwin;
      try (repeat split; reflexivity).
    destruct Hnone as [Hnone | Hnone]; [exfalso; apply (Hnone wid); reflexivity |].
    unfold query_and_handle.
    destruct (chrome_tabs_query br (Some wid)) as [[tab |] |] eqn:Hq;
      try (repeat split; reflexivity).
    exfalso. apply (Hnone (Some wid) tab). exact Hq.
Qed.


Lemma onStartup_live_indicator_witness :
  let br :=
    {| chrome_URL := basic_URL_hostname;
       chrome_tabs_get := regular_tabs;
       chrome_windows_get := fun _ => true;
       chrome_windows_getLastFocused := Some None;
       chrome_tabs_query := fun _ => None;
       chrome_tabs_query_current := None |} in
  let w' := onStartup br (always (at_time 2000000)) started in
  currentSession (snd started)
  = Some {| cs_domain := "example.com"; cs_start := 1000000 |}
  /\ currentSession (snd w') = None
  /\ lastDomain (fst w') = None
  /\ days (snd w') = days (snd started).
Proof.
  intros br w'.
  destruct (onStartup_live_indicator br (always (at_time 2000000)) started) as [_ H].
  assert (Hno : forall wid : Z, chrome_windows_getLastFocused br <> Some (Some wid)).
  { intros wid. unfold br. cbn [chrome_windows_getLastFocused]. discriminate. }
  destruct (H (or_introl Hno)) as (H1 & _ & _ & H4 & H5).
  split; [reflexivity |].
  split; [exact H4 |]. split; [exact H1 | exact H5].
Defined.

(** ** Sorting by a key *)

Lemma insert_by_perm {A : Type} (key : A -> Z) (a : A) (l : list A) :
  insert_by key a l ≡ₚ a :: l.
Proof.
  induction l as [| x rest IH]; cbn [insert_by]; [reflexivity |].
  destruct (key a <=? key x); [reflexivity |].
  rewrite IH. apply Permutation_swap.
Qed.

Lemma stable_sort_by_perm {A : Type} (key : A -> Z) (l : list A) :
  stable_sort_by key l ≡ₚ l.
Proof.
  induction l as [| x rest IH]; [reflexivity |].
  unfold stable_sort_by in *. cbn [foldr].
  rewrite insert_by_perm. rewrite IH. reflexivity.
Qed.

Lemma insert_by_sorted {A : Type} (key : A -> Z) (a : A) (l : list A) :
  StronglySorted (fun x y => key x <= key y) l ->
  StronglySorted (fun x y => key x <= key y) (insert_by key a l).
Proof.
  induction 1 as [| x rest Hs IH Hall]; cbn [insert_by].
  - constructor; constructor.
  - destruct (key a <=? key x) eqn:E.
    + apply Z.leb_le in E. constructor.
      * constructor; assumption.
      * constructor; [exact E |].
        eapply Forall_impl; [exact Hall |]. cbn. intros y Hy. lia.
    + apply Z.leb_gt in E. constructor; [exact IH |].
      rewrite insert_by_perm. constructor; [lia | exact Hall].
Qed.

Lemma stable_sort_by_sorted {A : Type} (key : A -> Z) (l : list A) :
  StronglySorted (fun x y => key x <= key y) (stable_sort_by key l).
Proof.
  induction l as [| x rest IH]; [constructor |].
  unfold stable_sort_by in *. cbn [foldr]. apply insert_by_sorted. exact IH.
Qed.

(** Sorting a list that is in order already changes nothing. *)
Lemma stable_sort_by_id {A : Type} (key : A -> Z) (l : list A) :
  Sorted (fun x y => key x <= key y) l -> stable_sort_by key l = l.
Proof.
  induction 1 as [| x rest Hs IH Hhd]; [reflexivity |].
  unfold stable_sort_by in *. cbn [foldr]. rewrite IH.
  destruct Hhd as [| y rest' Hxy]; [reflexivity |].
  cbn [insert_by]. apply Z.leb_le in Hxy. rewrite Hxy. reflexivity.
Qed.

(** ** Merging incognito data *)

Lemma merge_domains_lookup (regular incoming : gmap string Z) (d : string) :
  merge_domains regular incoming !! d =
  match incoming !! d with
  | Some ms => Some (default 0 (regular !! d) + ms)
  | None => regular !! d
  end.
Proof.
  unfold merge_domains.
  apply (map_fold_weak_ind
           (fun (r : gmap string Z) (m : gmap string Z) =>
              r !! d = match m !! d with
                       | Some ms => Some (default 0 (regular !! d) + ms)
                       | None => regular !! d
                       end)).
  - rewrite lookup_empty. reflexivity.
  - intros i x m r Hi IH.
    destruct (decide (i = d)) as [-> | Hne].
    + rewrite !lookup_insert_eq. rewrite IH, Hi. reflexivity.
    + rewrite !lookup_insert_ne by exact Hne. exact IH.
Qed.

Lemma merge_days_lookup (merge_timeline : list Block -> list Block -> list Block)
  (regularDays : gmap string Day) (incoming : gmap string SyncDay) (k : string) :
  merge_days merge_timeline regularDays (Some incoming) !! k =
  match incoming !! k with
  | Some incognitoDay =>
      Some (merge_day merge_timeline (day_of regularDays k) incognitoDay)
  | None => regularDays !! k
  end.
Proof.
  unfold merge_days.
  apply (map_fold_weak_ind
           (fun (r : gmap string Day) (m : gmap string SyncDay) =>
              r !! k = match m !! k with
                       | Some incognitoDay =>
                           Some (merge_day merge_timeline (day_of regularDays k)
                                   incognitoDay)
                       | None => regularDays !! k
                       end)).
  - rewrite lookup_empty. reflexivity.
  - intros i x m r Hi IH.
    destruct (decide (i = k)) as [-> | Hne].
    + rewrite !lookup_insert_eq. unfold day_of. rewrite IH, Hi. reflexivity.
    + rewrite !lookup_insert_ne by exact Hne. exact IH.
Qed.

(** What a merge leaves for one day. *)
Lemma merge_days_day (merge_timeline : list Block -> list Block -> list Block)
  (st : Storage) (incoming : gmap string SyncDay) (k d : string) :
  let st' := set_days (merge_days merge_timeline (days st) (Some incoming)) st in
  (incoming !! k = None -> days st' !! k = days st !! k)
  /\ (forall incognitoDay : SyncDay,
        incoming !! k = Some incognitoDay ->
        total_at st' k d =
          total_at st k d
          + default 0 (default ∅ (sync_domains incognitoDay) !! d)
        /\ timeline_at st' k =
           match sync_timeline incognitoDay with
           | Some tl => merge_timeline (timeline_at st k) tl
           | None => timeline_at st k
           end).
Proof.
  intros st'. unfold st', total_at, timeline_at, ms_of. cbn [set_days days].
  split.
  - intros Hk. rewrite merge_days_lookup, Hk. reflexivity.
  - intros incognitoDay Hk. unfold day_of at 1 3.
    rewrite merge_days_lookup, Hk. cbn [from_option id merge_day domains timeline].
    split; [| reflexivity].
    rewrite merge_domains_lookup.
    destruct (default ∅ (sync_domains incognitoDay) !! d) as [ms |];
      cbn [from_option id]; [reflexivity | lia].
Qed.



(** ** Block keys *)

Lemma pretty_N_char_no_dash (x : N) : Ascii.eqb (pretty_N_char x) "-" = false.
Proof. unfold pretty_N_char. repeat case_match; reflexivity. Qed.

Lemma pretty_N_go_no_dash (x : N) :
  forall s : string, no_dash s = true -> no_dash (pretty_N_go x s) = true.
Proof.
  induction (N.lt_wf_0 x) as [x _ IH]. intros s Hs.
  assert (x = 0 \/ 0 < x)%N as [-> | Hpos] by lia.
  - rewrite pretty_N_go_0. exact Hs.
  - rewrite pretty_N_go_step by exact Hpos. apply IH.
    + apply N.div_lt; [exact Hpos | reflexivity].
    + cbn [no_dash]. rewrite pretty_N_char_no_dash, Hs. reflexivity.
Qed.

Lemma pretty_N_go_nonempty (x : N) :
  forall s : string, s <> "" -> pretty_N_go x s <> "".
Proof.
  induction (N.lt_wf_0 x) as [x _ IH]. intros s Hs.
  assert (x = 0 \/ 0 < x)%N as [-> | Hpos] by lia.
  - rewrite pretty_N_go_0. exact Hs.
  - rewrite pretty_N_go_step by exact Hpos. apply IH.
    + apply N.div_lt; [exact Hpos | reflexivity].
    + discriminate.
Qed.

Lemma pretty_N_digits (x : N) : no_dash (pretty x) = true /\ pretty x <> "".
Proof.
  unfold pretty, pretty_N. destruct (decide (x = 0%N)) as [_ | Hne].
  - split; [reflexivity | discriminate].
  - split; [apply pretty_N_go_no_dash; reflexivity |].
    rewrite pretty_N_go_step by lia. apply pretty_N_go_nonempty. discriminate.
Qed.

(** The decimal form of an integer: a minus sign for a negative one, then
    digits. *)
Lemma pretty_Z_shape (z : Z) :
  exists body : string,
    no_dash body = true /\ body <> ""
    /\ pretty z = (if z <? 0 then "-" else "") +:+ body.
Proof.
  destruct z as [| p | p].
  - exists "0". repeat split. discriminate.
  - exists (pretty (N.pos p)). destruct (pretty_N_digits (N.pos p)) as [H1 H2].
    split; [exact H1 |]. split; [exact H2 | reflexivity].
  - exists (pretty (N.pos p)). destruct (pretty_N_digits (N.pos p)) as [H1 H2].
    split; [exact H1 |]. split; [exact H2 | reflexivity].
Qed.

Lemma append_nil (r : string) : "" +:+ r = r.
Proof. reflexivity. Qed.

Lemma append_cons (c : ascii) (l r : string) :
  String c l +:+ r = String c (l +:+ r).
Proof. reflexivity. Qed.

Lemma split_at_dash (l1 : string) :
  forall l2 r1 r2 : string,
    no_dash l1 = true -> no_dash l2 = true ->
    l1 +:+ "-" +:+ r1 = l2 +:+ "-" +:+ r2 -> l1 = l2 /\ r1 = r2.
Proof.
  induction l1 as [| c l1 IH]; intros [| c2 l2] r1 r2 H1 H2 Heq;
    rewrite ?append_cons, ?append_nil in Heq.
  - injection Heq as ->. split; reflexivity.
  - injection Heq as <- _. cbn in H2. discriminate.
  - injection Heq as -> _. cbn in H1. discriminate.
  - injection Heq as -> Heq.
    cbn [no_dash] in H1, H2.
    apply andb_true_iff in H1 as [_ H1]. apply andb_true_iff in H2 as [_ H2].
    destruct (IH l2 r1 r2 H1 H2 Heq) as [-> ->]. split; reflexivity.
Qed.

Lemma pretty_Z_then_dash (a a' : Z) (r r' : string) :
  pretty a +:+ "-" +:+ r = pretty a' +:+ "-" +:+ r' -> a = a' /\ r = r'.
Proof.
  destruct (pretty_Z_shape a) as (b & Hb & Hbne & Ha).
  destruct (pretty_Z_shape a') as (b' & Hb' & Hbne' & Ha').
  intros Heq.
  assert (Hbody : pretty a = pretty a' /\ r = r').
  { rewrite Ha, Ha' in Heq |- *.
    destruct (a <? 0), (a' <? 0);
      rewrite ?append_cons, ?append_nil in Heq |- *.
    - injection Heq as Heq.
      destruct (split_at_dash b b' r r' Hb Hb' Heq) as [-> ->].
      split; reflexivity.
    - destruct b' as [| c b']; [contradiction |].
      rewrite append_cons in Heq. injection Heq as <- _.
      cbn in Hb'. discriminate.
    - destruct b as [| c b]; [contradiction |].
      rewrite append_cons in Heq. injection Heq as -> _.
      cbn in Hb. discriminate.
    - destruct (split_at_dash b b' r r' Hb Hb' Heq) as [-> ->].
      split; reflexivity. }
  destruct Hbody as [Hp Hr]. split; [| exact Hr].
  apply (inj pretty). exact Hp.
Qed.

(** Two blocks have the same key only when they have the same start, end
    and domain. *)
Lemma block_key_inj (b b' : Block) : block_key b = block_key b' -> b = b'.
Proof.
  unfold block_key. intros Heq.
  apply pretty_Z_then_dash in Heq as [Hs Heq].
  apply pretty_Z_then_dash in Heq as [He Hd].
  destruct b, b'. cbn in *. subst. reflexivity.
Qed.

(** ** The map of blocks *)

Lemma map_has_iff (b : Block) (entries : list (string * Block)) :
  keyed entries ->
  map_has (block_key b) entries = true <-> b ∈ snd <$> entries.
Proof.
  intros Hk. unfold map_has. rewrite existsb_exists. split.
  - intros (e & Hin & He). apply String.eqb_eq in He.
    apply list_elem_of_In in Hin.
    unfold keyed in Hk. rewrite Forall_forall in Hk.
    apply list_elem_of_fmap. exists e. split; [| exact Hin].
    apply block_key_inj. rewrite He. apply Hk. exact Hin.
  - intros Hin. apply list_elem_of_fmap in Hin as (e & -> & Hin).
    exists e. split; [apply list_elem_of_In; exact Hin |].
    apply String.eqb_eq. symmetry.
    unfold keyed in Hk. rewrite Forall_forall in Hk. apply Hk. exact Hin.
Qed.

(** On a keyed map, [set] under the key of a block adds the block at the
    end when its key is new and changes nothing when it is not. *)
Lemma map_set_keyed (b : Block) (entries : list (string * Block)) :
  keyed entries ->
  map_set (block_key b) b entries =
  if map_has (block_key b) entries then entries
  else (entries ++ [(block_key b, b)])%list.
Proof.
  unfold map_has.
  induction entries as [| [k' v'] rest IH]; intros Hk; [reflexivity |].
  apply Forall_cons in Hk as [Hhead Hk]. cbn [fst snd] in Hhead.
  cbn [map_set existsb fst].
  destruct (String.eqb (block_key b) k') eqn:E.
  - apply String.eqb_eq in E. cbn [orb].
    assert (v' = b) as -> by (apply block_key_inj; congruence).
    rewrite E. reflexivity.
  - cbn [orb]. rewrite (IH Hk).
    destruct (existsb _ rest); reflexivity.
Qed.

(** One step of either loop over blocks, on a keyed map without repeated
    blocks. *)
Lemma add_block_step (b : Block) (entries : list (string * Block)) :
  keyed entries -> NoDup (snd <$> entries) ->
  let entries' :=
    if map_has (block_key b) entries then entries
    else (entries ++ [(block_key b, b)])%list in
  keyed entries' /\ NoDup (snd <$> entries')
  /\ (forall x : Block, x ∈ snd <$> entries' <-> x ∈ snd <$> entries \/ x = b)
  /\ (b ∈ snd <$> entries -> entries' = entries)
  /\ (b ∉ snd <$> entries -> entries' = (entries ++ [(block_key b, b)])%list).
Proof.
  intros Hk Hnd entries'. subst entries'.
  pose proof (map_has_iff b entries Hk) as Hhas.
  destruct (map_has (block_key b) entries).
  - assert (Hin : b ∈ snd <$> entries) by (apply Hhas; reflexivity).
    split; [exact Hk |]. split; [exact Hnd |].
    split; [| split; [reflexivity | intros Hn; contradiction]].
    intros x. split; [intros H; left; exact H |].
    intros [H | ->]; [exact H | exact Hin].
  - assert (Hnot : b ∉ snd <$> entries).
    { intros Hin. apply Hhas in Hin. discriminate. }
    split; [apply Forall_app; split; [exact Hk | repeat constructor] |].
    split.
    { rewrite fmap_app. apply NoDup_app. split; [exact Hnd |].
      split; [| apply NoDup_singleton].
      intros x Hx Hx'. cbn in Hx'. apply list_elem_of_singleton in Hx'.
      subst x. contradiction. }
    split; [| split; [intros Hin; contradiction | reflexivity]].
    intros x. rewrite fmap_app, elem_of_app. cbn.
    rewrite list_elem_of_singleton. reflexivity.
Qed.

Lemma fold_set_blocks (l : list Block) :
  forall entries : list (string * Block),
    keyed entries -> NoDup (snd <$> entries) ->
    let entries' :=
      fold_left (fun acc block => map_set (block_key block) block acc) l entries in
    keyed entries' /\ NoDup (snd <$> entries')
    /\ (forall x : Block, x ∈ snd <$> entries' <-> x ∈ snd <$> entries \/ x ∈ l)
    /\ (NoDup l -> (forall x : Block, x ∈ l -> x ∉ snd <$> entries) ->
        snd <$> entries' = ((snd <$> entries) ++ l)%list).
Proof.
  induction l as [| b l IH]; intros entries Hk Hnd; cbn [fold_left].
  - split; [exact Hk |]. split; [exact Hnd |]. split.
    + intros x. rewrite elem_of_nil. tauto.
    + intros _ _. rewrite app_nil_r. reflexivity.
  - rewrite (map_set_keyed b entries Hk).
    destruct (add_block_step b entries Hk Hnd) as (Hk1 & Hnd1 & Hin1 & _ & Hnew).
    cbv zeta in Hk1, Hnd1, Hin1, Hnew.
    destruct (IH _ Hk1 Hnd1) as (Hk2 & Hnd2 & Hin2 & Happ).
    cbv zeta in Hk2, Hnd2, Hin2, Happ.
    split; [exact Hk2 |]. split; [exact Hnd2 |]. split.
    + intros x. rewrite Hin2, Hin1, elem_of_cons. tauto.
    + intros Hnl Hfresh. apply NoDup_cons in Hnl as [Hb Hnl].
      assert (Hbn : b ∉ snd <$> entries) by (apply Hfresh; left).
      rewrite Happ.
      * rewrite (Hnew Hbn), fmap_app, <- app_assoc. reflexivity.
      * exact Hnl.
      * intros x Hx Hx'. apply Hin1 in Hx' as [Hx' | ->].
        -- apply (Hfresh x); [right; exact Hx | exact Hx'].
        -- contradiction.
Qed.

Lemma fold_add_blocks (l : list Block) :
  forall entries : list (string * Block),
    keyed entries -> NoDup (snd <$> entries) ->
    let entries' :=
      fold_left
        (fun acc block =>
           if map_has (block_key block) acc then acc
           else map_set (block_key block) block acc) l entries in
    keyed entries' /\ NoDup (snd <$> entries')
    /\ (forall x : Block, x ∈ snd <$> entries' <-> x ∈ snd <$> entries \/ x ∈ l)
    /\ ((forall x : Block, x ∈ l -> x ∈ snd <$> entries) -> entries' = entries).
Proof.
  induction l as [| b l IH]; intros entries Hk Hnd; cbn [fold_left].
  - split; [exact Hk |]. split; [exact Hnd |]. split.
    + intros x. rewrite elem_of_nil. tauto.
    + intros _. reflexivity.
  - assert (Hstep :
      (if map_has (block_key b) entries then entries
       else map_set (block_key b) b entries)
      = if map_has (block_key b) entries then entries
        else (entries ++ [(block_key b, b)])%list).
    { rewrite (map_set_keyed b entries Hk).
      destruct (map_has (block_key b) entries); reflexivity. }
    rewrite Hstep.
    destruct (add_block_step b entries Hk Hnd) as (Hk1 & Hnd1 & Hin1 & Hold & _).
    cbv zeta in Hk1, Hnd1, Hin1, Hold.
    destruct (IH _ Hk1 Hnd1) as (Hk2 & Hnd2 & Hin2 & Hsame).
    cbv zeta in Hk2, Hnd2, Hin2, Hsame.
    split; [exact Hk2 |]. split; [exact Hnd2 |]. split.
    + intros x. rewrite Hin2, Hin1, elem_of_cons. tauto.
    + intros Hall.
      assert (Hb : b ∈ snd <$> entries) by (apply Hall; left).
      rewrite Hsame.
      * apply Hold. exact Hb.
      * intros x Hx. apply Hin1. left. apply Hall. right. exact Hx.
Qed.

(** The merged timeline of the storage listener: the blocks of both
    timelines, each once, in order of start. *)
Lemma merge_timeline_dedupe_spec (regular incoming : list Block) :
  let merged := merge_timeline_dedupe regular incoming in
  NoDup merged
  /\ (forall b : Block, b ∈ merged <-> b ∈ regular \/ b ∈ incoming)
  /\ StronglySorted (fun a b => blk_start a <= blk_start b) merged.
Proof.
  intros merged. unfold merged, merge_timeline_dedupe.
  destruct (fold_set_blocks regular [] ltac:(constructor) ltac:(constructor))
    as (Hk1 & Hnd1 & Hin1 & _).
  cbv zeta in Hk1, Hnd1, Hin1.
  destruct (fold_add_blocks incoming _ Hk1 Hnd1) as (_ & Hnd2 & Hin2 & _).
  cbv zeta in Hnd2, Hin2.
  split; [| split].
  - rewrite stable_sort_by_perm. exact Hnd2.
  - intros b. rewrite stable_sort_by_perm, Hin2, Hin1.
    cbn. rewrite elem_of_nil. tauto.
  - apply stable_sort_by_sorted.
Qed.

(** Merging the same incoming timeline once more adds nothing. *)
Lemma merge_timeline_dedupe_again (regular incoming : list Block) :
  merge_timeline_dedupe (merge_timeline_dedupe regular incoming) incoming
  = merge_timeline_dedupe regular incoming.
Proof.
  destruct (merge_timeline_dedupe_spec regular incoming) as (Hnd & Hin & Hsorted).
  cbv zeta in Hnd, Hin, Hsorted.
  set (merged := merge_timeline_dedupe regular incoming) in *.
  unfold merge_timeline_dedupe at 1.
  destruct (fold_set_blocks merged [] ltac:(constructor) ltac:(constructor))
    as (Hk1 & Hnd1 & Hin1 & Happ).
  cbv zeta in Hk1, Hnd1, Hin1, Happ.
  destruct (fold_add_blocks incoming _ Hk1 Hnd1) as (_ & _ & _ & Hsame).
  cbv zeta in Hsame.
  rewrite Hsame.
  - rewrite Happ.
    + cbn. apply stable_sort_by_id. apply StronglySorted_Sorted. exact Hsorted.
    + exact Hnd.
    + intros x _ Hx. cbn in Hx. apply elem_of_nil in Hx. exact Hx.
  - intros x Hx. apply Hin1. right. apply Hin. right. exact Hx.
Qed.



(** X18. When two sync markers with increasing timestamps carry the same
    day data, the second delivery adds no block: the timeline of every
    carried day is the one the first delivery left. *)
Theorem onStorageChanged_redelivery (m1 m2 : SyncMarker)
  (incoming : gmap string SyncDay) (last : Z) (st : Storage) (k : string)
  (incognitoDay : SyncDay) :
  last < default 0 (marker_timestamp m1) ->
  default 0 (marker_timestamp m1) < default 0 (marker_timestamp m2) ->
  marker_data m1 = Some {| sync_days := Some incoming |} ->
  marker_data m2 = Some {| sync_days := Some incoming |} ->
  incoming !! k = Some incognitoDay ->
  let r1 := onStorageChanged "local" (Some m1) last st in
  let r2 := onStorageChanged "local" (Some m2) (fst r1) (snd r1) in
  fst r2 = default 0 (marker_timestamp m2)
  /\ timeline_at (snd r2) k = timeline_at (snd r1) k.
Proof.
  intros Hlt1 Hlt2 Hd1 Hd2 Hk r1 r2.
  assert (Hr1 : r1 = (default 0 (marker_timestamp m1),
                      set_days (merge_days merge_timeline_dedupe (days st)
                                  (Some incoming)) st)).
  { unfold r1, onStorageChanged. cbn [String.eqb Ascii.eqb Bool.eqb]. cbv zeta.
    rewrite (proj2 (Z.leb_gt _ _) Hlt1), Hd1. reflexivity. }
  assert (Hr2 : r2 = (default 0 (marker_timestamp m2),
                      set_days (merge_days merge_timeline_dedupe (days (snd r1))
                                  (Some incoming)) (snd r1))).
  { unfold r2, onStorageChanged. cbn [String.eqb Ascii.eqb Bool.eqb]. cbv zeta.
    rewrite Hr1 at 1. cbn [fst].
    rewrite (proj2 (Z.leb_gt _ _) Hlt2), Hd2. reflexivity. }
  split; [rewrite Hr2; reflexivity |].
  destruct (merge_days_day merge_timeline_dedupe st incoming k k) as [_ H1].
  destruct (H1 incognitoDay Hk) as [_ Htl1].
  destruct (merge_days_day merge_timeline_dedupe (snd r1) incoming k k) as [_ H2].
  destruct (H2 incognitoDay Hk) as [_ Htl2].
  rewrite Hr2. cbn [snd]. rewrite Htl2.
  destruct (sync_timeline incognitoDay) as [tl |]; [| reflexivity].
  rewrite Hr1. cbn [snd]. rewrite Htl1.
  apply merge_timeline_dedupe_again.
Qed.

Lemma onStorageChanged_redelivery_witness :
  let st := snd (stopTracking_await (at_time 1004200) started) in
  let incoming : gmap string SyncDay :=
    {[ "2025-02-13" :=
       {| sync_domains := Some {[ "example.com" := 3000 ]};
          sync_timeline :=
            Some [{| blk_start := 900000; blk_end := 903000;
                     blk_domain := "example.com" |}] |} ]} in
  let m1 := {| marker_data := Some {| sync_days := Some incoming |};
               marker_timestamp := Some 5 |} in
  let m2 := {| marker_data := Some {| sync_days := Some incoming |};
               marker_timestamp := Some 9 |} in
  let r1 := onStorageChanged "local" (Some m1) 0 st in
  let r2 := onStorageChanged "local" (Some m2) (fst r1) (snd r1) in
  fst r2 = 9
  /\ timeline_at (snd r2) "2025-02-13" = timeline_at (snd r1) "2025-02-13".
Proof.
  intros st incoming m1 m2 r1 r2.
  apply (onStorageChanged_redelivery m1 m2 incoming 0 st "2025-02-13"
           {| sync_domains := Some {[ "example.com" := 3000 ]};
              sync_timeline :=
                Some [{| blk_start := 900000; blk_end := 903000;
                         blk_domain := "example.com" |}] |});
    reflexivity.
Defined.

(** ** The timeline views of the popup *)

Lemma timeline_filter_stored (blocks : list Block) :
  timeline_filter (Some ((fun b => Some (raw_of b)) <$> blocks))
  = raw_of <$> blocks.
Proof.
  unfold timeline_filter. cbn [from_option id].
  induction blocks as [| b rest IH]; [reflexivity |].
  cbn. cbn in IH. rewrite IH. reflexivity.
Qed.

Lemma chronological_sorted_by_start (t : Z) (blocks : list Block) :
  chronological t blocks ->
  Sorted (fun x y => default 0 (raw_start x) <= default 0 (raw_start y))
    (raw_of <$> blocks).
Proof.
  intros [Hle Hsorted].
  induction Hsorted as [| b rest Hs IH Hall]; [constructor |].
  apply Forall_cons in Hle as [Hb Hle].
  cbn [fmap list_fmap]. constructor; [apply IH; exact Hle |].
  destruct rest as [| b2 rest]; [constructor |].
  apply Forall_cons in Hall as [Hb2 _].
  constructor. cbn. lia.
Qed.

Lemma StronglySorted_mono {A : Type} (R S : A -> A -> Prop) (l : list A) :
  (forall a b : A, R a b -> S a b) -> StronglySorted R l -> StronglySorted S l.
Proof.
  intros HRS. induction 1 as [| x rest Hs IH Hall]; constructor; [exact IH |].
  eapply Forall_impl; [exact Hall |]. intros y Hy. apply HRS. exact Hy.
Qed.

(** X19. Both timeline views of the popup keep exactly the entries that
    are not [null] and have a start or an end, each as often as it occurs;
    the chronological view lists them by start ascending, the newest-first
    view by start descending (a missing start counting 0). A timeline the
    tracker wrote over a run with a clock that does not go back is shown by
    the chronological view in the order it is stored. *)
Theorem popup_timeline_views (timeline : list (option RawBlock))
  (tabs_get : Z -> option Tab) (evs : list (Clock * TrackerOp)) (t : Z)
  (w : World) (key : string) :
  (forall rb : RawBlock,
      rb ∈ timeline_filter (Some timeline)
      <-> Some rb ∈ timeline /\ (raw_start rb <> None \/ raw_end rb <> None))
  /\ getTimelineSortedChronologically (Some timeline)
     ≡ₚ timeline_filter (Some timeline)
  /\ getTimelineNewestFirst (Some timeline) ≡ₚ timeline_filter (Some timeline)
  /\ StronglySorted
       (fun a b => default 0 (raw_start a) <= default 0 (raw_start b))
       (getTimelineSortedChronologically (Some timeline))
  /\ StronglySorted
       (fun a b => default 0 (raw_start b) <= default 0 (raw_start a))
       (getTimelineNewestFirst (Some timeline))
  /\ (tracker_inv t w -> nondecreasing t (fst <$> evs) ->
      let st' := snd (run tabs_get evs w) in
      getTimelineSortedChronologically (stored_timeline st' key)
      = raw_of <$> timeline_at st' key).
Proof.
  split; [| split; [| split; [| split; [| split]]]].
  - intros rb. unfold timeline_filter. cbn [from_option id].
    rewrite list_elem_of_omap. split.
    + intros ([rb' |] & Hin & Hsome); [| discriminate].
      destruct (bool_decide (raw_start rb' <> None)
                || bool_decide (raw_end rb' <> None)) eqn:E; [| discriminate].
      injection Hsome as ->. split; [exact Hin |].
      apply orb_true_iff in E as [E | E]; apply bool_decide_eq_true in E; tauto.
    + intros [Hin Hfield]. exists (Some rb). split; [exact Hin |].
      assert (E : bool_decide (raw_start rb <> None)
                  || bool_decide (raw_end rb <> None) = true).
      { apply orb_true_iff. destruct Hfield as [H | H]; [left | right];
          apply bool_decide_eq_true; exact H. }
      rewrite E. reflexivity.
  - apply stable_sort_by_perm.
  - apply stable_sort_by_perm.
  - apply stable_sort_by_sorted.
  - unfold getTimelineNewestFirst.
    eapply StronglySorted_mono; [| apply stable_sort_by_sorted].
    cbn. intros a b Hab. lia.
  - intros Hinv Hclk st'.
    destruct (run_inv tabs_get evs t w Hinv Hclk) as (t' & _ & _ & Hchron).
    unfold getTimelineSortedChronologically, stored_timeline.
    rewrite timeline_filter_stored.
    apply stable_sort_by_id.
    apply (chronological_sorted_by_start t'). apply Hchron.
Qed.

Lemma popup_timeline_views_witness :
  let evs :=
    [(at_time 100, OpStart "a.com" (Some 1));
     (at_time 4100, OpStop);
     (at_time 4100, OpStart "b.com" (Some 2));
     (at_time 6000, OpStop)] in
  let st' :=
    snd (run regular_tabs evs
           (fresh_mem, storage_with (settings_of [] 1000 false))) in
  getTimelineSortedChronologically (stored_timeline st' "2025-02-13")
  = raw_of <$> timeline_at st' "2025-02-13"
  /\ getTimelineNewestFirst (stored_timeline st' "2025-02-13")
     = [raw_of {| blk_start := 4100; blk_end := 6000; blk_domain := "b.com" |};
        raw_of {| blk_start := 100; blk_end := 4100; blk_domain := "a.com" |}].
Proof.
  intros evs st'.
  destruct (popup_timeline_views [] regular_tabs evs 0
              (fresh_mem, storage_with (settings_of [] 1000 false))
              "2025-02-13") as (_ & _ & _ & _ & _ & H).
  split.
  - apply H; [apply tracker_inv_fresh |].
    cbn. repeat split; lia.
  - vm_compute. reflexivity.
Defined.

(** ** Aggregating a timeline *)

Lemma duration_sum_snoc (blocks : list Block) (b : Block) :
  duration_sum (blocks ++ [b])%list = duration_sum blocks + duration b.
Proof.
  unfold duration_sum. induction blocks as [| x rest IH]; cbn [foldr app].
  - lia.
  - rewrite IH. lia.
Qed.


Lemma filter_snoc_domain (seen : list Block) (b : Block) (d : string) :
  filter (fun x => blk_domain x = d) (seen ++ [b])%list
  = (filter (fun x => blk_domain x = d) seen
     ++ if decide (blk_domain b = d) then [b] else [])%list.
Proof.
  rewrite filter_app. reflexivity.
Qed.





(** ** Saving the settings *)

Lemma assoc_set_field_eq (k : string) (v : JSVal) (fields : list (string * JSVal)) :
  assoc k (set_field k v fields) = Some v.
Proof.
  induction fields as [| [k' v'] rest IH]; cbn [set_field assoc].
  - rewrite String.eqb_refl. reflexivity.
  - destruct (String.eqb k k') eqn:E; cbn [assoc].
    + rewrite String.eqb_refl. reflexivity.
    + rewrite E. exact IH.
Qed.

Lemma assoc_set_field_ne (k k0 : string) (v : JSVal)
  (fields : list (string * JSVal)) :
  k <> k0 -> assoc k (set_field k0 v fields) = assoc k fields.
Proof.
  intros Hne. apply String.eqb_neq in Hne.
  induction fields as [| [k' v'] rest IH]; cbn [set_field assoc].
  - rewrite Hne. reflexivity.
  - destruct (String.eqb k0 k') eqn:E; cbn [assoc].
    + apply String.eqb_eq in E. subst k'. rewrite Hne. reflexivity.
    + rewrite IH. reflexivity.
Qed.

Lemma includes_strings (excl : list string) (d : string) :
  includes (JStr <$> excl) d = true <-> d ∈ excl.
Proof.
  unfold includes. rewrite existsb_exists. split.
  - intros (v & Hin & Hv). apply list_elem_of_In in Hin.
    apply list_elem_of_fmap in Hin as (s & -> & Hin).
    apply String.eqb_eq in Hv. subst s. exact Hin.
  - intros Hin. exists (JStr d). split.
    + apply list_elem_of_In, list_elem_of_fmap. exists d. split; [reflexivity | exact Hin].
    + apply String.eqb_refl.
Qed.

(** X21. What the settings dialog saves is what the tracker reads:
    [getSettings] on the saved object gives the saved exclusion list, the
    saved check box and the saved granularity, whatever was stored before.
    The saved granularity is the parsed number when that is at least 1000
    and 1000 otherwise, so it is never below 1000. A hostname is tracked
    under the saved list exactly when it is not empty and not in the list.
    Saving touches no day record and no session marker. *)
Theorem settingsSave_round_trip (excl : list string) (parsed : option Z)
  (themeSelect : string) (keep : bool) (st : Storage) :
  let st' := settingsSave excl parsed themeSelect keep st in
  exists g : Z,
    getSettings (settings st') =
      Some {| excludeDomains := JStr <$> excl;
              timeGranularityMs := g;
              keepIncognitoData := keep |}
    /\ 1000 <= g
    /\ (forall n : Z, parsed = Some n -> 1000 <= n -> g = n)
    /\ (forall n : Z, parsed = Some n -> n < 1000 -> g = 1000)
    /\ (parsed = None -> g = 1000)
    /\ (forall d : string,
          shouldTrack d (JStr <$> excl) = true <-> d <> "" /\ d ∉ excl)
    /\ days st' = days st
    /\ currentSession st' = currentSession st
    /\ _pendingSession st' = _pendingSession st.
Proof.
  intros st'.
  exists (Z.max 1000 (match parsed with
                      | Some n => if n =? 0 then 1000 else n
                      | None => 1000
                      end)).
  split.
  { unfold st', settingsSave. cbv zeta. cbn [set_settings settings].
    rewrite getSettings_fields. unfold stored_field.
    rewrite (assoc_set_field_ne "excludeDomains" "keepIncognitoData") by discriminate.
    rewrite (assoc_set_field_ne "excludeDomains" "theme") by discriminate.
    rewrite (assoc_set_field_ne "excludeDomains" "timeGranularityMs") by discriminate.
    rewrite assoc_set_field_eq.
    rewrite (assoc_set_field_ne "timeGranularityMs" "keepIncognitoData") by discriminate.
    rewrite (assoc_set_field_ne "timeGranularityMs" "theme") by discriminate.
    rewrite assoc_set_field_eq.
    rewrite assoc_set_field_eq.
    cbn [from_option id]. destruct keep; reflexivity. }
  split; [lia |].
  split.
  { intros n -> Hn. destruct (n =? 0) eqn:E; [apply Z.eqb_eq in E; lia | lia]. }
  split.
  { intros n -> Hn. destruct (n =? 0); lia. }
  split; [intros ->; reflexivity |].
  split.
  { intros d. unfold shouldTrack.
    destruct (String.eqb d "") eqn:E;
      [apply String.eqb_eq in E | apply String.eqb_neq in E].
    - split; [discriminate | intros [H _]; contradiction].
    - rewrite negb_true_iff. rewrite <- not_true_iff_false.
      rewrite includes_strings. tauto. }
  repeat split; reflexivity.
Qed.

Lemma settingsSave_round_trip_witness :
  let st' := settingsSave ["news.example.org"] (Some 250) "light" true
               (snd started) in
  getSettings (settings st') =
    Some {| excludeDomains := [JStr "news.example.org"];
            timeGranularityMs := 1000;
            keepIncognitoData := true |}
  /\ shouldTrack "news.example.org" [JStr "news.example.org"] = false
  /\ days st' = days (snd started).
Proof.
  intros st'.
  destruct (settingsSave_round_trip ["news.example.org"] (Some 250) "light" true
              (snd started)) as (g & Hget & _ & _ & Hsmall & _ & _ & Hdays & _).
  fold st' in Hget, Hdays.
  rewrite (Hsmall 250 eq_refl ltac:(lia)) in Hget.
  split; [exact Hget |]. split; [reflexivity | exact Hdays].
Defined.

(** ** Installation *)

Lemma startTracking_storage (tabs_get : Z -> option Tab) (hostname : string)
  (tabId : option Z) (clk : Clock) (w : World) :
  settings (snd (startTracking tabs_get hostname tabId clk w)) = settings (snd w)
  /\ days (snd (startTracking tabs_get hostname tabId clk w)) = days (snd w).
Proof.
  destruct w as [m st]. unfold startTracking. cbn [snd].
  destruct (getSettings (settings st)) as [cfg |]; [| split; reflexivity].
  destruct (negb _); split; reflexivity.
Qed.

(** What the first part of the listener leaves in [settings]. *)
Lemma onInstalled_storage (br : Chrome) (query_url : option string)
  (clk : Clock) (w : World) :
  let w' := onInstalled br query_url clk w in
  days (snd w') = days (snd w)
  /\ ((settings (snd w') = settings (snd w)
       /\ exists (fields : list (string * JSVal)) (n : Z),
            settings (snd w) = Some (JObj fields)
            /\ assoc "timeGranularityMs" fields = Some (JNum n))
      \/ (settings (snd w') =
            Some (JObj [("excludeDomains", JArr []);
                        ("timeGranularityMs", JNum DEFAULT_GRANULARITY_MS)])
          /\ forall (fields : list (string * JSVal)) (n : Z),
               settings (snd w) = Some (JObj fields) ->
               assoc "timeGranularityMs" fields <> Some (JNum n))).
Proof.
  intros w'. unfold w', onInstalled. cbv zeta.
  set (upd := negb (truthy (storage_get_settings (settings (snd w))))
              || negb (match get_prop (storage_get_settings (settings (snd w)))
                               "timeGranularityMs" with
                       | Some (JNum _) => true
                       | _ => false
                       end)).
  set (w1 := if upd
             then (fst w,
                   set_settings
                     (JObj [("excludeDomains", JArr []);
                            ("timeGranularityMs", JNum DEFAULT_GRANULARITY_MS)])
                     (snd w))
             else w).
  assert (Hrest : forall w1 : World,
    let w' := match chrome_windows_getLastFocused br with
              | Some (Some wid) =>
                  match chrome_tabs_query br (Some wid) with
                  | Some (Some tab) =>
                      match query_url ≫= hostnameFromUrl (chrome_URL br) with
                      | Some hostname =>
                          startTracking (chrome_tabs_get br) hostname (ref_id tab) clk
                            (set_lastFocusedWindowId (Some wid) (fst w1), snd w1)
                      | None => (set_lastFocusedWindowId (Some wid) (fst w1), snd w1)
                      end
                  | _ => (set_lastFocusedWindowId (Some wid) (fst w1), snd w1)
                  end
              | _ => w1
              end in
    settings (snd w') = settings (snd w1) /\ days (snd w') = days (snd w1)).
  { intros w0. cbv zeta.
    destruct (chrome_windows_getLastFocused br) as [[wid |] |];
      try (split; reflexivity).
    destruct (chrome_tabs_query br (Some wid)) as [[tab |] |];
      try (split; reflexivity).
    destruct (query_url ≫= hostnameFromUrl (chrome_URL br)) as [h |];
      [| split; reflexivity].
    apply (startTracking_storage (chrome_tabs_get br) h (ref_id tab) clk
             (set_lastFocusedWindowId (Some wid) (fst w0), snd w0)). }
  destruct (Hrest w1) as [Hs Hd]. cbv zeta in Hs, Hd.
  rewrite Hs, Hd. clear Hrest Hs Hd.
  assert (Hcases :
    (upd = false
     /\ exists (fields : list (string * JSVal)) (n : Z),
          settings (snd w) = Some (JObj fields)
          /\ assoc "timeGranularityMs" fields = Some (JNum n))
    \/ (upd = true
        /\ forall (fields : list (string * JSVal)) (n : Z),
             settings (snd w) = Some (JObj fields) ->
             assoc "timeGranularityMs" fields <> Some (JNum n))).
  { unfold upd, storage_get_settings.
    destruct (settings (snd w)) as [[| | b | n | s | l | fields] |];
      cbn [from_option id truthy get_prop negb orb];
      try (right; split; [try reflexivity; rewrite orb_true_r; reflexivity
                         | intros fs k Hfs; discriminate]).
    destruct (assoc "timeGranularityMs" fields) as [[| | b | n | s | l | fs'] |] eqn:Ha;
      cbn [from_option id negb];
      try (right; split; [reflexivity
                         | intros fs k Hfs; injection Hfs as <-; rewrite Ha;
                           discriminate]).
    left. split; [reflexivity |]. exists fields, n. split; [reflexivity | exact Ha]. }
  unfold w1.
  destruct Hcases as [[-> Hnum] | [-> Hnot]].
  - split; [reflexivity |]. left. split; [reflexivity | exact Hnum].
  - split; [reflexivity |]. right. split; [reflexivity | exact Hnot].
Qed.

(** X22. The install listener never touches the day records. Stored
    settings that are an object with a numeric [timeGranularityMs] are
    left as they are; any other stored value, or none, is replaced by the
    defaults, under which [getSettings] gives an empty exclusion list and
    a granularity of 1000. Either way the stored granularity is a number
    afterwards, so running the listener again changes no settings. When a
    focused window with an active tab on a trackable site is found, the
    session of that site starts in that tab. *)
Theorem onInstalled_settings (br : Chrome) (query_url : option string)
  (clk : Clock) (w : World) :
  let w' := onInstalled br query_url clk w in
  days (snd w') = days (snd w)
  /\ (forall (fields : list (string * JSVal)) (n : Z),
        settings (snd w) = Some (JObj fields) ->
        assoc "timeGranularityMs" fields = Some (JNum n) ->
        settings (snd w') = settings (snd w))
  /\ (settings (snd w') = settings (snd w)
      \/ getSettings (settings (snd w')) = Some default_settings)
  /\ (exists n : Z, stored_field (settings (snd w')) "timeGranularityMs" = JNum n)
  /\ (forall (br2 : Chrome) (url2 : option string) (clk2 : Clock),
        settings (snd (onInstalled br2 url2 clk2 w')) = settings (snd w'))
  /\ (forall (wid : Z) (tab : TabRef) (url h : string) (cfg : Settings),
        chrome_windows_getLastFocused br = Some (Some wid) ->
        chrome_tabs_query br (Some wid) = Some (Some tab) ->
        query_url = Some url ->
        hostnameFromUrl (chrome_URL br) url = Some h ->
        getSettings (settings (snd w')) = Some cfg ->
        shouldTrack h (excludeDomains cfg) = true ->
        lastDomain (fst w') = Some h
        /\ lastStartTimestamp (fst w') = Some (now clk)
        /\ lastTabId (fst w') = ref_id tab
        /\ lastFocusedWindowId (fst w') = Some wid
        /\ currentSession (snd w') = Some {| cs_domain := h; cs_start := now clk |}).
Proof.
  intros w'.
  destruct (onInstalled_storage br query_url clk w) as [Hdays Hset].
  fold w' in Hdays, Hset.
  assert (Hnum : exists (fields : list (string * JSVal)) (n : Z),
             settings (snd w') = Some (JObj fields)
             /\ assoc "timeGranularityMs" fields = Some (JNum n)).
  { destruct Hset as [[Heq (fields & n & Hf & Ha)] | [Heq _]].
    - exists fields, n. rewrite Heq. split; assumption.
    - exists [("excludeDomains", JArr []);
              ("timeGranularityMs", JNum DEFAULT_GRANULARITY_MS)],
             DEFAULT_GRANULARITY_MS.
      split; [exact Heq | reflexivity]. }
  split; [exact Hdays |]. split; [| split; [| split; [| split]]].
  - intros fields n Hf Ha.
    destruct Hset as [[Heq _] | [_ Hnot]]; [exact Heq |].
    exfalso. apply (Hnot fields n Hf Ha).
  - destruct Hset as [[Heq _] | [Heq _]]; [left; exact Heq | right].
    rewrite Heq. reflexivity.
  - destruct Hnum as (fields & n & Hf & Ha). exists n.
    rewrite Hf. unfold stored_field. rewrite Ha. reflexivity.
  - intros br2 url2 clk2.
    destruct (onInstalled_storage br2 url2 clk2 w') as [_ Hset2].
    cbv zeta in Hset2.
    destruct Hset2 as [[Heq _] | [_ Hnot]]; [exact Heq |].
    destruct Hnum as (fields & n & Hf & Ha).
    exfalso. apply (Hnot fields n Hf Ha).
  - intros wid tab url h cfg Hwin Hq Hurl Hhost Hcfg Htrack.
    assert (Hw' : exists w1 : World,
              settings (snd w1) = settings (snd w')
              /\ w' = startTracking (chrome_tabs_get br) h (ref_id tab) clk
                        (set_lastFocusedWindowId (Some wid) (fst w1), snd w1)).
    { unfold w', onInstalled. cbv zeta. rewrite Hwin, Hq, Hurl.
      cbn [mbind option_bind]. rewrite Hhost.
      eexists. split; [| reflexivity].
      match goal with
      | |- settings (snd ?w1) = settings (snd (startTracking ?g ?hh ?t ?c ?w2)) =>
          destruct (startTracking_storage g hh t c w2) as [Hs _];
          rewrite Hs; reflexivity
      end. }
    destruct Hw' as (w1 & Hs1 & Heq).
    assert (Hcfg1 : getSettings (settings (snd w1)) = Some cfg)
      by (rewrite Hs1; exact Hcfg).
    destruct (startTracking_success (chrome_tabs_get br) h (ref_id tab) clk
                (set_lastFocusedWindowId (Some wid) (fst w1)) (snd w1) cfg
                Hcfg1 Htrack) as (H1 & H2 & _ & H4 & H5 & _).
    destruct (startTracking_mem (chrome_tabs_get br) h (ref_id tab) clk
                (set_lastFocusedWindowId (Some wid) (fst w1)) (snd w1) cfg
                Hcfg1 Htrack) as (_ & Hf & _).
    rewrite <- Heq in H1, H2, H4, H5, Hf.
    exact (conj H1 (conj H2 (conj H4 (conj Hf H5)))).
Qed.

Lemma onInstalled_settings_witness :
  let br :=
    {| chrome_URL := basic_URL_hostname;
       chrome_tabs_get := regular_tabs;
       chrome_windows_get := fun _ => true;
       chrome_windows_getLastFocused := Some (Some 1);
       chrome_tabs_query := fun _ => Some (Some {| ref_id := Some 7; ref_windowId := 1 |});
       chrome_tabs_query_current := None |} in
  let st :=
    {| settings := None; days := ∅; currentSession := None;
       _pendingSession := None |} in
  let w' := onInstalled br (Some "https://www.example.com/") (at_time 1000000)
              (fresh_mem, st) in
  getSettings (settings (snd w')) = Some default_settings
  /\ lastDomain (fst w') = Some "example.com"
  /\ lastTabId (fst w') = Some 7
  /\ lastFocusedWindowId (fst w') = Some 1.
Proof.
  intros br st w'.
  destruct (onInstalled_settings br (Some "https://www.example.com/")
              (at_time 1000000) (fresh_mem, st)) as (_ & _ & _ & _ & _ & H).
  destruct (H 1 {| ref_id := Some 7; ref_windowId := 1 |}
              "https://www.example.com/" "example.com" default_settings
              eq_refl eq_refl eq_refl eq_refl eq_refl eq_refl)
    as (H1 & _ & H3 & H4 & _).
  split; [reflexivity |]. exact (conj H1 (conj H3 H4)).
Defined.

(** ** Time by tag *)

Lemma map_total_insert_new (m : gmap string Z) (k : string) (v : Z) :
  m !! k = None -> map_total (<[k := v]> m) = v + map_total m.
Proof.
  intros Hk. unfold map_total.
  rewrite map_fold_insert_L; [reflexivity | | exact Hk].
  intros. lia.
Qed.

Lemma map_total_insert (m : gmap string Z) (k : string) (v : Z) :
  map_total (<[k := v]> m) = v + map_total m - default 0 (m !! k).
Proof.
  destruct (m !! k) as [v0 |] eqn:Hk; cbn [from_option id].
  - rewrite <- (insert_delete_eq m k v).
    rewrite map_total_insert_new by apply lookup_delete_eq.
    rewrite <- (insert_delete_id m k v0 Hk) at 2.
    rewrite map_total_insert_new by apply lookup_delete_eq. lia.
  - rewrite map_total_insert_new by exact Hk. lia.
Qed.

Lemma map_total_add_tag (ms : Z) (tagMs : gmap string Z) (t : string) :
  map_total (add_ms ms tagMs t) = map_total tagMs + ms.
Proof. unfold add_ms. rewrite map_total_insert. lia. Qed.

Lemma map_total_add_tags (ms : Z) (tags : list string) :
  forall tagMs : gmap string Z,
    map_total (fold_left (add_ms ms) tags tagMs)
    = map_total tagMs + ms * Z.of_nat (length tags).
Proof.
  induction tags as [| t rest IH]; intros tagMs; cbn [fold_left length].
  - lia.
  - rewrite IH, map_total_add_tag. lia.
Qed.

Lemma add_ms_positive (ms : Z) (tagMs : gmap string Z) (t : string) :
  0 < ms ->
  map_Forall (fun _ v => 0 < v) tagMs ->
  map_Forall (fun _ v => 0 < v) (add_ms ms tagMs t).
Proof.
  intros Hms Hall. unfold add_ms. apply map_Forall_insert_2; [| exact Hall].
  destruct (tagMs !! t) as [v |] eqn:Ht; cbn [from_option id]; [| lia].
  specialize (Hall t v Ht). cbn in Hall. lia.
Qed.

Lemma add_ms_all_positive (ms : Z) (tags : list string) :
  0 < ms ->
  forall tagMs : gmap string Z,
    map_Forall (fun _ v => 0 < v) tagMs ->
    map_Forall (fun _ v => 0 < v) (fold_left (add_ms ms) tags tagMs).
Proof.
  intros Hms. induction tags as [| t rest IH]; intros tagMs Hall; cbn [fold_left].
  - exact Hall.
  - apply IH, add_ms_positive; assumption.
Qed.

Lemma tagged_total_single (domainTags : gmap string (list string))
  (domains : gmap string Z) :
  map_Forall (fun _ ms => 0 <= ms) domains ->
  map_Forall (fun _ tags => (length tags <= 1)%nat) domainTags ->
  tagged_total domains domainTags = map_total domains.
Proof.
  intros Hms Htags. revert Hms.
  induction domains as [| d ms m Hd _ IH] using map_first_key_ind.
  - intros _. reflexivity.
  - intros Hms.
    apply map_Forall_insert in Hms as [Hpos Hms]; [| exact Hd].
    unfold tagged_total. rewrite map_fold_insert_L; [| intros; lia | exact Hd].
    fold (tagged_total m domainTags). rewrite (IH Hms).
    rewrite map_total_insert_new by exact Hd.
    f_equal.
    destruct (ms <=? 0) eqn:E; [apply Z.leb_le in E; lia |].
    destruct (domainTags !! d) as [[| t ts] |] eqn:Ht; try lia.
    specialize (Htags d (t :: ts) Ht). cbn in Htags.
    destruct ts; cbn in *; lia.
Qed.

Lemma tag_times_total (domains : gmap string Z)
  (domainTags : gmap string (list string)) :
  map_total (tag_times domains domainTags) = tagged_total domains domainTags
  /\ map_Forall (fun _ v => 0 < v) (tag_times domains domainTags).
Proof.
  unfold tag_times.
  apply (map_fold_weak_ind
           (fun (r : gmap string Z) (m : gmap string Z) =>
              map_total r = tagged_total m domainTags
              /\ map_Forall (fun _ v => 0 < v) r)).
  - split; [reflexivity | apply map_Forall_empty].
  - intros d ms m r Hd [IH Hpos].
    unfold tagged_total. rewrite map_fold_insert_L; [| intros; lia | exact Hd].
    fold (tagged_total m domainTags).
    destruct (ms <=? 0) eqn:E; [split; [rewrite IH; lia | exact Hpos] |].
    apply Z.leb_gt in E.
    destruct (domainTags !! d) as [[| t ts] |].
    + split; [rewrite map_total_add_tag, IH; lia |].
      apply add_ms_positive; assumption.
    + split; [rewrite map_total_add_tags, IH; lia |].
      apply add_ms_all_positive; assumption.
    + split; [rewrite map_total_add_tag, IH; lia |].
      apply add_ms_positive; assumption.
Qed.

(** On an ordinary name the object [tagMs] holds numbers and is updated
    as a map of numbers is. *)
Lemma add_tag_ms_ordinary (ms : Z) (tagMs : gmap string Z) (t : string) :
  inherited t = false ->
  add_tag_ms ms (TagNum <$> tagMs) t = TagNum <$> add_ms ms tagMs t.
Proof.
  intros Ht. unfold add_tag_ms, add_ms. rewrite lookup_fmap, fmap_insert.
  destruct (tagMs !! t) as [n |]; cbn [fmap option_fmap option_map from_option id].
  - reflexivity.
  - rewrite Ht. reflexivity.
Qed.

Lemma add_tags_ms_ordinary (ms : Z) (tags : list string) :
  Forall (fun t => inherited t = false) tags ->
  forall tagMs : gmap string Z,
    fold_left (add_tag_ms ms) tags (TagNum <$> tagMs)
    = TagNum <$> fold_left (add_ms ms) tags tagMs.
Proof.
  induction 1 as [| t rest Ht _ IH]; intros tagMs; cbn [fold_left].
  - reflexivity.
  - rewrite add_tag_ms_ordinary by exact Ht. apply IH.
Qed.

Lemma computeTagMsFromDay_ordinary (domains : gmap string Z)
  (domainTags : gmap string (list string)) :
  ordinary_names domains domainTags ->
  computeTagMsFromDay domains domainTags
  = Some (TagNum <$> tag_times domains domainTags).
Proof.
  intros [Hdom Htags]. unfold computeTagMsFromDay, tag_times.
  induction domains as [| d ms m Hd Hfirst IH] using map_first_key_ind.
  - rewrite !map_fold_empty, fmap_empty. reflexivity.
  - apply map_Forall_insert in Hdom as [Hd_ok Hdom]; [| exact Hd].
    rewrite !(map_fold_insert_first_key _ _ m d ms Hd Hfirst).
    rewrite (IH Hdom). cbn [mbind option_bind].
    destruct (ms <=? 0); [reflexivity |].
    destruct (domainTags !! d) as [[| t ts] |] eqn:Ht.
    + rewrite add_tag_ms_ordinary by reflexivity. reflexivity.
    + rewrite add_tags_ms_ordinary by exact (Htags d (t :: ts) Ht). reflexivity.
    + destruct Hd_ok as [Hord | [tags Hsome]]; [| discriminate Hsome].
      rewrite Hord. cbn [andb].
      rewrite add_tag_ms_ordinary by reflexivity. reflexivity.
Qed.

(** When names like [constructor] occur, the result is no map of numbers:
    a tag of that name gets a string, and a domain of that name without
    tags makes the function throw. *)
Lemma computeTagMsFromDay_inherited_names :
  computeTagMsFromDay {[ "a.com" := 6000 ]} {[ "a.com" := ["constructor"] ]}
  = Some {[ "constructor" := TagStr ]}
  /\ computeTagMsFromDay {[ "a.com" := 6000 ]} {[ "a.com" := ["__proto__"] ]}
     = Some ∅
  /\ computeTagMsFromDay {[ "constructor" := 6000 ]} ∅ = None
  /\ computeTagMsFromDay {[ "toString" := 6000 ]} ∅
     = Some {[ "Untagged" := TagNum 6000 ]}.
Proof. repeat split; vm_compute; reflexivity. Qed.

(** X23. When no tag, and no domain that lacks tags, is named like a
    property that objects inherit, [computeTagMsFromDay] returns numbers
    only: they are all positive, and they add up to the time of every
    domain with a positive total, taken once per tag of the domain and
    once for a domain without tags. So when, besides, no domain has two
    tags (and no total is negative) the tags, [Untagged] included, share
    out exactly the total of the day. *)
Theorem computeTagMsFromDay_total (domains : gmap string Z)
  (domainTags : gmap string (list string)) :
  ordinary_names domains domainTags ->
  exists tagMs : gmap string Z,
    computeTagMsFromDay domains domainTags = Some (TagNum <$> tagMs)
    /\ map_total tagMs = tagged_total domains domainTags
    /\ (forall (t : string) (v : Z), tagMs !! t = Some v -> 0 < v)
    /\ (map_Forall (fun _ ms => 0 <= ms) domains ->
        map_Forall (fun _ tags => (length tags <= 1)%nat) domainTags ->
        map_total tagMs = map_total domains).
Proof.
  intros Hord. exists (tag_times domains domainTags).
  destruct (tag_times_total domains domainTags) as [Htot Hpos].
  split; [apply computeTagMsFromDay_ordinary; exact Hord |].
  split; [exact Htot |]. split.
  - intros t v Ht. apply (Hpos t v Ht).
  - intros Hms Htags. rewrite Htot. apply tagged_total_single; assumption.
Qed.

Lemma computeTagMsFromDay_total_witness :
  let domains : gmap string Z :=
    {[ "a.com" := 6000; "b.com" := 3000; "c.com" := 0 ]} in
  let domainTags : gmap string (list string) :=
    {[ "a.com" := ["Work"]; "c.com" := ["Social"] ]} in
  exists tagMs : gmap string Z,
    computeTagMsFromDay domains domainTags = Some (TagNum <$> tagMs)
    /\ map_total tagMs = map_total domains
    /\ computeTagMsFromDay domains domainTags
       = Some {[ "Work" := TagNum 6000; "Untagged" := TagNum 3000 ]}.
Proof.
  intros domains domainTags.
  destruct (computeTagMsFromDay_total domains domainTags)
    as (tagMs & Heq & _ & _ & H).
  - split.
    + unfold domains. intros d ms Hd. left.
      apply lookup_insert_Some in Hd as [[<- _] | [_ Hd]]; [reflexivity |].
      apply lookup_insert_Some in Hd as [[<- _] | [_ Hd]]; [reflexivity |].
      apply lookup_singleton_Some in Hd as [<- _]. reflexivity.
    + unfold domainTags. intros d ts Hd.
      apply lookup_insert_Some in Hd as [[_ <-] | [_ Hd]];
        [repeat constructor |].
      apply lookup_singleton_Some in Hd as [_ <-]. repeat constructor.
  - exists tagMs. split; [exact Heq |]. split.
    + apply H.
      * unfold domains. intros d ms Hd.
        apply lookup_insert_Some in Hd as [[_ <-] | [_ Hd]]; [lia |].
        apply lookup_insert_Some in Hd as [[_ <-] | [_ Hd]]; [lia |].
        apply lookup_singleton_Some in Hd as [_ <-]. lia.
      * unfold domainTags. intros d ts Hd.
        apply lookup_insert_Some in Hd as [[_ <-] | [_ Hd]]; [cbn; lia |].
        apply lookup_singleton_Some in Hd as [_ <-]. cbn. lia.
    + vm_compute. reflexivity.
Defined.

(** ** Closing the tracked tab *)

(** From a state without a session and without a pending marker,
    [handleActiveTab] writes no day record, and leaves either no session
    or one that starts now. *)
Lemma handleActiveTab_from_rest (br : Chrome) (tabId windowId : option Z)
  (rd : Readings) (w : World) :
  lastDomain (fst w) = None -> lastStartTimestamp (fst w) = None ->
  _pendingSession (snd w) = None ->
  let w' := handleActiveTab br tabId windowId rd w in
  days (snd w') = days (snd w)
  /\ (lastStartTimestamp (fst w') = None
      \/ lastStartTimestamp (fst w') = Some (now (rd AtStart))).
Proof.
  intros Hd Hs Hp w'. unfold w', handleActiveTab.
  assert (Hrec : handleActiveTab_recover (chrome_windows_get br) windowId
                   (rd AtRecovery) w = w).
  { destruct w as [m st]. cbn [fst snd] in *.
    unfold handleActiveTab_recover, handleActiveTab_recovery.
    rewrite Hp. destruct windowId; destruct (lastTabId m); rewrite ?Hd; reflexivity. }
  rewrite Hrec.
  assert (Hwin : exists m1 : Mem,
             handleActiveTab_window windowId (rd AtWindowStop) w = (m1, snd w)
             /\ lastDomain m1 = None /\ lastStartTimestamp m1 = None).
  { unfold handleActiveTab_window.
    rewrite (stopTracking_await_no_session (rd AtWindowStop) w)
      by (left; exact Hd).
    destruct w as [m st]. cbn [fst snd] in *.
    destruct (negb _);
      [exists (set_lastFocusedWindowId windowId m); repeat split; assumption |].
    destruct (_ && _ && _);
      [exists (set_lastFocusedWindowId windowId m) | exists m];
      repeat split; assumption. }
  destruct Hwin as (m1 & -> & Hd1 & Hs1).
  set (st := snd w).
  assert (Hstop : forall clk : Clock, stopTracking_await clk (m1, st) = (m1, st))
    by (intros clk; apply stopTracking_await_no_session; left; exact Hd1).
  unfold handleActiveTab_tab.
  destruct tabId as [tid |]; [| split; [reflexivity | left; exact Hs1]].
  destruct (chrome_tabs_get br tid) as [tab |].
  2: { rewrite Hstop. split; [reflexivity | left; exact Hs1]. }
  cbv zeta. cbn [fst snd]. rewrite Hd1.
  rewrite (bool_decide_eq_false_2 (None <> None)) by (intros H; apply H; reflexivity).
  rewrite andb_false_r. cbn [andb].
  assert (Hw3 : (if negb (bool_decide (Some tid = lastTabId m1))
                 then stopTracking_await (rd AtTabStop) (m1, st) else (m1, st))
                = (m1, st)).
  { destruct (negb _); [apply Hstop | reflexivity]. }
  rewrite Hw3. cbn [fst].
  destruct (hostname_of_tab_url br (tab_url tab)) as [h |].
  2: { rewrite Hstop. split; [reflexivity | left; exact Hs1]. }
  destruct (bool_decide (lastFocusedWindowId m1 = windowId)).
  2: { rewrite Hstop. split; [reflexivity | left; exact Hs1]. }
  destruct (startTracking_storage (chrome_tabs_get br) h (Some tid) (rd AtStart)
              (m1, st))
    as [_ Hdays].
  split; [exact Hdays |].
  unfold startTracking.
  destruct (getSettings (settings st)) as [cfg |]; [| left; exact Hs1].
  destruct (negb (shouldTrack h (excludeDomains cfg)));
    [left; exact Hs1 | right; reflexivity].
Qed.

(** X24. Closing a tab other than the tracked one changes nothing.
    Closing the tracked tab of a running session ends the session: the
    timeline gains one block from the session start to the time that the
    stop reads, the counter gains the rounded time since the last flush
    (for a domain whose name is not one that objects inherit), and
    whatever tab the browser reports as active next, no further day record
    is written and the session left in memory, if any, starts at the time
    that [startTracking] reads afterwards. *)
Theorem onTabRemoved_closes_block (br : Chrome) (tabId : Z) (rd : Readings)
  (m : Mem) (st : Storage) (d : string) (s : Z) (cfg : Settings) :
  (forall w : World,
      lastTabId (fst w) <> Some tabId -> onTabRemoved br tabId rd w = w)
  /\ (lastTabId m = Some tabId ->
      lastDomain m = Some d -> lastStartTimestamp m = Some s ->
      pendingWrite m = None ->
      getSettings (settings st) = Some cfg ->
      shouldTrack d (excludeDomains cfg) = true ->
      persistable cfg (lastTabIncognito m) = true ->
      let w' := onTabRemoved br tabId rd (m, st) in
      let stop := rd AtStop in
      days (snd w') = days (snd (stopTracking_await stop (m, st)))
      /\ timeline_at (snd w') (dateKey stop) =
         (timeline_at st (dateKey stop) ++
           [{| blk_start := s; blk_end := now stop; blk_domain := d |}])%list
      /\ (inherited d = false ->
          total_at (snd w') (dateKey stop) d =
          total_at st (dateKey stop) d
          + Z.max 0 (roundMs (now stop - default s (lastPersistedAt m))
                             (timeGranularityMs cfg)))
      /\ (lastStartTimestamp (fst w') = None
          \/ lastStartTimestamp (fst w') = Some (now (rd AtStart)))).
Proof.
  split.
  - intros w Hne. unfold onTabRemoved.
    rewrite bool_decide_eq_false_2 by congruence. reflexivity.
  - intros Htab Hd Hs Hp Hset Hd_ok Hp_ok w'. cbv zeta.
    set (clk := rd AtStop).
    pose proof (stopTracking_await_writes clk m st d s cfg Hd Hs Hp Hset Hd_ok Hp_ok)
      as Hstop.
    pose proof (stopTracking_await_counted clk m st d s cfg Hd Hs Hp Hset Hd_ok Hp_ok)
      as Hcount.
    set (w1 := stopTracking_await clk (m, st)) in *.
    assert (Hd1 : lastDomain (fst w1) = None) by (rewrite Hstop; reflexivity).
    assert (Hs1 : lastStartTimestamp (fst w1) = None) by (rewrite Hstop; reflexivity).
    assert (Hp1 : _pendingSession (snd w1) = None) by (rewrite Hstop; reflexivity).
    assert (Htl : timeline_at (snd w1) (dateKey clk) =
                  (timeline_at st (dateKey clk) ++
                    [{| blk_start := s; blk_end := now clk; blk_domain := d |}])%list).
    { rewrite Hstop. cbn [snd].
      erewrite timeline_at_days by (cbn [days]; reflexivity). reflexivity. }
    assert (Hres : days (snd w') = days (snd w1)
                   /\ (lastStartTimestamp (fst w') = None
                       \/ lastStartTimestamp (fst w') = Some (now (rd AtStart)))).
    { unfold w', onTabRemoved. cbn [fst].
      rewrite bool_decide_eq_true_2 by (symmetry; exact Htab).
      fold clk. fold w1. unfold resume_in_last_focused.
      destruct (chrome_windows_getLastFocused br) as [[wid |] |];
        try (split; [reflexivity | left; exact Hs1]).
      unfold query_and_handle.
      destruct (chrome_tabs_query br (Some wid)) as [[tab |] |];
        try (split; [reflexivity | left; exact Hs1]).
      apply (handleActiveTab_from_rest br (ref_id tab) (Some wid) rd
               (set_lastFocusedWindowId (Some wid) (fst w1), snd w1));
        assumption. }
    destruct Hres as [Hdays Hstart].
    split; [exact Hdays |]. split; [| split; [| exact Hstart]].
    + rewrite (timeline_at_same_days (snd w1) (snd w') (dateKey clk) Hdays).
      exact Htl.
    + intros Hown. unfold total_at. rewrite Hdays. exact (Hcount Hown).
Qed.

Lemma onTabRemoved_closes_block_witness :
  let br :=
    {| chrome_URL := basic_URL_hostname;
       chrome_tabs_get :=
         fun _ => Some {| tab_url := Some "https://www.rocq-prover.org/docs";
                          tab_incognito := false; tab_windowId := 1 |};
       chrome_windows_get := fun _ => true;
       chrome_windows_getLastFocused := Some (Some 1);
       chrome_tabs_query := fun _ => Some (Some {| ref_id := Some 9; ref_windowId := 1 |});
       chrome_tabs_query_current := None |} in
  let w' := onTabRemoved br 7 (end_then_start 1007500 1007540) started in
  onTabRemoved br 8 (end_then_start 1007500 1007540) started = started
  /\ timeline_at (snd w') "2025-02-13" =
     [{| blk_start := 1000000; blk_end := 1007500; blk_domain := "example.com" |}]
  /\ total_at (snd w') "2025-02-13" "example.com" = 7000
  /\ lastDomain (fst w') = Some "rocq-prover.org"
  /\ lastStartTimestamp (fst w') = Some 1007540.
Proof.
  intros br w'.
  destruct (onTabRemoved_closes_block br 8 (end_then_start 1007500 1007540)
              (fst started) (snd started) "example.com" 1000000
              default_settings) as [H1 _].
  destruct (onTabRemoved_closes_block br 7 (end_then_start 1007500 1007540)
              (fst started) (snd started) "example.com" 1000000
              default_settings) as [_ H2].
  destruct (H2 eq_refl eq_refl eq_refl eq_refl eq_refl eq_refl eq_refl)
    as (_ & Htl & Htot & _).
  split; [apply H1; discriminate |].
  split; [exact Htl |]. split; [exact (Htot eq_refl) |].
  split; vm_compute; reflexivity.
Defined.

(** ** Counters against blocks *)

Lemma roundMs_loss (x g : Z) :
  0 <= x -> 0 <= x - Z.max 0 (roundMs x g) <= Z.max 0 (g - 1).
Proof.
  intros Hx. pose proof (roundMs_le x g) as Hle.
  pose proof (roundMs_nonneg x g Hx) as Hnn.
  destruct (Z_lt_le_dec 0 g) as [Hg | Hg].
  - pose proof (roundMs_gt x g Hg). lia.
  - rewrite (roundMs_nonpos x g Hg). lia.
Qed.

Lemma block_time_same (st st' : Storage) (key d : string) :
  timeline_at st' key = timeline_at st key ->
  block_time st' key d = block_time st key d.
Proof. unfold block_time. intros ->. reflexivity. Qed.

Lemma block_time_snoc (st st' : Storage) (key d : string) (b : Block) :
  timeline_at st' key = (timeline_at st key ++ [b])%list ->
  block_time st' key d =
  block_time st key d + (if decide (blk_domain b = d) then duration b else 0).
Proof.
  unfold block_time. intros ->. rewrite filter_snoc_domain.
  destruct (decide (blk_domain b = d)).
  - rewrite duration_sum_snoc. reflexivity.
  - rewrite app_nil_r. lia.
Qed.

Lemma counted_start (tabs_get : Z -> option Tab) (cfg : Settings)
  (key d : string) (t bound : Z) (clk : Clock) (hostname : string)
  (tabId : option Z) (w : World) :
  counted_inv cfg key d false t bound w -> t <= now clk ->
  counted_inv cfg key d true (now clk) bound
    (startTracking tabs_get hostname tabId clk w).
Proof.
  destruct w as [m st].
  intros (Hp & Hset & Hrun & Hshape & Hgap) Hle. cbn [fst snd] in *.
  specialize (Hrun eq_refl).
  destruct Hshape as [(_ & Hs & Hpa) | (d' & s & p & Hd' & _)];
    [| rewrite Hrun in Hd'; discriminate].
  unfold counter_gap, flushed_part in Hgap. cbn [fst snd] in Hgap.
  rewrite Hrun in Hgap.
  unfold startTracking. rewrite Hset.
  destruct (shouldTrack hostname (excludeDomains cfg)) eqn:Htrack; cbn [negb].
  - unfold counted_inv. cbn [fst snd pendingWrite settings lastDomain
      lastStartTimestamp lastPersistedAt lastTabIncognito].
    split; [exact Hp |]. split; [exact Hset |].
    split; [discriminate |]. split.
    + right. exists hostname, (now clk), (now clk).
      repeat split; try reflexivity; try lia. exact Htrack.
    + unfold counter_gap, flushed_part, block_time, total_at, timeline_at.
      cbn [fst snd lastDomain lastStartTimestamp lastPersistedAt days].
      unfold block_time, total_at, timeline_at in Hgap.
      destruct (String.eqb hostname d); lia.
  - unfold counted_inv. cbn [fst snd].
    split; [exact Hp |]. split; [exact Hset |].
    split; [discriminate |]. split; [left; repeat split; assumption |].
    unfold counter_gap, flushed_part. cbn [fst snd]. rewrite Hrun. exact Hgap.
Qed.

Lemma counted_flush (cfg : Settings) (key d : string) (running : bool)
  (t bound : Z) (clk : Clock) (w : World) :
  inherited d = false ->
  counted_inv cfg key d running t bound w -> t <= now clk ->
  dateKey clk = key ->
  counted_inv cfg key d running (now clk)
    (bound + Z.max 0 (timeGranularityMs cfg - 1))
    (persistRunningTotal clk w).
Proof.
  destruct w as [m st].
  intros Hown (Hp & Hset & Hrun & Hshape & Hgap) Hle Hkey. cbn [fst snd] in *.
  destruct Hshape as [(Hd & Hs & Hpa) | (d' & s & p & Hd & Hs & Hpa & Hsp & Htrack & Hfix)].
  - rewrite persistRunningTotal_no_session by (left; exact Hd).
    split; [exact Hp |]. split; [exact Hset |]. split; [exact Hrun |].
    split; [left; repeat split; assumption |]. lia.
  - destruct (persistRunningTotal_active clk m st d' s cfg Hd Hs Hset Htrack)
      as (H1 & H2 & _ & H4 & _ & _ & _ & _ & H9 & H10 & _ & _ & H13 & H14 & _
          & H16 & H17).
    set (w' := persistRunningTotal clk (m, st)) in *.
    rewrite Hpa in H16, H17. cbn [from_option id] in H16.
    rewrite Hkey in H14, H16.
    assert (Hloss := roundMs_loss (now clk - p) (timeGranularityMs cfg)
                       ltac:(lia)).
    split; [destruct H9 as [H9 | H9]; rewrite H9; [exact Hp | reflexivity] |].
    split; [rewrite H10; exact Hset |].
    split; [intros Hr; specialize (Hrun Hr); rewrite Hrun in Hd; discriminate |].
    split.
    + right.
      exists d', s,
        (if persistable cfg (lastTabIncognito m) then now clk else p).
      rewrite H4.
      split; [exact H1 |]. split; [exact H2 |].
      split; [rewrite H17; destruct (persistable cfg (lastTabIncognito m));
                reflexivity |].
      split; [destruct (persistable cfg (lastTabIncognito m)); lia |].
      split; [exact Htrack |].
      intros Hno. rewrite Hno. apply Hfix. exact Hno.
    + unfold counter_gap in *. cbn [fst snd] in Hgap.
      rewrite (block_time_same st (snd w') key d (H13 key)).
      unfold flushed_part in *. rewrite H1, H2, H17. rewrite Hd, Hs, Hpa in Hgap.
      destruct (String.eqb d' d) eqn:E.
      * apply String.eqb_eq in E. subst d'. rewrite (H16 Hown).
        destruct (persistable cfg (lastTabIncognito m)); lia.
      * apply String.eqb_neq in E.
        rewrite (total_at_entry (snd w')).
        rewrite (H14 key d) by (right; congruence).
        rewrite (total_at_entry st) in Hgap.
        destruct (persistable cfg (lastTabIncognito m)); lia.
Qed.

Lemma counted_stop (cfg : Settings) (key d : string) (running : bool)
  (t bound : Z) (clk : Clock) (w : World) :
  inherited d = false ->
  counted_inv cfg key d running t bound w -> t <= now clk ->
  dateKey clk = key ->
  counted_inv cfg key d false (now clk)
    (bound + Z.max 0 (timeGranularityMs cfg - 1))
    (stopTracking_await clk w).
Proof.
  destruct w as [m st].
  intros Hown (Hp & Hset & Hrun & Hshape & Hgap) Hle Hkey. cbn [fst snd] in *.
  destruct Hshape as [(Hd & Hs & Hpa) | (d' & s & p & Hd & Hs & Hpa & Hsp & Htrack & Hfix)].
  - rewrite stopTracking_await_no_session by (left; exact Hd).
    split; [exact Hp |]. split; [exact Hset |]. split; [intros _; exact Hd |].
    split; [left; repeat split; assumption |]. lia.
  - assert (Hloss := roundMs_loss (now clk - p) (timeGranularityMs cfg)
                       ltac:(lia)).
    unfold counter_gap, flushed_part in Hgap. cbn [fst snd] in Hgap.
    rewrite Hd, Hs, Hpa in Hgap.
    destruct (persistable cfg (lastTabIncognito m)) eqn:Hok.
    + pose proof (stopTracking_await_counted clk m st d' s cfg Hd Hs Hp Hset
                    Htrack Hok) as Hcount.
      rewrite Hpa in Hcount. cbn [from_option id] in Hcount.
      rewrite (stopTracking_await_writes clk m st d' s cfg Hd Hs Hp Hset Htrack Hok)
        in Hcount |- *.
      cbn [snd] in Hcount. rewrite Hkey in Hcount |- *.
      match goal with
      | |- counted_inv _ _ _ _ _ _ (_, ?st1) => set (st' := st1) in *
      end.
      assert (Htl : timeline_at st' key =
                    (timeline_at st key ++
                      [{| blk_start := s; blk_end := now clk;
                          blk_domain := d' |}])%list).
      { unfold st'. erewrite timeline_at_days by (cbn [days]; reflexivity).
        reflexivity. }
      split; [reflexivity |]. split; [exact Hset |].
      split; [intros _; reflexivity |].
      split; [left; repeat split; reflexivity |].
      unfold counter_gap, flushed_part. cbn [fst snd lastDomain clear_session_end
        set_pendingWrite].
      rewrite (block_time_snoc st st' key d _ Htl). cbn [blk_domain duration
        blk_start blk_end]. unfold duration. cbn [blk_start blk_end].
      destruct (decide (d' = d)) as [-> | Hne].
      * rewrite String.eqb_refl in Hgap. rewrite (Hcount Hown). lia.
      * assert (E : String.eqb d' d = false) by (apply String.eqb_neq; exact Hne).
        rewrite E in Hgap.
        assert (Hsame : total_at st' key d = total_at st key d).
        { unfold st', total_at, ms_of, day_of. cbn [days].
          rewrite lookup_insert_eq. cbn [from_option id domains].
          rewrite store_ms_lookup_ne by congruence. reflexivity. }
        rewrite Hsame. lia.
    + rewrite (stopTracking_await_discards clk m st d' s cfg Hd Hs Hp Hset
                 (or_intror Hok)).
      specialize (Hfix eq_refl). subst p.
      split; [reflexivity |]. split; [exact Hset |].
      split; [intros _; reflexivity |].
      split; [left; repeat split; reflexivity |].
      unfold counter_gap, flushed_part. cbn [fst snd lastDomain clear_session_end
        set_pendingWrite].
      destruct (String.eqb d' d); lia.
Qed.

Lemma counted_run (tabs_get : Z -> option Tab) (cfg : Settings) (key d : string)
  (evs : list (Clock * TrackerOp)) :
  inherited d = false ->
  forall (running : bool) (t bound : Z) (w : World),
    counted_inv cfg key d running t bound w ->
    stop_before_start running (snd <$> evs) ->
    nondecreasing t (fst <$> evs) ->
    Forall (fun e => dateKey (fst e) = key) evs ->
    exists (running' : bool) (t' : Z),
      counted_inv cfg key d running' t'
        (bound + Z.of_nat (length evs) * Z.max 0 (timeGranularityMs cfg - 1))
        (run tabs_get evs w).
Proof.
  intros Hown.
  induction evs as [| [clk op] evs IH]; intros running t bound w Hinv Hops Hclk Hkey.
  - exists running, t. cbn [length run]. rewrite Z.add_0_r. exact Hinv.
  - cbn [fmap list_fmap] in Hops, Hclk. cbn [snd fst] in Hops, Hclk.
    destruct Hclk as [Hle Hclk].
    apply Forall_cons in Hkey as [Hk Hkey]. cbn [fst] in Hk.
    cbn [run length]. rewrite Nat2Z.inj_succ.
    set (M := Z.max 0 (timeGranularityMs cfg - 1)) in *.
    assert (HM : 0 <= M) by (unfold M; lia).
    assert (Hweak : forall (r : bool) (w1 : World),
              counted_inv cfg key d r (now clk) (bound + M) w1 ->
              stop_before_start r (snd <$> evs) ->
              exists (running' : bool) (t' : Z),
                counted_inv cfg key d running' t'
                  (bound + Z.succ (Z.of_nat (length evs)) * M)
                  (run tabs_get evs w1)).
    { intros r w1 Hinv1 Hops1.
      destruct (IH r (now clk) (bound + M) w1 Hinv1 Hops1 Hclk Hkey)
        as (r' & t' & Hres).
      exists r', t'.
      replace (bound + Z.succ (Z.of_nat (length evs)) * M)
        with (bound + M + Z.of_nat (length evs) * M) by lia.
      exact Hres. }
    destruct op as [hostname tabId | | | v]; cbn [stop_before_start] in Hops;
      cbn [step].
    + destruct Hops as [-> Hops].
      apply (Hweak true); [| exact Hops].
      pose proof (counted_start tabs_get cfg key d t bound clk hostname tabId w
                    Hinv Hle) as (H1 & H2 & H3 & H4 & H5).
      split; [exact H1 |]. split; [exact H2 |]. split; [exact H3 |].
      split; [exact H4 | lia].
    + apply (Hweak running); [| exact Hops].
      apply (counted_flush cfg key d running t bound clk w Hown Hinv Hle Hk).
    + apply (Hweak false); [| exact Hops].
      apply (counted_stop cfg key d running t bound clk w Hown Hinv Hle Hk).
    + contradiction.
Qed.

(** X25. Over any sequence of starts, flushes and awaited stops on a
    fresh service worker, in which each start comes first or after a stop
    and the settings stay as they are, with a clock that does not go back
    and one date key: for every domain whose name is not one that objects
    inherit, the counter never exceeds the time
    its blocks span plus the flushed part of its running session, and it
    falls short of that by at most one granularity unit less one
    millisecond per operation; with a granularity of 1 or less the two
    agree exactly. In particular, when no session is running the counter
    is at most the time of the blocks. *)
Theorem run_counter_within_blocks (tabs_get : Z -> option Tab) (v : JSVal)
  (cfg : Settings) (key d : string) (evs : list (Clock * TrackerOp)) (t : Z) :
  getSettings (Some v) = Some cfg ->
  inherited d = false ->
  stop_before_start false (snd <$> evs) ->
  nondecreasing t (fst <$> evs) ->
  Forall (fun e => dateKey (fst e) = key) evs ->
  let w' := run tabs_get evs (fresh_mem, storage_with v) in
  0 <= counter_gap w' key d
       <= Z.of_nat (length evs) * Z.max 0 (timeGranularityMs cfg - 1)
  /\ (timeGranularityMs cfg <= 1 -> counter_gap w' key d = 0)
  /\ (lastDomain (fst w') = None ->
      total_at (snd w') key d <= block_time (snd w') key d).
Proof.
  intros Hset Hown Hops Hclk Hkey w'.
  assert (Hinit : counted_inv cfg key d false t 0 (fresh_mem, storage_with v)).
  { split; [reflexivity |]. split; [exact Hset |]. split; [reflexivity |].
    split; [left; repeat split; reflexivity |].
    unfold counter_gap, block_time, flushed_part, total_at, timeline_at, ms_of,
      day_of. cbn [fst snd storage_with days fresh_mem lastDomain].
    rewrite lookup_empty. cbn [from_option id empty_day domains timeline].
    rewrite lookup_empty. cbn. lia. }
  destruct (counted_run tabs_get cfg key d evs Hown false t 0 _ Hinit Hops Hclk Hkey)
    as (r & t' & _ & _ & _ & _ & Hgap).
  fold w' in Hgap. rewrite Z.add_0_l in Hgap.
  split; [exact Hgap |]. split.
  - intros Hg. rewrite Z.max_l in Hgap by lia. lia.
  - intros Hd. unfold counter_gap, flushed_part in Hgap. rewrite Hd in Hgap. lia.
Qed.

Lemma run_counter_within_blocks_witness :
  let evs :=
    [(at_time 100, OpStart "a.com" (Some 1));
     (at_time 2600, OpFlush);
     (at_time 4100, OpStop);
     (at_time 4100, OpStart "b.com" (Some 2));
     (at_time 6000, OpStop);
     (at_time 7000, OpStart "a.com" (Some 1));
     (at_time 9500, OpStop)] in
  let w' := run regular_tabs evs
              (fresh_mem, storage_with (settings_of [] 1000 false)) in
  block_time (snd w') "2025-02-13" "a.com" = 6500
  /\ total_at (snd w') "2025-02-13" "a.com" = 5000
  /\ 0 <= counter_gap w' "2025-02-13" "a.com" <= 7 * 999.
Proof.
  intros evs w'.
  destruct (run_counter_within_blocks regular_tabs (settings_of [] 1000 false)
              default_settings "2025-02-13" "a.com" evs 0 eq_refl eq_refl)
    as (H & _ & _).
  - cbn. repeat split; reflexivity.
  - cbn. unfold at_time. cbn [now]. repeat split; lia.
  - repeat constructor.
  - split; [vm_compute; reflexivity |]. split; [vm_compute; reflexivity |].
    exact H.
Defined.

(** ** Loss of context *)

Lemma stopTracking_nowait_clears (w : World) :
  mem_wf (fst w) -> pendingWrite (fst w) = None ->
  let w' := stopTracking_nowait w in
  lastDomain (fst w') = None /\ lastStartTimestamp (fst w') = None
  /\ lastTabId (fst w') = None
  /\ lastFocusedWindowId (fst w') = lastFocusedWindowId (fst w)
  /\ snd w' = snd w.
Proof.
  destruct w as [m st]. cbn [fst snd]. intros [Hnone Hsome] Hp.
  unfold stopTracking_nowait, stopTracking. cbn [fst snd].
  destruct (lastDomain m) as [d |] eqn:Hd.
  - destruct (Hsome ltac:(discriminate)) as [Hs _].
    destruct (lastStartTimestamp m) as [s |] eqn:Hs'; [| contradiction].
    rewrite Hp. unfold endSession_claim. cbn. repeat split; reflexivity.
  - destruct (Hnone eq_refl) as (Hs & _ & Ht).
    cbn [fst]. rewrite Hd, Hs, Ht. repeat split; reflexivity.
Qed.

Lemma persistRunningTotal_pending (clk : Clock) (w : World) :
  pendingWrite (fst w) = None ->
  pendingWrite (fst (persistRunningTotal clk w)) = None.
Proof.
  destruct w as [m st]. cbn [fst]. intros Hp. rewrite persistRunningTotal_unfold.
  destruct (lastDomain m); [| exact Hp].
  destruct (lastStartTimestamp m); [| exact Hp].
  destruct (getSettings (settings st)); [| exact Hp].
  destruct (negb _); [exact Hp |].
  destruct (_ && _); [exact Hp |].
  cbv zeta. destruct (_ <=? 0); [exact Hp | reflexivity].
Qed.

(** X26. Loss of context stops the session. With consistent session
    variables and no stop pending: when the browser reports that no window
    has the focus, [handleWindowFocus] clears the session and the focused
    window at once and leaves storage to the pending stop; when the query
    for the active tab of the newly focused window fails, it leaves no
    session in memory; and when the window or tab query of the periodic
    alarm fails, the alarm leaves no session in memory. *)
Theorem lost_context_stops_session (br : Chrome) (windowId : Z) (rd : Readings)
  (w : World) :
  mem_wf (fst w) -> pendingWrite (fst w) = None ->
  (let w' := handleWindowFocus br WINDOW_ID_NONE rd w in
   lastDomain (fst w') = None /\ lastFocusedWindowId (fst w') = None
   /\ snd w' = snd w)
  /\ (windowId <> WINDOW_ID_NONE ->
      chrome_tabs_query br (Some windowId) = None ->
      let w' := handleWindowFocus br windowId rd w in
      lastDomain (fst w') = None /\ lastStartTimestamp (fst w') = None
      /\ lastFocusedWindowId (fst w') = Some windowId)
  /\ (chrome_windows_getLastFocused br = None
      \/ (forall wid : option Z, chrome_tabs_query br wid = None) ->
      let w' := onAlarm br ALARM_PERSIST rd w in
      lastDomain (fst w') = None).
Proof.
  intros Hwf Hp. split; [| split].
  - pose proof (stopTracking_nowait_clears w Hwf Hp) as H. cbv zeta in H.
    destruct H as (H1 & _ & _ & _ & H5).
    unfold handleWindowFocus. rewrite Z.eqb_refl.
    destruct (stopTracking_nowait w) as [m1 st1]. cbn [fst snd] in *.
    repeat split; assumption.
  - intros Hne Hq w'. unfold w', handleWindowFocus.
    destruct (windowId =? WINDOW_ID_NONE) eqn:E;
      [apply Z.eqb_eq in E; contradiction |].
    cbv zeta. unfold query_and_handle. rewrite Hq.
    set (w1 := (set_lastFocusedWindowId (Some windowId) (fst w), snd w)).
    assert (Hwf1 : mem_wf (fst w1)).
    { apply (mem_wf_same (fst w)); try reflexivity. exact Hwf. }
    assert (Hp1 : pendingWrite (fst w1) = None) by exact Hp.
    set (w2 := if negb (bool_decide (lastFocusedWindowId (fst w) = Some windowId))
               then stopTracking_await (rd AtStop) w1 else w1).
    assert (H2 : mem_wf (fst w2) /\ pendingWrite (fst w2) = None
                 /\ lastFocusedWindowId (fst w2) = Some windowId).
    { unfold w2. destruct (negb _).
      - destruct w1 as [m1 st1] eqn:Hw1. cbn [fst] in Hwf1, Hp1.
        pose proof (stopTracking_await_clears (rd AtStop) m1 st1 Hwf1 Hp1) as Hc.
        cbv zeta in Hc. destruct Hc as (Hc1 & Hc2 & Hc3 & Hc4 & Hc5).
        pose proof (stopTracking_await_frame (rd AtStop) (m1, st1)) as Hf.
        cbv zeta in Hf. destruct Hf as [Hf _].
        split; [apply mem_wf_cleared; assumption |].
        split; [exact Hc5 |]. rewrite Hf.
        injection Hw1 as <- _. reflexivity.
      - split; [exact Hwf1 |]. split; [exact Hp1 | reflexivity]. }
    destruct H2 as (Hwf2 & Hp2 & Hf2).
    pose proof (stopTracking_nowait_clears w2 Hwf2 Hp2) as H. cbv zeta in H.
    destruct H as (H1 & H2 & _ & H4 & _).
    split; [exact H1 |]. split; [exact H2 |]. rewrite H4. exact Hf2.
  - intros Hfail w'. unfold w', onAlarm. rewrite String.eqb_refl. cbn [negb].
    set (w1 := persistRunningTotal (rd AtFlush) w).
    assert (Hwf1 : mem_wf (fst w1)) by (apply mem_wf_persistRunningTotal; exact Hwf).
    assert (Hp1 : pendingWrite (fst w1) = None)
      by (apply persistRunningTotal_pending; exact Hp).
    pose proof (stopTracking_nowait_clears w1 Hwf1 Hp1) as H. cbv zeta in H.
    destruct H as (Hstop & _).
    unfold reconcileWithCurrentTab.
    destruct (lastDomain (fst w1)) as [d |] eqn:Hd; [| exact Hd].
    destruct Hfail as [Hwin | Hq].
    + rewrite Hwin. exact Hstop.
    + destruct (chrome_windows_getLastFocused br) as [win |]; [| exact Hstop].
      cbv zeta.
      destruct (match win with
                | Some wid =>
                    if bool_decide (Some wid = lastFocusedWindowId (fst w1))
                    then None else Some wid
                | None => None
                end) as [wid |].
      * destruct w1 as [m1 st1] eqn:Hw1. cbn [fst] in Hwf1, Hp1.
        pose proof (stopTracking_await_clears (rd AtStop) m1 st1 Hwf1 Hp1) as Hc.
        cbv zeta in Hc. destruct Hc as (Hc1 & Hc2 & Hc3 & Hc4 & Hc5).
        destruct (stopTracking_await (rd AtStop) (m1, st1)) as [m2 st2].
        cbn [fst] in *. unfold query_and_handle. rewrite Hq.
        pose proof (stopTracking_nowait_clears
                      (set_lastFocusedWindowId (Some wid) m2, st2)) as H.
        cbv zeta in H. apply H.
        -- apply mem_wf_cleared; assumption.
        -- exact Hc5.
      * rewrite Hq. exact Hstop.
Qed.

Lemma lost_context_stops_session_witness :
  let br :=
    {| chrome_URL := basic_URL_hostname;
       chrome_tabs_get := regular_tabs;
       chrome_windows_get := fun _ => true;
       chrome_windows_getLastFocused := None;
       chrome_tabs_query := fun _ => None;
       chrome_tabs_query_current := None |} in
  lastDomain (fst started) = Some "example.com"
  /\ lastDomain (fst (handleWindowFocus br WINDOW_ID_NONE
                        (always (at_time 1005000)) started)) = None
  /\ lastDomain (fst (handleWindowFocus br 3 (always (at_time 1005000)) started)) = None
  /\ lastDomain (fst (onAlarm br ALARM_PERSIST (always (at_time 1030000)) started))
     = None.
Proof.
  intros br.
  assert (Hwf : mem_wf (fst started)).
  { split; [discriminate |]. intros _. split; discriminate. }
  destruct (lost_context_stops_session br 3 (always (at_time 1005000)) started
              Hwf eq_refl)
    as ((H1 & _) & H2 & _).
  destruct (lost_context_stops_session br 3 (always (at_time 1030000)) started
              Hwf eq_refl)
    as (_ & _ & H3).
  destruct (H2 ltac:(discriminate) eq_refl) as (H2' & _).
  split; [reflexivity |]. split; [exact H1 |]. split; [exact H2' |].
  apply H3. left. reflexivity.
Defined.
